(** * NanoAi: the JNI bridge to llama.cpp (app/src/main/cpp/llama_jni.cpp)

    A shallow embedding of the bridge's session manager: the global
    handles and flags, model loading and unloading, the prefill batch, the
    generation loop with its sampling pipeline, and the cooperative stop
    flag.

    The llama.cpp engine is an external library.  It is taken as a record
    of operations over three abstract types: the loaded model (immutable,
    every function that takes a [const llama_model *] is a pure function
    of it), the decoding context (every function that takes a
    [llama_context *] returns the new context state), and the world
    outside (file system, free memory, clock) that loading depends on.

    Every engine call and every store to one of the two atomic flags is
    recorded, in order, in a ghost [trace] kept in the state.

    Conventions.  The logging macros do not act on the state and are left
    out, and so is [llama_batch_free], which only releases the arrays of a
    batch.  Conversions between integer types are written out
    ([to_int32], [to_uint32]); [int] arithmetic that stays in range for
    operands in range ([n_ctx - 4], [i++], [n_cur++]) is arithmetic on
    [Z].  Running out of memory is not modelled.  Every JNI function but
    [stopGeneration] and [isGenerating] holds [g_mutex] for its whole
    body, so it is one transformer of the state; what another thread can
    do to a running [generate] is to store [true] to [g_stop_requested],
    see [concurrent_stop]. *)

From Stdlib Require Import ZArith Bool Lia.
From Stdlib Require Import Floats.SpecFloat.
From stdpp Require Import base list strings.

Local Open Scope Z_scope.

(** ** Machine integers *)

(** Conversion of a mathematical integer to [uint32_t] and to [int]. *)
Definition to_uint32 (z : Z) : Z := z mod 2 ^ 32.
Definition to_int32 (z : Z) : Z := (z + 2 ^ 31) mod 2 ^ 32 - 2 ^ 31.
(** [size_t] subtraction, as in [tokens.size() - 1]. *)
Definition size_t_sub (a b : Z) : Z := (a - b) mod 2 ^ 64.

(** ** Floats

    [jfloat] and [float] are IEEE-754 binary32 values; comparisons with
    zero are those of [SpecFloat].  A NaN compares false with everything. *)
Abbreviation float := spec_float.

Definition float_zero : float := S754_zero false.
(** [x > 0] and [x >= 0] on floats. *)
Definition float_gt0 (x : float) : bool := SFltb float_zero x.
Definition float_ge0 (x : float) : bool := SFleb float_zero x.

(** The sign of a float, as the comparisons with zero see it. *)
Inductive float_sign := FPositive | FZero | FNegative | FNaN.

Definition float_sign_of (x : float) : float_sign :=
  match x with
  | S754_zero _ => FZero
  | S754_nan => FNaN
  | S754_infinity s | S754_finite s _ _ =>
    if s then FNegative else FPositive
  end.

(** The literals [0.7f], [0.9f], [1.1f] (binary32 nearest values). *)
Definition f_0_7 : float := S754_finite false 11744051 (-24).
Definition f_0_9 : float := S754_finite false 15099494 (-24).
Definition f_1_1 : float := S754_finite false 9227469 (-23).

(** binary32 arithmetic, used by the embedding normalisation. *)
Definition f32_add : float -> float -> float := SFadd 24 128.
Definition f32_mul : float -> float -> float := SFmul 24 128.
Definition f32_div : float -> float -> float := SFdiv 24 128.
Definition sqrtf : float -> float := SFsqrt 24 128.

(** ** Data of the engine interface (llama.h) *)

Abbreviation llama_token := Z (only parsing).
Abbreviation llama_pos := Z (only parsing).
Abbreviation llama_seq_id := Z (only parsing).

(** A Java string reference; [None] is the null reference. *)
Abbreviation jstring := (option string).

Record llama_token_data := {
  id : llama_token;
  logit : float;
  p : float
}.

Record llama_token_data_array := {
  data : list llama_token_data;
  sorted : bool
}.

(** [size] of a candidate array is the length of its data. *)
Definition size (a : llama_token_data_array) : nat := length (data a).

(** A batch as the bridge uses it: parallel arrays allocated by
    [llama_batch_init] and [n_tokens], the number of entries filled.
    Every entry of [seq_id] points to the one local [seq_id] variable,
    modelled by its value. *)
Record llama_batch := {
  n_tokens : Z;
  token : list llama_token;
  pos : list llama_pos;
  n_seq_id : list Z;
  seq_id : list llama_seq_id;
  logits : list bool
}.

(** The fields of the parameter structures that the bridge sets; the
    remaining fields keep the engine's defaults and are left out. *)
Record llama_model_params := {
  use_mmap : bool;
  use_mlock : bool
}.

Record llama_context_params := {
  cp_n_ctx : Z;
  cp_n_threads : Z;
  cp_n_threads_batch : Z;
  cp_seed : Z
}.

(** ** Generation parameters (struct GenerationParams) *)

Record GenerationParams := {
  max_tokens : Z;
  temperature : float;
  top_p : float;
  top_k : Z;
  repeat_penalty : float;
  n_threads : Z;
  n_ctx : Z
}.

(** The member initialisers of the struct: the value of [g_params] at
    process start. *)
Definition GenerationParams_init : GenerationParams := {|
  max_tokens := 512;
  temperature := f_0_7;
  top_p := f_0_9;
  top_k := 40;
  repeat_penalty := f_1_1;
  n_threads := 4;
  n_ctx := 2048
|}.

(** ** Outcome of a native call

    [Throws] is an uncaught C++ exception ([std::length_error] from
    [vector::resize] with a negative count converted to [size_t]), which
    terminates the process. *)
Inductive outcome (A : Type) : Type :=
| Returns (a : A)
| Throws.
Arguments Returns {A} a.
Arguments Throws {A}.

Section Bridge.

Context {llama_model llama_context world : Type}.

(** ** The engine and the host, as far as the bridge calls them *)

Record Engine := {
  (* backend and lifecycle: they act on the world outside *)
  llama_backend_init : world -> world;
  llama_backend_free : world -> world;
  llama_load_model_from_file :
    string -> llama_model_params -> world -> option llama_model * world;
  llama_new_context_with_model :
    llama_model -> llama_context_params -> world ->
    option llama_context * world;
  llama_free : llama_context -> world -> world;
  llama_free_model : llama_model -> world -> world;
  (* queries on the model: [const llama_model *]; the size of the
     vocabulary is a count *)
  llama_tokenize :
    llama_model -> string -> nat -> bool -> Z * list llama_token;
  llama_token_to_piece : llama_model -> llama_token -> nat -> Z * string;
  llama_n_vocab : llama_model -> N;
  llama_n_embd : llama_model -> Z;
  llama_token_eos : llama_model -> llama_token;
  (* the context *)
  llama_n_ctx : llama_context -> Z;
  llama_kv_cache_clear : llama_context -> llama_context;
  llama_decode : llama_context -> llama_batch -> Z * llama_context;
  llama_get_logits : llama_context -> list float * llama_context;
  llama_get_embeddings : llama_context -> option (list float) * llama_context;
  llama_set_n_threads : llama_context -> Z -> Z -> llama_context;
  llama_sample_top_k :
    llama_context -> llama_token_data_array -> Z -> Z ->
    llama_token_data_array * llama_context;
  llama_sample_top_p :
    llama_context -> llama_token_data_array -> float -> Z ->
    llama_token_data_array * llama_context;
  llama_sample_temp :
    llama_context -> llama_token_data_array -> float ->
    llama_token_data_array * llama_context;
  llama_sample_token :
    llama_context -> llama_token_data_array -> llama_token * llama_context;
  (* the host: [time(nullptr)] and the MemAvailable line of /proc/meminfo
     (in kB; [None] when the file or the line is missing) *)
  time : world -> Z;
  meminfo_available_kb : world -> option Z
}.

Variable E : Engine.

(** ** The trace of engine calls and flag stores *)

Inductive Event :=
| EvBackendInit
| EvBackendFree
| EvLoadModel (path : string) (params : llama_model_params)
              (result : option llama_model)
| EvNewContext (m : llama_model) (params : llama_context_params)
               (result : option llama_context)
| EvFree (c : llama_context)
| EvFreeModel (m : llama_model)
| EvTokenize (text : string) (n_max : nat) (add_bos : bool)
| EvTokenToPiece (t : llama_token)
| EvNVocab
| EvNEmbd
| EvTokenEos
| EvNCtx
| EvKvCacheClear
| EvDecode (b : llama_batch) (status : Z)
| EvGetLogits
| EvGetEmbeddings
| EvSetNThreads (n : Z)
| EvSampleTopK (k : Z) (min_keep : Z)
| EvSampleTopP (p : float) (min_keep : Z)
| EvSampleTemp (t : float)
| EvSampleToken
| EvStoreIsGenerating (b : bool)
| EvStoreStopRequested (b : bool).

(** ** Global state

    [g_model] and [g_ctx] are the two handles: [None] is [nullptr], and
    [Some x] is a live handle with the state [x] of the object it points
    to.  [backend_initialized] is the function-local static of
    [loadModel]. *)
Record State := {
  g_model : option llama_model;
  g_ctx : option llama_context;
  g_is_generating : bool;
  g_stop_requested : bool;
  g_params : GenerationParams;
  backend_initialized : bool;
  the_world : world;
  trace : list Event
}.

Definition set_g_model (m : option llama_model) (st : State) : State :=
  {| g_model := m; g_ctx := g_ctx st;
     g_is_generating := g_is_generating st;
     g_stop_requested := g_stop_requested st;
     g_params := g_params st;
     backend_initialized := backend_initialized st;
     the_world := the_world st; trace := trace st |}.

Definition set_g_ctx (c : option llama_context) (st : State) : State :=
  {| g_model := g_model st; g_ctx := c;
     g_is_generating := g_is_generating st;
     g_stop_requested := g_stop_requested st;
     g_params := g_params st;
     backend_initialized := backend_initialized st;
     the_world := the_world st; trace := trace st |}.

Definition set_g_is_generating (b : bool) (st : State) : State :=
  {| g_model := g_model st; g_ctx := g_ctx st;
     g_is_generating := b;
     g_stop_requested := g_stop_requested st;
     g_params := g_params st;
     backend_initialized := backend_initialized st;
     the_world := the_world st; trace := trace st |}.

Definition set_g_stop_requested (b : bool) (st : State) : State :=
  {| g_model := g_model st; g_ctx := g_ctx st;
     g_is_generating := g_is_generating st;
     g_stop_requested := b;
     g_params := g_params st;
     backend_initialized := backend_initialized st;
     the_world := the_world st; trace := trace st |}.

Definition set_g_params (gp : GenerationParams) (st : State) : State :=
  {| g_model := g_model st; g_ctx := g_ctx st;
     g_is_generating := g_is_generating st;
     g_stop_requested := g_stop_requested st;
     g_params := gp;
     backend_initialized := backend_initialized st;
     the_world := the_world st; trace := trace st |}.

Definition set_backend_initialized (b : bool) (st : State) : State :=
  {| g_model := g_model st; g_ctx := g_ctx st;
     g_is_generating := g_is_generating st;
     g_stop_requested := g_stop_requested st;
     g_params := g_params st;
     backend_initialized := b;
     the_world := the_world st; trace := trace st |}.

Definition set_the_world (w : world) (st : State) : State :=
  {| g_model := g_model st; g_ctx := g_ctx st;
     g_is_generating := g_is_generating st;
     g_stop_requested := g_stop_requested st;
     g_params := g_params st;
     backend_initialized := backend_initialized st;
     the_world := w; trace := trace st |}.

(** Record one event at the end of the trace. *)
Definition emit (e : Event) (st : State) : State :=
  {| g_model := g_model st; g_ctx := g_ctx st;
     g_is_generating := g_is_generating st;
     g_stop_requested := g_stop_requested st;
     g_params := g_params st;
     backend_initialized := backend_initialized st;
     the_world := the_world st; trace := trace st ++ [e] |}.

(** Stores to the two atomics. *)
Definition store_is_generating (b : bool) (st : State) : State :=
  emit (EvStoreIsGenerating b) (set_g_is_generating b st).

Definition store_stop_requested (b : bool) (st : State) : State :=
  emit (EvStoreStopRequested b) (set_g_stop_requested b st).

(** ** Helpers *)

Definition jstring_to_string (jstr : jstring) : string :=
  match jstr with
  | None => ""
  | Some chars => chars
  end.

(** [string_to_jstring]: [NewStringUTF(str.c_str())] reads the bytes of
    [str] up to its first NUL byte.  A Java string is kept as the bytes
    it is made from. *)
Fixpoint string_to_jstring (str : string) : string :=
  match str with
  | EmptyString => EmptyString
  | String c rest =>
    if Ascii.eqb c Ascii.zero then EmptyString
    else String c (string_to_jstring rest)
  end.

(** [get_available_memory]: 0 when /proc/meminfo cannot be read or has no
    MemAvailable line, else the value converted from kB to bytes. *)
Definition get_available_memory (w : world) : Z :=
  match meminfo_available_kb E w with
  | None => 0
  | Some available => (available * 1024) mod 2 ^ 64
  end.

(** The engine writes [out] at the start of the buffer [buf]; the size of
    the vector that owns the buffer does not change. *)
Definition write_buffer {A} (buf out : list A) : list A :=
  take (length buf) out ++ drop (length out) buf.

(** [std::vector::resize] called with an [int] count. *)
Definition vector_resize (n : Z) (v : list llama_token)
  : outcome (list llama_token) :=
  if n <? 0 then Throws else Returns (resize (Z.to_nat n) 0 v).

(** One call of [llama_tokenize] on the buffer of [tokens]; the engine
    returns an [int]. *)
Definition call_llama_tokenize (m : llama_model) (text : string)
    (tokens : list llama_token) (add_bos : bool) (st : State)
  : Z * list llama_token * State :=
  let '(n, out) := llama_tokenize E m text (length tokens) add_bos in
  (to_int32 n, write_buffer tokens out,
   emit (EvTokenize text (length tokens) add_bos) st).

Definition tokenize (text : string) (add_bos : bool) (st : State)
  : outcome (list llama_token) * State :=
  match g_model st with
  | None => (Returns [], st)
  | Some m =>
    let n_tokens :=
      to_int32 (Z.of_nat (String.length text)
                + (if add_bos then 1 else 0)) in
    match vector_resize n_tokens [] with
    | Throws => (Throws, st)
    | Returns tokens =>
      let '(n_tokens, tokens, st) :=
        call_llama_tokenize m text tokens add_bos st in
      let '(n_tokens, tokens, st) :=
        if n_tokens <? 0 then
          let tokens := resize (Z.to_nat (- n_tokens)) 0 tokens in
          call_llama_tokenize m text tokens add_bos st
        else (n_tokens, tokens, st) in
      (vector_resize n_tokens tokens, st)
    end
  end.

(** One turn of the loop of [detokenize]: [buf] has 256 bytes, the engine
    returns the number [n] of bytes of the piece and the content of the
    buffer, of which the first [n] bytes are appended. *)
Definition detokenize_step (m : llama_model) (acc : string * State)
    (token : llama_token) : string * State :=
  let '(result, st) := acc in
  let '(n, buf) := llama_token_to_piece E m token 256 in
  let st := emit (EvTokenToPiece token) st in
  if 0 <? n
  then (result +:+ String.substring 0 (Z.to_nat n) buf, st)
  else (result, st).

Definition detokenize (tokens : list llama_token) (st : State)
  : string * State :=
  match g_model st with
  | None => ("", st)
  | Some m => foldl (detokenize_step m) ("", st) tokens
  end.

(** ** Model management *)

(** [llama_free(g_ctx)] and [llama_free_model(g_model)]. *)
Definition call_llama_free (c : llama_context) (st : State) : State :=
  emit (EvFree c) (set_the_world (llama_free E c (the_world st)) st).

Definition call_llama_free_model (m : llama_model) (st : State) : State :=
  emit (EvFreeModel m)
       (set_the_world (llama_free_model E m (the_world st)) st).

(** The teardown shared by [loadModel], [unloadModel] and [freeBackend]:
    the context first, then the model. *)
Definition release_handles (st : State) : State :=
  let st :=
    match g_ctx st with
    | Some c => set_g_ctx None (call_llama_free c st)
    | None => st
    end in
  match g_model st with
  | Some m => set_g_model None (call_llama_free_model m st)
  | None => st
  end.

Definition loadModel (modelPath : jstring) (nCtx nThreads : Z) (st : State)
  : bool * State :=
  (* Unload existing model first *)
  let st := release_handles st in
  let path := jstring_to_string modelPath in
  (* Check available memory: logged only *)
  let available := get_available_memory (the_world st) in
  (* Initialize llama backend (only once) *)
  let st :=
    if backend_initialized st then st
    else set_backend_initialized true
           (emit EvBackendInit
              (set_the_world (llama_backend_init E (the_world st)) st)) in
  (* Model parameters *)
  let model_params := {| use_mmap := true; use_mlock := false |} in
  (* Load model *)
  let '(m, w) :=
    llama_load_model_from_file E path model_params (the_world st) in
  let st :=
    set_g_model m (emit (EvLoadModel path model_params m)
                        (set_the_world w st)) in
  match m with
  | None => (false, st)
  | Some model =>
    (* Context parameters *)
    let cp_n_ctx' :=
      to_uint32 (if 0 <? nCtx then nCtx else n_ctx (g_params st)) in
    let cp_n_threads' :=
      to_uint32 (if 0 <? nThreads then nThreads
                 else n_threads (g_params st)) in
    let ctx_params := {|
      cp_n_ctx := cp_n_ctx';
      cp_n_threads := cp_n_threads';
      cp_n_threads_batch := cp_n_threads';
      cp_seed := to_uint32 (time E (the_world st)) |} in
    (* Create context *)
    let '(c, w) :=
      llama_new_context_with_model E model ctx_params (the_world st) in
    let st :=
      set_g_ctx c (emit (EvNewContext model ctx_params c)
                        (set_the_world w st)) in
    match c with
    | None =>
      let st := call_llama_free_model model st in
      let st := set_g_model None st in
      (false, st)
    | Some _ =>
      (* Update params *)
      let gp := g_params st in
      let st := set_g_params {|
        max_tokens := max_tokens gp;
        temperature := temperature gp;
        top_p := top_p gp;
        top_k := top_k gp;
        repeat_penalty := repeat_penalty gp;
        n_threads := to_int32 (cp_n_threads ctx_params);
        n_ctx := to_int32 (cp_n_ctx ctx_params) |} st in
      (true, st)
    end
  end.

Definition unloadModel (st : State) : State := release_handles st.

Definition isModelLoaded (st : State) : bool :=
  match g_model st, g_ctx st with
  | Some _, Some _ => true
  | _, _ => false
  end.

(** ** Text generation *)

(** [llama_batch_init(n, 0, 1)]: arrays for [n] tokens and no token
    filled.  The arrays come from [malloc]; their initial content is not
    specified and every entry that is submitted is written first. *)
Definition llama_batch_init (n : nat) : llama_batch := {|
  n_tokens := 0;
  token := replicate n 0;
  pos := replicate n 0;
  n_seq_id := replicate n 0;
  seq_id := replicate n 0;
  logits := replicate n false
|}.

(** The body of the loop that fills the prompt batch, at index [i] of
    [tokens]. *)
Definition batch_fill_step (tokens : list llama_token)
    (seq_id0 : llama_seq_id) (batch : llama_batch) (i : nat) : llama_batch :=
  let k := Z.to_nat (n_tokens batch) in
  {| token := <[k := default 0 (tokens !! i)]> (token batch);
     pos := <[k := to_int32 (Z.of_nat i)]> (pos batch);
     n_seq_id := <[k := 1]> (n_seq_id batch);
     seq_id := <[k := seq_id0]> (seq_id batch);
     logits :=
       <[k := Z.of_nat i =? size_t_sub (Z.of_nat (length tokens)) 1]>
         (logits batch);
     n_tokens := n_tokens batch + 1 |}.

(** Process prompt in batch: the batch built by [generate] and by
    [getEmbedding] before the first [llama_decode]. *)
Definition prefill_batch (tokens : list llama_token) : llama_batch :=
  let batch := llama_batch_init (length tokens) in
  let seq_id0 := 0 in
  foldl (batch_fill_step tokens seq_id0) batch (seq 0 (length tokens)).

(** The batch of one generation step. *)
Definition next_batch (new_token : llama_token) (n_cur : Z) : llama_batch :=
  let b := llama_batch_init 1 in
  {| token := <[0%nat := new_token]> (token b);
     pos := <[0%nat := n_cur]> (pos b);
     n_seq_id := <[0%nat := 1]> (n_seq_id b);
     seq_id := <[0%nat := 0]> (seq_id b);
     logits := <[0%nat := true]> (logits b);
     n_tokens := 1 |}.

(** Create candidates: one entry per vocabulary id, in order. *)
Definition make_candidates (n_vocab : Z) (lg : list float)
  : list llama_token_data :=
  (fun token_id =>
     {| id := token_id;
        logit := default float_zero (lg !! Z.to_nat token_id);
        p := float_zero |}) <$> seqZ 0 n_vocab.

(** [stopGeneration] and [isGenerating] take no lock. *)
Definition stopGeneration (st : State) : State :=
  store_stop_requested true st.

Definition isGenerating (st : State) : bool := g_is_generating st.

(** Other threads: [stops i] tells whether a [stopGeneration] call of
    another thread takes effect after the previous read of
    [g_stop_requested] by the generating thread (for [i = 0]: after
    [generate] cleared the flag) and before the read in the loop test of
    iteration [i].  The flag is read nowhere else, so this is the whole
    effect other threads have on a [generate] call; a request that lands
    after the last read is left to the next call, which clears it. *)
Definition concurrent_stop (stops : Z -> bool) (i : Z) (st : State) : State :=
  if stops i then stopGeneration st else st.

Inductive loop_exit := Continue | Break.

(** The variables of the generation loop: the local [generated] and
    [n_cur], the state of the context and the global state. *)
Record LoopVars := {
  generated : list llama_token;
  n_cur : Z;
  lv_ctx : llama_context;
  lv_st : State
}.

(** The body of the generation loop. *)
Definition generation_body (model : llama_model)
    (temp top_p_val : float) (top_k_val : Z) (n_vocab : Z)
    (v : LoopVars) : loop_exit * LoopVars :=
  let ctx := lv_ctx v in
  let st := lv_st v in
  (* Get logits *)
  let '(lg, ctx) := llama_get_logits E ctx in
  let st := emit EvGetLogits st in
  (* Create candidates *)
  let candidates := make_candidates n_vocab lg in
  let candidates_p := {| data := candidates; sorted := false |} in
  (* Apply sampling *)
  let '(candidates_p, ctx) :=
    llama_sample_top_k E ctx candidates_p top_k_val 1 in
  let st := emit (EvSampleTopK top_k_val 1) st in
  let '(candidates_p, ctx) :=
    llama_sample_top_p E ctx candidates_p top_p_val 1 in
  let st := emit (EvSampleTopP top_p_val 1) st in
  let '(candidates_p, ctx) := llama_sample_temp E ctx candidates_p temp in
  let st := emit (EvSampleTemp temp) st in
  let '(new_token, ctx) := llama_sample_token E ctx candidates_p in
  let st := emit EvSampleToken st in
  (* Check for EOS *)
  let st := emit EvTokenEos st in
  if new_token =? llama_token_eos E model then
    (Break, {| generated := generated v; n_cur := n_cur v;
               lv_ctx := ctx; lv_st := st |})
  else
    let generated' := generated v ++ [new_token] in
    (* Prepare next batch *)
    let nb := next_batch new_token (n_cur v) in
    let '(status, ctx) := llama_decode E ctx nb in
    let st := emit (EvDecode nb status) st in
    if negb (status =? 0) then
      (Break, {| generated := generated'; n_cur := n_cur v;
                 lv_ctx := ctx; lv_st := st |})
    else
      (Continue, {| generated := generated'; n_cur := n_cur v + 1;
                    lv_ctx := ctx; lv_st := st |}).

(** [for (int i = 0; i < max_gen && !g_stop_requested; i++)], from the
    test of iteration [i] on.  [fuel] bounds the number of iterations;
    [Z.to_nat (max_gen - i)] is enough. *)
Fixpoint generation_loop (stops : Z -> bool) (model : llama_model)
    (max_gen : Z) (temp top_p_val : float) (top_k_val : Z) (n_vocab : Z)
    (fuel : nat) (i : Z) (v : LoopVars) : LoopVars :=
  match fuel with
  | O => v
  | S fuel' =>
    if i <? max_gen then
      let st := concurrent_stop stops i (lv_st v) in
      let v := {| generated := generated v; n_cur := n_cur v;
                  lv_ctx := lv_ctx v; lv_st := st |} in
      if g_stop_requested st then v
      else
        match generation_body model temp top_p_val top_k_val n_vocab v with
        | (Break, v') => v'
        | (Continue, v') =>
          generation_loop stops model max_gen temp top_p_val top_k_val
                          n_vocab fuel' (i + 1) v'
        end
    else v
  end.

(** ** The sampling pipeline and the steps, as the specification has
    them

    These three definitions follow the words of the specification, not
    the source; [generation_body] and [generation_loop] above are
    compared with them.

    The pipeline (4.4) takes the candidates with their raw scores
    through four stages in a fixed order, each stage working on what the
    stage before it left: the top-k filter, the top-p filter over the
    retained candidates, the temperature scaling of the remaining ones,
    and the draw. *)
Definition spec_sampling_pipeline (c : llama_context)
    (candidates : llama_token_data_array) (top_k_val : Z)
    (top_p_val temp : float) : llama_token * llama_context :=
  let '(retained, c) := llama_sample_top_k E c candidates top_k_val 1 in
  let '(nucleus, c) := llama_sample_top_p E c retained top_p_val 1 in
  let '(scaled, c) := llama_sample_temp E c nucleus temp in
  llama_sample_token E c scaled.

(** The input of the pipeline is the raw score of every vocabulary id
    for the current position. *)
Definition spec_draw (temp top_p_val : float) (top_k_val : Z) (n_vocab : Z)
    (c : llama_context) : llama_token * llama_context :=
  let '(scores, c) := llama_get_logits E c in
  spec_sampling_pipeline c
    {| data := make_candidates n_vocab scores; sorted := false |}
    top_k_val top_p_val temp.

(** [spec_generation c n toks c']: from the context [c] with [n]
    positions filled, the tokens [toks] are produced and the context is
    left as [c'].  Each token is drawn by the pipeline and then
    submitted alone at the next position (4.3, Step).  The generation
    ends when the budget is reached or a stop is observed, when the
    end-of-sequence token is drawn, which is not part of the output, or
    when a decode step fails, whose token is part of the output. *)
Inductive spec_generation (model : llama_model) (temp top_p_val : float)
    (top_k_val : Z) (n_vocab : Z)
  : llama_context -> Z -> list llama_token -> llama_context -> Prop :=
| spec_generation_ends c n :
    spec_generation model temp top_p_val top_k_val n_vocab c n [] c
| spec_generation_eos c n :
    fst (spec_draw temp top_p_val top_k_val n_vocab c)
    = llama_token_eos E model ->
    spec_generation model temp top_p_val top_k_val n_vocab c n []
      (snd (spec_draw temp top_p_val top_k_val n_vocab c))
| spec_generation_fails c n tok c1 status c2 :
    spec_draw temp top_p_val top_k_val n_vocab c = (tok, c1) ->
    tok <> llama_token_eos E model ->
    llama_decode E c1 (next_batch tok n) = (status, c2) ->
    status <> 0 ->
    spec_generation model temp top_p_val top_k_val n_vocab c n [tok] c2
| spec_generation_step c n tok c1 c2 toks c' :
    spec_draw temp top_p_val top_k_val n_vocab c = (tok, c1) ->
    tok <> llama_token_eos E model ->
    llama_decode E c1 (next_batch tok n) = (0, c2) ->
    spec_generation model temp top_p_val top_k_val n_vocab c2 (n + 1) toks
      c' ->
    spec_generation model temp top_p_val top_k_val n_vocab c n
      (tok :: toks) c'.

(** Generation parameters: the values in effect for one call. *)
Definition max_gen_of (maxTokens : Z) (gp : GenerationParams) : Z :=
  if 0 <? maxTokens then maxTokens else max_tokens gp.
Definition temp_of (temperature' : float) (gp : GenerationParams) : float :=
  if float_ge0 temperature' then temperature' else temperature gp.
Definition top_p_val_of (topP : float) (gp : GenerationParams) : float :=
  if float_gt0 topP then topP else top_p gp.
Definition top_k_val_of (topK : Z) (gp : GenerationParams) : Z :=
  if 0 <? topK then topK else top_k gp.
Definition rep_pen_of (repeatPenalty : float) (gp : GenerationParams)
  : float :=
  if float_gt0 repeatPenalty then repeatPenalty else repeat_penalty gp.

Definition generate (stops : Z -> bool) (prompt : jstring) (maxTokens : Z)
    (temperature' topP : float) (topK : Z) (repeatPenalty : float)
    (st : State) : outcome string * State :=
  match g_model st, g_ctx st with
  | Some model, Some ctx =>
    let st := store_is_generating true st in
    let st := store_stop_requested false st in
    let prompt_str := jstring_to_string prompt in
    (* Tokenize prompt *)
    let '(tokens, st) := tokenize prompt_str true st in
    match tokens with
    | Throws => (Throws, st)
    | Returns tokens =>
      if (length tokens =? 0)%nat then
        let st := store_is_generating false st in
        (Returns (string_to_jstring "[Error: Failed to tokenize]"), st)
      else
        let n_ctx' := to_int32 (llama_n_ctx E ctx) in
        let st := emit EvNCtx st in
        if n_ctx' - 4 <? to_int32 (Z.of_nat (length tokens)) then
          let st := store_is_generating false st in
          (Returns (string_to_jstring "[Error: Prompt too long]"), st)
        else
          (* Clear KV cache *)
          let ctx := llama_kv_cache_clear E ctx in
          let st := emit EvKvCacheClear st in
          (* Process prompt in batch *)
          let batch := prefill_batch tokens in
          let '(status, ctx) := llama_decode E ctx batch in
          let st := emit (EvDecode batch status) st in
          if negb (status =? 0) then
            let st := store_is_generating false st in
            (Returns (string_to_jstring "[Error: Decode failed]"),
             set_g_ctx (Some ctx) st)
          else
            (* Generation parameters *)
            let max_gen := max_gen_of maxTokens (g_params st) in
            let temp := temp_of temperature' (g_params st) in
            let top_p_val := top_p_val_of topP (g_params st) in
            let top_k_val := top_k_val_of topK (g_params st) in
            let rep_pen := rep_pen_of repeatPenalty (g_params st) in
            (* Generate tokens *)
            let n_cur0 := to_int32 (Z.of_nat (length tokens)) in
            let n_vocab := Z.of_N (llama_n_vocab E model) in
            let st := emit EvNVocab st in
            let v :=
              generation_loop stops model max_gen temp top_p_val top_k_val
                n_vocab (Z.to_nat max_gen) 0
                {| generated := []; n_cur := n_cur0;
                   lv_ctx := ctx; lv_st := st |} in
            let st := store_is_generating false (lv_st v) in
            let st := set_g_ctx (Some (lv_ctx v)) st in
            (* Convert tokens to text *)
            let '(result, st) := detokenize (generated v) st in
            (Returns (string_to_jstring result), st)
    end
  | _, _ => (Returns (string_to_jstring "[Error: Model not loaded]"), st)
  end.

(** The parameters [gp] with another configured repeat penalty. *)
Definition with_repeat_penalty (d : float) (gp : GenerationParams)
  : GenerationParams :=
  {| max_tokens := max_tokens gp;
     temperature := temperature gp;
     top_p := top_p gp;
     top_k := top_k gp;
     repeat_penalty := d;
     n_threads := n_threads gp;
     n_ctx := n_ctx gp |}.

(** The loop variables with the global state changed by [f]. *)
Definition with_lv_st (f : State -> State) (v : LoopVars) : LoopVars :=
  {| generated := generated v; n_cur := n_cur v;
     lv_ctx := lv_ctx v; lv_st := f (lv_st v) |}.

(** ** Embeddings *)

(** [getEmbedding]; [None] is the [nullptr] result.  [array_ok] tells
    whether the JVM could allocate the result array
    ([NewFloatArray] did not return null). *)
Definition getEmbedding (text : jstring) (array_ok : bool) (st : State)
  : outcome (option (list float)) * State :=
  match g_model st, g_ctx st with
  | Some model, Some ctx =>
    let text_str := jstring_to_string text in
    (* Tokenize *)
    let '(tokens, st) := tokenize text_str true st in
    match tokens with
    | Throws => (Throws, st)
    | Returns tokens =>
      if (length tokens =? 0)%nat then (Returns None, st)
      else
        (* Clear cache and process *)
        let ctx := llama_kv_cache_clear E ctx in
        let st := emit EvKvCacheClear st in
        let batch := prefill_batch tokens in
        let '(status, ctx) := llama_decode E ctx batch in
        let st := set_g_ctx (Some ctx) (emit (EvDecode batch status) st) in
        if negb (status =? 0) then (Returns None, st)
        else
          (* Get embedding dimension *)
          let n_embd := llama_n_embd E model in
          let st := emit EvNEmbd st in
          if n_embd <=? 0 then (Returns None, st)
          else
            (* Get embeddings from last token *)
            let '(embd, ctx) := llama_get_embeddings E ctx in
            let st := set_g_ctx (Some ctx) (emit EvGetEmbeddings st) in
            match embd with
            | None => (Returns None, st)
            | Some embd =>
              let at_ (i : nat) := default float_zero (embd !! i) in
              (* Normalize embedding *)
              let norm :=
                foldl (fun norm i => f32_add norm (f32_mul (at_ i) (at_ i)))
                      float_zero (seq 0 (Z.to_nat n_embd)) in
              let norm := sqrtf norm in
              if array_ok then
                let normalized :=
                  (fun i => f32_div (at_ i) norm)
                    <$> seq 0 (Z.to_nat n_embd) in
                (Returns (Some normalized), st)
              else (Returns None, st)
            end
    end
  | _, _ => (Returns None, st)
  end.

(** ** Configuration *)

Definition setDefaultParams (maxTokens : Z) (temperature' topP : float)
    (topK : Z) (repeatPenalty : float) (st : State) : State :=
  let gp := g_params st in
  set_g_params {|
    max_tokens := if 0 <? maxTokens then maxTokens else max_tokens gp;
    temperature :=
      if float_ge0 temperature' then temperature' else temperature gp;
    top_p := if float_gt0 topP then topP else top_p gp;
    top_k := if 0 <? topK then topK else top_k gp;
    repeat_penalty :=
      if float_gt0 repeatPenalty then repeatPenalty else repeat_penalty gp;
    n_threads := n_threads gp;
    n_ctx := n_ctx gp |} st.

(** ** Memory management *)

Definition freeBackend (st : State) : State :=
  let st := release_handles st in
  emit EvBackendFree
       (set_the_world (llama_backend_free E (the_world st)) st).

(** ** Reading the trace *)

(** The state with the events [evs] added to its trace. *)
Definition emits (evs : list Event) (st : State) : State :=
  {| g_model := g_model st; g_ctx := g_ctx st;
     g_is_generating := g_is_generating st;
     g_stop_requested := g_stop_requested st;
     g_params := g_params st;
     backend_initialized := backend_initialized st;
     the_world := the_world st; trace := trace st ++ evs |}.

(** The calls of the sampling pipeline. *)
Definition is_sampling (e : Event) : bool :=
  match e with
  | EvSampleTopK _ _ | EvSampleTopP _ _ | EvSampleTemp _ | EvSampleToken =>
    true
  | _ => false
  end.

(** The sampling calls of one iteration that uses the given values. *)
Definition sampling_block (temp top_p_val : float) (top_k_val : Z)
  : list Event :=
  [EvSampleTopK top_k_val 1; EvSampleTopP top_p_val 1;
   EvSampleTemp temp; EvSampleToken].

(** Calls that touch the decoding state of the context. *)
Definition is_decode (e : Event) : bool :=
  match e with
  | EvDecode _ _ => true
  | _ => false
  end.

Definition touches_context (e : Event) : bool :=
  match e with
  | EvKvCacheClear | EvDecode _ _ => true
  | _ => false
  end.

(** A decode call that reported an error. *)
Definition is_failed_decode (e : Event) : bool :=
  match e with
  | EvDecode _ status => negb (status =? 0)
  | _ => false
  end.

(** The events of the teardown. *)
Definition release_events (st : State) : list Event :=
  match g_ctx st with Some c => [EvFree c] | None => [] end ++
  match g_model st with Some m => [EvFreeModel m] | None => [] end.

(** The tokens submitted by the decode calls in a list of events. *)
Definition decoded_tokens (evs : list Event) : list llama_token :=
  flat_map (fun e =>
    match e with
    | EvDecode b _ => take (Z.to_nat (n_tokens b)) (token b)
    | _ => []
    end) evs.

(** ** Configuration: the thread count *)

Definition setThreads (nThreads : Z) (st : State) : State :=
  if 0 <? nThreads then
    let gp := g_params st in
    let st := set_g_params {|
      max_tokens := max_tokens gp;
      temperature := temperature gp;
      top_p := top_p gp;
      top_k := top_k gp;
      repeat_penalty := repeat_penalty gp;
      n_threads := nThreads;
      n_ctx := n_ctx gp |} st in
    match g_ctx st with
    | Some c =>
      emit (EvSetNThreads nThreads)
           (set_g_ctx (Some (llama_set_n_threads E c nThreads nThreads)) st)
    | None => st
    end
  else st.

(** ** Model info *)

Definition getContextSize (st : State) : Z * State :=
  match g_ctx st with
  | Some c => (to_int32 (llama_n_ctx E c), emit EvNCtx st)
  | None => (0, st)
  end.

Definition getVocabSize (st : State) : Z * State :=
  match g_model st with
  | Some m => (to_int32 (Z.of_N (llama_n_vocab E m)), emit EvNVocab st)
  | None => (0, st)
  end.

Definition getEmbeddingSize (st : State) : Z * State :=
  match g_model st with
  | Some m => (to_int32 (llama_n_embd E m), emit EvNEmbd st)
  | None => (0, st)
  end.

(** ** Tokenization utilities *)

(** [SetIntArrayRegion(array, 0, len, buf)]: the first [len] elements of
    the Java array are overwritten with those of [buf]. *)
Definition SetIntArrayRegion (array : list Z) (len : nat) (buf : list Z)
  : list Z :=
  take len buf ++ drop len array.

(** The JNI function [tokenize]: the result is the return value and the
    content of [outputTokens] after the call. *)
Definition LlamaBridge_tokenize (text : jstring) (outputTokens : list Z)
    (addBos : bool) (st : State) : outcome (Z * list Z) * State :=
  match g_model st with
  | None => (Returns (-1, outputTokens), st)
  | Some _ =>
    let text_str := jstring_to_string text in
    let '(tokens, st) := tokenize text_str addBos st in
    match tokens with
    | Throws => (Throws, st)
    | Returns tokens =>
      let output_len := Z.of_nat (length outputTokens) in
      let copy_len :=
        Z.min output_len (to_int32 (Z.of_nat (length tokens))) in
      (Returns (to_int32 (Z.of_nat (length tokens)),
                SetIntArrayRegion outputTokens (Z.to_nat copy_len) tokens),
       st)
    end
  end.

(** The JNI function [detokenize] on the content of the Java array. *)
Definition LlamaBridge_detokenize (tokens : list Z) (st : State)
  : string * State :=
  match g_model st with
  | None => (string_to_jstring "", st)
  | Some _ =>
    let len := length tokens in
    let token_vec := write_buffer (replicate len 0) tokens in
    let '(result, st) := detokenize token_vec st in
    (string_to_jstring result, st)
  end.

(** ** Reading the state and the trace, continued *)

(** Configured parameters as the setters leave them: counts are positive
    [int] values, the temperature is not negative and the other two
    floats are positive. *)
Definition valid_params (gp : GenerationParams) : Prop :=
  0 < max_tokens gp < 2 ^ 31 /\
  float_ge0 (temperature gp) = true /\
  float_gt0 (top_p gp) = true /\
  0 < top_k gp < 2 ^ 31 /\
  float_gt0 (repeat_penalty gp) = true /\
  0 < n_threads gp < 2 ^ 31 /\
  0 < n_ctx gp < 2 ^ 31.

(** A [jint] argument. *)
Definition is_jint (z : Z) : Prop := - 2 ^ 31 <= z < 2 ^ 31.

Definition is_draw (e : Event) : bool :=
  match e with
  | EvSampleToken => true
  | _ => false
  end.

Definition is_piece (e : Event) : bool :=
  match e with
  | EvTokenToPiece _ => true
  | _ => false
  end.

Definition is_generating_store (e : Event) : bool :=
  match e with
  | EvStoreIsGenerating _ => true
  | _ => false
  end.

Definition is_flag_store (e : Event) : bool :=
  match e with
  | EvStoreIsGenerating _ | EvStoreStopRequested _ => true
  | _ => false
  end.

(** The calls that do the work of a generation: decoding, reading the
    scores and sampling. *)
Definition is_inference (e : Event) : bool :=
  match e with
  | EvKvCacheClear | EvDecode _ _ | EvGetLogits
  | EvSampleTopK _ _ | EvSampleTopP _ _ | EvSampleTemp _ | EvSampleToken =>
    true
  | _ => false
  end.

(** The calls that create or release a handle. *)
Definition is_lifecycle (e : Event) : bool :=
  match e with
  | EvLoadModel _ _ _ | EvNewContext _ _ _ | EvFree _ | EvFreeModel _ => true
  | _ => false
  end.

(** The piece of one token as [detokenize] appends it. *)
Definition piece_of (m : llama_model) (token : llama_token) : string :=
  let '(n, buf) := llama_token_to_piece E m token 256 in
  if 0 <? n then String.substring 0 (Z.to_nat n) buf else "".

(** What the events [evs] of a run of the generation loop and its decode
    steps [steps], each a token with the status of its decode call, have
    in common: the sampling calls come in blocks, one draw for each of
    the [n] iterations, at most [fuel] of them; every step token was
    drawn and is not the end-of-sequence token; step [k] is submitted at
    position [n_cur0 + k]; every step but the last succeeded; and the
    loop neither stores to [g_is_generating] nor detokenizes. *)
Definition loop_facts (model : llama_model) (temp top_p_val : float)
    (top_k_val : Z) (fuel : nat) (n_cur0 : Z) (evs : list Event)
    (steps : list (Z * Z)) : Prop :=
  exists n,
    List.filter is_sampling evs
    = concat (replicate n (sampling_block temp top_p_val top_k_val)) /\
    length (List.filter is_draw evs) = n /\
    (n <= fuel)%nat /\ (length steps <= n)%nat /\
    Forall (fun ts => fst ts <> llama_token_eos E model) steps /\
    List.filter is_decode evs
    = imap (fun k ts =>
              EvDecode (next_batch (fst ts) (n_cur0 + Z.of_nat k)) (snd ts))
           steps /\
    Forall (fun ts => snd ts = 0) (removelast steps) /\
    Forall (fun e => is_generating_store e = false /\ is_piece e = false /\
                     is_lifecycle e = false)
           evs.

(** The events with which [generate] can end before it reaches the
    loop: none when the tokenizer throws, else the store that clears
    [g_is_generating], after the calls made so far. *)
Definition early_exit (tail : list Event) : Prop :=
  tail = [] \/ tail = [EvStoreIsGenerating false] \/
  tail = [EvNCtx; EvStoreIsGenerating false] \/
  exists b status,
    status <> 0 /\
    tail = [EvNCtx; EvKvCacheClear; EvDecode b status;
            EvStoreIsGenerating false].

(** ** The handle protocol of the engine

    What the engine asks of its caller, as an automaton on the pair
    "a model is live" and "a context is live": a model is loaded when
    nothing is live, a context is created for a live model that has
    none, a context is released when live, a model when it is live and
    has no context; a call on the vocabulary needs a live model and a
    call on a context a live context. *)
Definition is_live {A} (x : option A) : bool :=
  match x with
  | Some _ => true
  | None => false
  end.

(** The pair as the globals have it. *)
Definition handles (st : State) : bool * bool :=
  (is_live (g_model st), is_live (g_ctx st)).

Definition protocol_step (h : bool * bool) (e : Event)
  : option (bool * bool) :=
  let '(m, c) := h in
  match e with
  | EvLoadModel _ _ (Some _) => if m || c then None else Some (true, false)
  | EvNewContext _ _ r =>
    if m && negb c then Some (true, is_live r) else None
  | EvFree _ => if c then Some (m, false) else None
  | EvFreeModel _ => if m && negb c then Some (false, false) else None
  | EvTokenize _ _ _ | EvTokenToPiece _ | EvNVocab | EvNEmbd | EvTokenEos =>
    if m then Some h else None
  | EvNCtx | EvKvCacheClear | EvDecode _ _ | EvGetLogits | EvGetEmbeddings
  | EvSetNThreads _ | EvSampleTopK _ _ | EvSampleTopP _ _ | EvSampleTemp _
  | EvSampleToken =>
    if c then Some h else None
  | EvLoadModel _ _ None | EvBackendInit | EvBackendFree
  | EvStoreIsGenerating _ | EvStoreStopRequested _ => Some h
  end.

(** The pair after the events [evs], [None] when some event breaks the
    protocol. *)
Fixpoint protocol (h : bool * bool) (evs : list Event)
  : option (bool * bool) :=
  match evs with
  | [] => Some h
  | e :: evs =>
    match protocol_step h e with
    | Some h => protocol h evs
    | None => None
    end
  end.

(** ** The host

    The calls of the JNI functions that the host can make, with their
    arguments; [stops] of [Generate] is what other threads do meanwhile
    and [array_ok] of [GetEmbedding] whether the result array can be
    allocated.  The two JNI functions left out, [getModelDescription]
    and [getAvailableMemory], read the description of the model and the
    free memory and store nothing. *)
Inductive Call :=
| LoadModel (modelPath : jstring) (nCtx nThreads : Z)
| UnloadModel
| IsModelLoaded
| Generate (stops : Z -> bool) (prompt : jstring) (maxTokens : Z)
           (temperature' topP : float) (topK : Z) (repeatPenalty : float)
| StopGeneration
| IsGenerating
| GetEmbedding (text : jstring) (array_ok : bool)
| SetThreads (nThreads : Z)
| SetDefaultParams (maxTokens : Z) (temperature' topP : float) (topK : Z)
                   (repeatPenalty : float)
| GetContextSize
| GetVocabSize
| GetEmbeddingSize
| FreeBackend
| Tokenize (text : jstring) (outputTokens : list Z) (addBos : bool)
| Detokenize (tokens : list Z).

(** The state after a call; [Throws] when the native function throws. *)
Definition call (c : Call) (st : State) : outcome State :=
  match c with
  | LoadModel modelPath nCtx nThreads =>
    Returns (snd (loadModel modelPath nCtx nThreads st))
  | UnloadModel => Returns (unloadModel st)
  | IsModelLoaded | IsGenerating => Returns st
  | Generate stops prompt maxTokens temperature' topP topK repeatPenalty =>
    let r :=
      generate stops prompt maxTokens temperature' topP topK repeatPenalty
               st in
    match fst r with
    | Returns _ => Returns (snd r)
    | Throws => Throws
    end
  | StopGeneration => Returns (stopGeneration st)
  | GetEmbedding text array_ok =>
    let r := getEmbedding text array_ok st in
    match fst r with
    | Returns _ => Returns (snd r)
    | Throws => Throws
    end
  | SetThreads nThreads => Returns (setThreads nThreads st)
  | SetDefaultParams maxTokens temperature' topP topK repeatPenalty =>
    Returns (setDefaultParams maxTokens temperature' topP topK repeatPenalty
                              st)
  | GetContextSize => Returns (snd (getContextSize st))
  | GetVocabSize => Returns (snd (getVocabSize st))
  | GetEmbeddingSize => Returns (snd (getEmbeddingSize st))
  | FreeBackend => Returns (freeBackend st)
  | Tokenize text outputTokens addBos =>
    let r := LlamaBridge_tokenize text outputTokens addBos st in
    match fst r with
    | Returns _ => Returns (snd r)
    | Throws => Throws
    end
  | Detokenize tokens => Returns (snd (LlamaBridge_detokenize tokens st))
  end.

(** A sequence of calls, one after the other: the mutex serialises
    them.  Nothing follows a call that throws. *)
Fixpoint calls (cs : list Call) (st : State) : outcome State :=
  match cs with
  | [] => Returns st
  | c :: cs =>
    match call c st with
    | Returns st => calls cs st
    | Throws => Throws
    end
  end.

(** The [int] arguments of a call are [jint] values. *)
Definition jint_args (c : Call) : Prop :=
  match c with
  | LoadModel _ nCtx nThreads => is_jint nCtx /\ is_jint nThreads
  | SetThreads nThreads => is_jint nThreads
  | SetDefaultParams maxTokens _ _ topK _ => is_jint maxTokens /\ is_jint topK
  | _ => True
  end.

(** The state when the library is loaded: the initial values of the
    globals, in the world [w]. *)
Definition initial (w : world) : State := {|
  g_model := None; g_ctx := None;
  g_is_generating := false; g_stop_requested := false;
  g_params := GenerationParams_init;
  backend_initialized := false;
  the_world := w; trace := []
|}.

(** What holds between calls: the trace so far keeps the handle
    protocol and ends with the handles as the globals have them, which
    are both live or both null, and no generation is in progress. *)
Definition between_calls (st : State) : Prop :=
  protocol (false, false) (trace st) = Some (handles st) /\
  (g_model st = None <-> g_ctx st = None) /\
  g_is_generating st = false.

(** The engine on a host whose /proc/meminfo reads [f]. *)
Definition with_meminfo (f : world -> option Z) : Engine := {|
  llama_backend_init := llama_backend_init E;
  llama_backend_free := llama_backend_free E;
  llama_load_model_from_file := llama_load_model_from_file E;
  llama_new_context_with_model := llama_new_context_with_model E;
  llama_free := llama_free E;
  llama_free_model := llama_free_model E;
  llama_tokenize := llama_tokenize E;
  llama_token_to_piece := llama_token_to_piece E;
  llama_n_vocab := llama_n_vocab E;
  llama_n_embd := llama_n_embd E;
  llama_token_eos := llama_token_eos E;
  llama_n_ctx := llama_n_ctx E;
  llama_kv_cache_clear := llama_kv_cache_clear E;
  llama_decode := llama_decode E;
  llama_get_logits := llama_get_logits E;
  llama_get_embeddings := llama_get_embeddings E;
  llama_set_n_threads := llama_set_n_threads E;
  llama_sample_top_k := llama_sample_top_k E;
  llama_sample_top_p := llama_sample_top_p E;
  llama_sample_temp := llama_sample_temp E;
  llama_sample_token := llama_sample_token E;
  time := time E;
  meminfo_available_kb := f
|}.

End Bridge.

Arguments Engine : clear implicits.
Arguments State : clear implicits.
Arguments Event : clear implicits.
Arguments LoopVars : clear implicits.

(** ** A small engine to run the bridge on

    The model is its vocabulary size.  Tokens are character codes, 1 is
    the begin-of-sequence token and 101 (the letter e) the end-of-sequence
    token.  A context keeps the tokens decoded so far; the token drawn
    next is the successor of the last one.  Decoding fails once the
    context has used up [toy_budget] calls.  The world is the amount of
    free memory, and a context of size [n] takes [n] units of it. *)
Module Toy.

Record ctx := {
  toy_kv : list llama_token;
  toy_budget : nat;
  toy_n_ctx : Z
}.

Definition codes (s : string) : list llama_token :=
  (fun b => Z.of_N (Ascii.N_of_ascii b)) <$> String.list_ascii_of_string s.

Definition tokens_of (text : string) (add_bos : bool) : list llama_token :=
  (if add_bos then [1] else []) ++ codes text.

Definition tokenize_into (text : string) (n_max : nat) (add_bos : bool)
  : Z * list llama_token :=
  let toks := tokens_of text add_bos in
  if (length toks <=? n_max)%nat
  then (Z.of_nat (length toks), toks)
  else (- Z.of_nat (length toks), []).

Definition piece (t : llama_token) : Z * string :=
  (1, String (Ascii.ascii_of_N (Z.to_N t)) EmptyString).

Definition decode (c : ctx) (b : llama_batch) : Z * ctx :=
  match toy_budget c with
  | O => (1, c)
  | S n =>
    (0, {| toy_kv := toy_kv c ++ take (Z.to_nat (n_tokens b)) (token b);
           toy_budget := n; toy_n_ctx := toy_n_ctx c |})
  end.

Definition draw (c : ctx) : llama_token := default 0 (last (toy_kv c)) + 1.

(** [has_bos] tells whether the vocabulary has a begin-of-sequence token;
    without one, the empty text has no token at all. *)
Definition engine_with (has_bos : bool) : Engine Z ctx Z := {|
  llama_backend_init w := w;
  llama_backend_free w := w;
  llama_load_model_from_file path _ w :=
    (if String.eqb path "model.gguf" then Some 128 else None, w);
  llama_new_context_with_model m cp w :=
    if cp_n_ctx cp <=? w
    then (Some {| toy_kv := [];
                  toy_budget := Z.to_nat (cp_n_threads cp - 1);
                  toy_n_ctx := cp_n_ctx cp |}, w - cp_n_ctx cp)
    else (None, w);
  llama_free c w := w + toy_n_ctx c;
  llama_free_model _ w := w;
  llama_tokenize _ text n_max add_bos :=
    tokenize_into text n_max (add_bos && has_bos);
  llama_token_to_piece _ t _ := piece t;
  llama_n_vocab m := Z.to_N m;
  llama_n_embd _ := 0;
  llama_token_eos _ := 101;
  llama_n_ctx c := toy_n_ctx c;
  llama_kv_cache_clear c :=
    {| toy_kv := []; toy_budget := toy_budget c; toy_n_ctx := toy_n_ctx c |};
  llama_decode := decode;
  llama_get_logits c := (replicate 128 float_zero, c);
  llama_get_embeddings c := (None, c);
  llama_set_n_threads c _ _ := c;
  llama_sample_top_k c a k _ :=
    ({| data := take (Z.to_nat k) (data a); sorted := true |}, c);
  llama_sample_top_p c a _ _ := (a, c);
  llama_sample_temp c a _ := (a, c);
  llama_sample_token c _ := (draw c, c);
  time _ := 0;
  meminfo_available_kb w := Some w
|}.

Definition engine : Engine Z ctx Z := engine_with true.

(** The state of a fresh process with [w] units of free memory. *)
Definition start (w : Z) : State Z ctx Z := {|
  g_model := None; g_ctx := None;
  g_is_generating := false; g_stop_requested := false;
  g_params := GenerationParams_init;
  backend_initialized := false;
  the_world := w; trace := []
|}.

(** A session loaded with context size [n] whose context can decode
    [threads - 1] times. *)
Definition loaded (n threads : Z) : State Z ctx Z :=
  snd (loadModel engine (Some "model.gguf") n threads (start 4096)).

(** The context that [loaded n threads] holds. *)
Definition fresh (n threads : Z) : ctx :=
  {| toy_kv := []; toy_budget := Z.to_nat (threads - 1); toy_n_ctx := n |}.

(** A negative float, a sentinel for every float parameter. *)
Definition minus_one : float := S754_finite true 8388608 (-23).

Definition never : Z -> bool := fun _ => false.
Definition at_once : Z -> bool := fun i => i =? 0.

(** A call of [generate] that leaves every sampling parameter to the
    configured default. *)
Definition run (E : Engine Z ctx Z) (stops : Z -> bool) (prompt : string)
    (maxTokens : Z) (st : State Z ctx Z) : outcome string * State Z ctx Z :=
  generate E stops (Some prompt) maxTokens minus_one minus_one 0 minus_one st.

(** The engine [E0] with another tokenizer. *)
Definition with_tokenizer
    (f : string -> nat -> bool -> Z * list llama_token)
    (E0 : Engine Z ctx Z) : Engine Z ctx Z := {|
  llama_backend_init := llama_backend_init E0;
  llama_backend_free := llama_backend_free E0;
  llama_load_model_from_file := llama_load_model_from_file E0;
  llama_new_context_with_model := llama_new_context_with_model E0;
  llama_free := llama_free E0;
  llama_free_model := llama_free_model E0;
  llama_tokenize _ := f;
  llama_token_to_piece := llama_token_to_piece E0;
  llama_n_vocab := llama_n_vocab E0;
  llama_n_embd := llama_n_embd E0;
  llama_token_eos := llama_token_eos E0;
  llama_n_ctx := llama_n_ctx E0;
  llama_kv_cache_clear := llama_kv_cache_clear E0;
  llama_decode := llama_decode E0;
  llama_get_logits := llama_get_logits E0;
  llama_get_embeddings := llama_get_embeddings E0;
  llama_set_n_threads := llama_set_n_threads E0;
  llama_sample_top_k := llama_sample_top_k E0;
  llama_sample_top_p := llama_sample_top_p E0;
  llama_sample_temp := llama_sample_temp E0;
  llama_sample_token := llama_sample_token E0;
  time := time E0;
  meminfo_available_kb := meminfo_available_kb E0
|}.

(** The engine [E0] for a model with the embedding [e] at every
    position. *)
Definition with_embedding (e : list float) (E0 : Engine Z ctx Z)
  : Engine Z ctx Z := {|
  llama_backend_init := llama_backend_init E0;
  llama_backend_free := llama_backend_free E0;
  llama_load_model_from_file := llama_load_model_from_file E0;
  llama_new_context_with_model := llama_new_context_with_model E0;
  llama_free := llama_free E0;
  llama_free_model := llama_free_model E0;
  llama_tokenize := llama_tokenize E0;
  llama_token_to_piece := llama_token_to_piece E0;
  llama_n_vocab := llama_n_vocab E0;
  llama_n_embd _ := Z.of_nat (length e);
  llama_token_eos := llama_token_eos E0;
  llama_n_ctx := llama_n_ctx E0;
  llama_kv_cache_clear := llama_kv_cache_clear E0;
  llama_decode := llama_decode E0;
  llama_get_logits := llama_get_logits E0;
  llama_get_embeddings c := (Some e, c);
  llama_set_n_threads := llama_set_n_threads E0;
  llama_sample_top_k := llama_sample_top_k E0;
  llama_sample_top_p := llama_sample_top_p E0;
  llama_sample_temp := llama_sample_temp E0;
  llama_sample_token := llama_sample_token E0;
  time := time E0;
  meminfo_available_kb := meminfo_available_kb E0
|}.

(** A tokenizer with two tokens for each character, its high and its low
    half: the buffer that [tokenize] tries first is too small for texts
    of two characters or more. *)
Definition halves (text : string) (add_bos : bool) : list llama_token :=
  (if add_bos then [1] else []) ++
  flat_map (fun c => [c / 16; c mod 16]) (codes text).

Definition tokenize_halves (text : string) (n_max : nat) (add_bos : bool)
  : Z * list llama_token :=
  let toks := halves text add_bos in
  if (length toks <=? n_max)%nat
  then (Z.of_nat (length toks), toks)
  else (- Z.of_nat (length toks), []).

Definition engine_halves : Engine Z ctx Z :=
  with_tokenizer tokenize_halves engine.

(** A session of the host: load, configure, generate, query, convert,
    stop, unload, load again and shut down. *)
Definition session : list Call := [
  LoadModel (Some "model.gguf") 16 8;
  SetDefaultParams 100 float_zero minus_one 0 minus_one;
  SetThreads 2;
  IsModelLoaded;
  Generate never (Some "a") 8 minus_one minus_one 0 minus_one;
  GetEmbedding (Some "a") true;
  GetContextSize; GetVocabSize; GetEmbeddingSize;
  Tokenize (Some "ab") [0; 0] true;
  Detokenize [97; 98];
  StopGeneration; IsGenerating;
  UnloadModel;
  Generate never (Some "a") 8 minus_one minus_one 0 minus_one;
  LoadModel (Some "model.gguf") 0 0;
  FreeBackend
].

(** The state after the calls [cs] in a fresh process. *)
Definition after (cs : list Call) : State Z ctx Z :=
  match calls engine cs (initial 4096) with
  | Returns st => st
  | Throws => initial 4096
  end.

End Toy.

(** * Properties *)

Section BridgeFacts.

Context {llama_model llama_context world : Type}.
Variable E : Engine llama_model llama_context world.

Abbreviation State := (State llama_model llama_context world).
Abbreviation Event := (Event llama_model llama_context).
Abbreviation LoopVars := (LoopVars llama_model llama_context world).

(** ** Machine integers *)

Lemma to_int32_range z : - 2 ^ 31 <= to_int32 z < 2 ^ 31.
Proof.
  unfold to_int32.
  pose proof (Z.mod_pos_bound (z + 2 ^ 31) (2 ^ 32) ltac:(lia)). lia.
Qed.

Lemma to_int32_small z : - 2 ^ 31 <= z < 2 ^ 31 -> to_int32 z = z.
Proof.
  intros Hz. unfold to_int32.
  rewrite Z.mod_small by lia. lia.
Qed.

(** ** The trace only grows *)

Lemma emit_emits (e : Event) (st : State) : emit e st = emits [e] st.
Proof. reflexivity. Qed.

Lemma emits_emits (a b : list Event) (st : State) :
  emits b (emits a st) = emits (a ++ b) st.
Proof. unfold emits; simpl. by rewrite app_assoc. Qed.

Lemma emits_nil (st : State) : emits [] st = st.
Proof. destruct st; unfold emits; simpl. by rewrite app_nil_r. Qed.

(** ** Model management *)

Lemma release_handles_spec (st : State) :
  g_model (release_handles E st) = None /\
  g_ctx (release_handles E st) = None /\
  trace (release_handles E st) = trace st ++ release_events st /\
  g_params (release_handles E st) = g_params st /\
  backend_initialized (release_handles E st) = backend_initialized st.
Proof.
  unfold release_handles, release_events.
  destruct (g_ctx st) as [c|] eqn:Hc, (g_model st) as [m|] eqn:Hm;
    simpl; rewrite ?Hc, ?Hm; simpl; rewrite ?Hc, ?Hm; simpl;
    rewrite <- ?app_assoc, ?app_nil_r; auto.
Qed.

(** C1. [loadModel] has three outcomes, decided by what the engine
    returns.  After the teardown of the old session and the
    initialisation of the backend, if still to be done, the engine is
    asked for the weights.  If it returns none, [loadModel] returns
    failure with both handles null.  If it returns the model [m], the
    engine is asked for a context of [m].  If it returns none,
    [loadModel] frees [m]: the world is left as [llama_free_model] of [m]
    leaves it, that call is the last one, the result is failure and both
    handles are null.  Else [loadModel] succeeds and holds [m] and the
    context.  So no failed load leaves a handle or a model behind. *)
Theorem loadModel_failure_rolls_back
    (modelPath : jstring) (nCtx nThreads : Z) (st : State) :
  let r := loadModel E modelPath nCtx nThreads st in
  let st' := snd r in
  let path := jstring_to_string modelPath in
  let mp := {| use_mmap := true; use_mlock := false |} in
  let st0 := release_handles E st in
  let pre :=
    release_events st ++
    (if backend_initialized st then [] else [EvBackendInit]) in
  let w0 :=
    if backend_initialized st then the_world st0
    else llama_backend_init E (the_world st0) in
  let loaded := llama_load_model_from_file E path mp w0 in
  match fst loaded with
  | None =>
    fst r = false /\ g_model st' = None /\ g_ctx st' = None /\
    the_world st' = snd loaded /\
    trace st' = trace st ++ pre ++ [EvLoadModel path mp None]
  | Some m =>
    let n := to_uint32 (if 0 <? nCtx then nCtx else n_ctx (g_params st)) in
    let t :=
      to_uint32 (if 0 <? nThreads then nThreads
                 else n_threads (g_params st)) in
    let cp :=
      {| cp_n_ctx := n; cp_n_threads := t; cp_n_threads_batch := t;
         cp_seed := to_uint32 (time E (snd loaded)) |} in
    let created := llama_new_context_with_model E m cp (snd loaded) in
    match fst created with
    | None =>
      fst r = false /\ g_model st' = None /\ g_ctx st' = None /\
      the_world st' = llama_free_model E m (snd created) /\
      trace st' = trace st ++ pre ++
        [EvLoadModel path mp (Some m); EvNewContext m cp None;
         EvFreeModel m]
    | Some c =>
      fst r = true /\ g_model st' = Some m /\ g_ctx st' = Some c /\
      the_world st' = snd created /\
      trace st' = trace st ++ pre ++
        [EvLoadModel path mp (Some m); EvNewContext m cp (Some c)]
    end
  end.
Proof.
  intros r st' path mp st0 pre w0 loaded.
  subst r st' pre w0 loaded. unfold loadModel.
  destruct (release_handles_spec st) as (Hm & Hc & Ht & Hp & Hb).
  fold st0 in Hm, Hc, Ht, Hp, Hb |- *. fold path. fold mp.
  rewrite <- Hb.
  destruct (backend_initialized st0); simpl;
    (destruct (llama_load_model_from_file E path mp _) as [[m|] w]; simpl;
     [ rewrite ?Hp;
       destruct (llama_new_context_with_model E m _ _) as [[c|] w'];
       simpl | ]);
    rewrite ?Ht, ?Hc, ?Hm; repeat split; auto;
    rewrite <- ?app_assoc; simpl; rewrite <- ?app_assoc; simpl; auto.
Qed.

(** ** Tokenization *)

Lemma vector_resize_length n v tokens :
  vector_resize n v = Returns tokens -> Z.of_nat (length tokens) = n.
Proof.
  unfold vector_resize. destruct (n <? 0) eqn:Hn; [done|].
  intros [= <-]. rewrite length_resize. lia.
Qed.

(** The result of [tokenize] depends on the model handle only, and the
    calls it makes are calls of [llama_tokenize]. *)
Lemma tokenize_frame text add_bos (st1 st2 : State) :
  g_model st1 = g_model st2 ->
  exists evs,
    Forall (fun e => exists n, e = EvTokenize text n add_bos) evs /\
    tokenize E text add_bos st1
    = (fst (tokenize E text add_bos st2), emits evs st1) /\
    snd (tokenize E text add_bos st2) = emits evs st2.
Proof.
  intros Hm. unfold tokenize. rewrite Hm.
  destruct (g_model st2) as [m|].
  2: { exists []. rewrite !emits_nil. by repeat split. }
  destruct (vector_resize _ []) as [buf|].
  2: { exists []. rewrite !emits_nil. by repeat split. }
  unfold call_llama_tokenize.
  destruct (llama_tokenize E m text (length buf) add_bos) as [n1 out1].
  destruct (to_int32 n1 <? 0).
  - destruct (llama_tokenize E m text _ add_bos) as [n2 out2]. simpl.
    eexists [_; _]. split; [repeat constructor; eauto|].
    rewrite !emit_emits, !emits_emits. done.
  - simpl. eexists [_]. split; [repeat constructor; eauto|].
    rewrite !emit_emits. done.
Qed.

(** The vector that [tokenize] returns has an [int] size. *)
Lemma tokenize_length text add_bos (st : State) tokens :
  fst (tokenize E text add_bos st) = Returns tokens ->
  0 <= Z.of_nat (length tokens) < 2 ^ 31.
Proof.
  unfold tokenize. destruct (g_model st) as [m|]; [|intros [= <-]; simpl; lia].
  destruct (vector_resize _ []) as [buf|]; [|done].
  unfold call_llama_tokenize.
  destruct (llama_tokenize E m text (length buf) add_bos) as [n1 out1].
  destruct (to_int32 n1 <? 0).
  - destruct (llama_tokenize E m text _ add_bos) as [n2 out2]. simpl.
    intros H%vector_resize_length. pose proof (to_int32_range n2). lia.
  - simpl.
    intros H%vector_resize_length. pose proof (to_int32_range n1). lia.
Qed.

(** ** Detokenization *)

Lemma detokenize_fold m (tokens : list llama_token) : forall s (st1 st2 : State),
  foldl (detokenize_step E m) (s, st1) tokens
  = (fst (foldl (detokenize_step E m) (s, st2) tokens),
     emits (EvTokenToPiece <$> tokens) st1).
Proof.
  induction tokens as [|t tokens IH]; intros s st1 st2; simpl.
  - by rewrite emits_nil.
  - destruct (llama_token_to_piece E m t 256) as [n buf].
    destruct (0 <? n); rewrite (IH _ _ (emit (EvTokenToPiece t) st2));
      by rewrite !emit_emits, emits_emits.
Qed.

Lemma detokenize_frame (tokens : list llama_token) (st1 st2 : State) :
  g_model st1 = g_model st2 -> is_Some (g_model st2) ->
  detokenize E tokens st1
  = (fst (detokenize E tokens st2), emits (EvTokenToPiece <$> tokens) st1).
Proof.
  intros Hm [m Hs]. unfold detokenize. rewrite Hm, Hs.
  apply detokenize_fold.
Qed.

Lemma detokenize_nil (st : State) : detokenize E [] st = ("", st).
Proof. unfold detokenize. by destruct (g_model st). Qed.

(** ** The generation loop *)

(** Two states are equal when their fields are. *)
Lemma state_ext (s1 s2 : State) :
  g_model s1 = g_model s2 -> g_ctx s1 = g_ctx s2 ->
  g_is_generating s1 = g_is_generating s2 ->
  g_stop_requested s1 = g_stop_requested s2 ->
  g_params s1 = g_params s2 ->
  backend_initialized s1 = backend_initialized s2 ->
  the_world s1 = the_world s2 -> trace s1 = trace s2 ->
  s1 = s2.
Proof. destruct s1, s2; simpl; intros; by subst. Qed.

Ltac state_eq :=
  apply state_ext; simpl;
  repeat (rewrite <- app_assoc; simpl);
  rewrite ?app_nil_r; reflexivity.

Lemma removelast_ok (P : Event -> Prop) (a b : list Event) :
  Forall P a -> Forall P (removelast b) -> Forall P (removelast (a ++ b)).
Proof.
  intros Ha Hb. destruct b as [|e b].
  - rewrite app_nil_r. clear Hb.
    induction Ha as [|x l Hx Hl IH]; simpl; [constructor|].
    destruct l; [constructor|]. constructor; auto.
  - rewrite removelast_app by done. apply Forall_app; auto.
Qed.

(** One iteration: the four sampling calls in their order, at most one
    decode call, which is the last call, and [generated] grows by the
    token of that call. *)
Lemma generation_body_spec model temp top_p_val top_k_val n_vocab
    (v : LoopVars) :
  let r := generation_body E model temp top_p_val top_k_val n_vocab v in
  exists evs,
    lv_st (snd r) = emits evs (lv_st v) /\
    List.filter is_sampling evs = sampling_block temp top_p_val top_k_val /\
    generated (snd r) = generated v ++ decoded_tokens evs /\
    Forall (fun e => is_failed_decode e = false) (removelast evs) /\
    (fst r = Continue -> Forall (fun e => is_failed_decode e = false) evs).
Proof.
  unfold generation_body.
  destruct (llama_get_logits E (lv_ctx v)) as [lg c0].
  destruct (llama_sample_top_k E c0 _ top_k_val 1) as [a1 c1].
  destruct (llama_sample_top_p E c1 a1 top_p_val 1) as [a2 c2].
  destruct (llama_sample_temp E c2 a2 temp) as [a3 c3].
  destruct (llama_sample_token E c3 a3) as [new_token c4].
  destruct (new_token =? llama_token_eos E model).
  - simpl. rewrite !emit_emits, !emits_emits. simpl.
    eexists. split; [reflexivity|]. simpl. rewrite app_nil_r.
    repeat split; auto; repeat constructor.
  - destruct (llama_decode E c4 _) as [status c5].
    destruct (status =? 0) eqn:Hs; simpl;
      rewrite !emit_emits, !emits_emits; simpl;
      (eexists; split; [reflexivity|]); simpl; rewrite ?Hs;
      repeat split; auto; try discriminate; intros;
      repeat constructor; simpl; rewrite ?Hs; auto.
Qed.

(** The whole loop: its calls are those of some number of iterations,
    possibly with stores to the stop flag by other threads in between. *)
Lemma generation_loop_spec stops model max_gen temp top_p_val top_k_val
    n_vocab fuel : forall i (v : LoopVars),
  let v' := generation_loop E stops model max_gen temp top_p_val top_k_val
                            n_vocab fuel i v in
  exists evs b n,
    lv_st v' = set_g_stop_requested b (emits evs (lv_st v)) /\
    List.filter is_sampling evs
    = concat (replicate n (sampling_block temp top_p_val top_k_val)) /\
    generated v' = generated v ++ decoded_tokens evs /\
    Forall (fun e => is_failed_decode e = false) (removelast evs).
Proof.
  assert (Hstay : forall v : LoopVars,
    exists (evs : list Event) b n,
      lv_st v = set_g_stop_requested b (emits evs (lv_st v)) /\
      List.filter is_sampling evs
      = concat (replicate n (sampling_block temp top_p_val top_k_val)) /\
      generated v = generated v ++ decoded_tokens evs /\
      Forall (fun e => is_failed_decode e = false) (removelast evs)).
  { intros v. exists [], (g_stop_requested (lv_st v)), 0%nat.
    rewrite emits_nil. simpl. rewrite app_nil_r.
    repeat split; auto. by destruct (lv_st v). }
  induction fuel as [|fuel IH]; intros i v; simpl; [apply Hstay|].
  destruct (i <? max_gen); [|apply Hstay].
  unfold concurrent_stop. destruct (stops i).
  { simpl. exists [EvStoreStopRequested true], true, 0%nat.
    simpl. rewrite app_nil_r. repeat split; auto. }
  destruct (g_stop_requested (lv_st v)) eqn:Hstop.
  { simpl. apply Hstay. }
  match goal with
  | |- context [generation_body E _ _ _ _ _ ?w] => set (v0 := w) end.
  destruct (generation_body_spec model temp top_p_val top_k_val n_vocab v0)
    as (evs1 & Hst1 & Hf1 & Hg1 & Hl1 & Hc1).
  destruct (generation_body E model temp top_p_val top_k_val n_vocab v0)
    as [[] v1]; simpl in *.
  - destruct (IH (i + 1) v1) as (evs2 & b2 & n2 & Hst2 & Hf2 & Hg2 & Hl2).
    exists (evs1 ++ evs2), b2, (S n2).
    rewrite Hst2, Hst1, emits_emits, List.filter_app, Hf1, Hf2, Hg2, Hg1.
    unfold decoded_tokens. rewrite flat_map_app, app_assoc.
    repeat split; auto. apply removelast_ok; auto.
  - exists evs1, (g_stop_requested (lv_st v)), 1%nat.
    simpl. rewrite ?app_nil_r.
    repeat split; auto; rewrite Hst1; by destruct (lv_st v).
Qed.

(** A stop request that lands before the test of iteration [i] ends the
    loop there: nothing is drawn and nothing is decoded. *)
Lemma generation_loop_stopped stops model max_gen temp top_p_val top_k_val
    n_vocab fuel i (v : LoopVars) :
  stops i = true ->
  let v' := generation_loop E stops model max_gen temp top_p_val top_k_val
                            n_vocab fuel i v in
  generated v' = generated v /\ lv_ctx v' = lv_ctx v /\
  exists evs,
    lv_st v' = set_g_stop_requested (g_stop_requested (lv_st v'))
                 (emits evs (lv_st v)) /\
    (evs = [] \/ evs = [EvStoreStopRequested true]).
Proof.
  intros Hs. destruct fuel as [|fuel]; simpl.
  - repeat split; auto. exists []. rewrite emits_nil.
    split; auto. by destruct (lv_st v).
  - destruct (i <? max_gen).
    + unfold concurrent_stop. rewrite Hs. simpl.
      repeat split; auto. exists [EvStoreStopRequested true]. auto.
    + repeat split; auto. exists []. rewrite emits_nil.
      split; auto. by destruct (lv_st v).
Qed.

(** [Z.to_nat (max_gen - i)] iterations are enough: more fuel does not
    change the result. *)
Lemma generation_loop_fuel stops model max_gen temp top_p_val top_k_val
    n_vocab : forall fuel1 fuel2 i (v : LoopVars),
  (Z.to_nat (max_gen - i) <= fuel1)%nat ->
  (Z.to_nat (max_gen - i) <= fuel2)%nat ->
  generation_loop E stops model max_gen temp top_p_val top_k_val
                  n_vocab fuel1 i v
  = generation_loop E stops model max_gen temp top_p_val top_k_val
                    n_vocab fuel2 i v.
Proof.
  induction fuel1 as [|fuel1 IH]; intros [|fuel2] i v H1 H2; simpl; auto.
  - destruct (i <? max_gen) eqn:Hi; [lia|done].
  - destruct (i <? max_gen) eqn:Hi; [lia|done].
  - destruct (i <? max_gen) eqn:Hi; [|done].
    destruct (g_stop_requested _); [done|].
    destruct (generation_body _ _ _ _ _ _ _) as [[] v1]; [|done].
    apply IH; lia.
Qed.

(** ** The paths of [generate] *)

Lemma emits_inj (evs1 evs2 : list Event) (st : State) :
  emits evs1 st = emits evs2 st -> evs1 = evs2.
Proof.
  intros H. apply (f_equal trace) in H. simpl in H.
  by apply app_inv_head in H.
Qed.

(** [generate] with both handles live, path by path, with the final state
    in terms of the initial one, the events [tok_evs] of the tokenizer and
    the variables [v] the loop ends with.  [flags b] sets the two flags as
    they are while [generate] runs ([b] is [true]) and when it returns
    before the loop ([b] is [false]). *)
Lemma generate_cases_for stops prompt maxTokens temperature' topP topK
    repeatPenalty (st : State) model ctx tok_evs :
  g_model st = Some model -> g_ctx st = Some ctx ->
  let text := jstring_to_string prompt in
  let enter : list Event :=
    [EvStoreIsGenerating true; EvStoreStopRequested false] in
  let flags b s := set_g_is_generating b (set_g_stop_requested false s) in
  snd (tokenize E text true st) = emits tok_evs st ->
    generate E stops prompt maxTokens temperature' topP topK repeatPenalty st
    = match fst (tokenize E text true st) with
      | Throws => (Throws, flags true (emits (enter ++ tok_evs) st))
      | Returns tokens =>
        if (length tokens =? 0)%nat then
          (Returns "[Error: Failed to tokenize]",
           flags false
             (emits (enter ++ tok_evs ++ [EvStoreIsGenerating false]) st))
        else if to_int32 (llama_n_ctx E ctx) - 4
                <? to_int32 (Z.of_nat (length tokens)) then
          (Returns "[Error: Prompt too long]",
           flags false
             (emits (enter ++ tok_evs ++ [EvNCtx; EvStoreIsGenerating false])
                    st))
        else
          let b := prefill_batch tokens in
          let d := llama_decode E (llama_kv_cache_clear E ctx) b in
          let pre :=
            enter ++ tok_evs ++ [EvNCtx; EvKvCacheClear; EvDecode b (fst d)] in
          if negb (fst d =? 0) then
            (Returns "[Error: Decode failed]",
             set_g_ctx (Some (snd d))
               (flags false (emits (pre ++ [EvStoreIsGenerating false]) st)))
          else
            let max_gen := max_gen_of maxTokens (g_params st) in
            let v :=
              generation_loop E stops model max_gen
                (temp_of temperature' (g_params st))
                (top_p_val_of topP (g_params st))
                (top_k_val_of topK (g_params st))
                (Z.of_N (llama_n_vocab E model)) (Z.to_nat max_gen) 0
                {| generated := [];
                   n_cur := to_int32 (Z.of_nat (length tokens));
                   lv_ctx := snd d;
                   lv_st := flags true (emits (pre ++ [EvNVocab]) st) |} in
            (Returns (string_to_jstring (fst (detokenize E (generated v) st))),
             set_g_ctx (Some (lv_ctx v))
               (set_g_is_generating false
                  (emits (EvStoreIsGenerating false
                          :: (EvTokenToPiece <$> generated v)) (lv_st v))))
      end.
Proof.
  intros Hm Hc text enter flags Hsnd.
  unfold generate. rewrite Hm, Hc. fold text.
  destruct (tokenize_frame text true
              (store_stop_requested false (store_is_generating true st))
              st eq_refl) as (evs' & _ & Htok & Hsnd').
  rewrite Hsnd in Hsnd'. apply emits_inj in Hsnd' as <-.
  rewrite Htok.
  destruct (fst (tokenize E text true st)) as [tokens|]; [|f_equal; state_eq].
  destruct (length tokens =? 0)%nat; [f_equal; state_eq|].
  destruct (_ <? _); [f_equal; state_eq|].
  destruct (llama_decode E (llama_kv_cache_clear E ctx) (prefill_batch tokens))
    as [status c1] eqn:Hd. simpl fst. simpl snd.
  destruct (status =? 0); simpl negb; cbv iota; [|f_equal; state_eq].
  match goal with
  | |- context [{| generated := []; n_cur := _; lv_ctx := _; lv_st := ?X |}] =>
    replace X with
      (flags true
         (emits ((enter ++ tok_evs ++
                  [EvNCtx; EvKvCacheClear;
                   EvDecode (prefill_batch tokens) status]) ++ [EvNVocab]) st))
      by (subst flags enter; state_eq)
  end.
  simpl g_params.
  match goal with
  | |- context [generation_loop E ?a ?b ?c ?d ?e ?f ?g ?h ?i ?j] =>
    set (v := generation_loop E a b c d e f g h i j)
  end.
  destruct (generation_loop_spec stops model
              (max_gen_of maxTokens (g_params st))
              (temp_of temperature' (g_params st))
              (top_p_val_of topP (g_params st))
              (top_k_val_of topK (g_params st))
              (Z.of_N (llama_n_vocab E model))
              (Z.to_nat (max_gen_of maxTokens (g_params st))) 0
              {| generated := [];
                 n_cur := to_int32 (Z.of_nat (length tokens));
                 lv_ctx := c1;
                 lv_st := flags true
                   (emits ((enter ++ tok_evs ++
                            [EvNCtx; EvKvCacheClear;
                             EvDecode (prefill_batch tokens) status])
                           ++ [EvNVocab]) st) |})
    as (evs & sb & n & Hst & _).
  fold v in Hst.
  rewrite (detokenize_frame (generated v) _ st).
  - f_equal. rewrite Hst. state_eq.
  - rewrite Hst. done.
  - rewrite Hm. eauto.
Qed.

(** The same, for the events of the tokenizer whatever they are. *)
Lemma generate_cases stops prompt maxTokens temperature' topP topK
    repeatPenalty (st : State) model ctx :
  g_model st = Some model -> g_ctx st = Some ctx ->
  let text := jstring_to_string prompt in
  let enter : list Event :=
    [EvStoreIsGenerating true; EvStoreStopRequested false] in
  let flags b s := set_g_is_generating b (set_g_stop_requested false s) in
  exists tok_evs,
    Forall (fun e => exists n, e = EvTokenize text n true) tok_evs /\
    generate E stops prompt maxTokens temperature' topP topK repeatPenalty st
    = match fst (tokenize E text true st) with
      | Throws => (Throws, flags true (emits (enter ++ tok_evs) st))
      | Returns tokens =>
        if (length tokens =? 0)%nat then
          (Returns "[Error: Failed to tokenize]",
           flags false
             (emits (enter ++ tok_evs ++ [EvStoreIsGenerating false]) st))
        else if to_int32 (llama_n_ctx E ctx) - 4
                <? to_int32 (Z.of_nat (length tokens)) then
          (Returns "[Error: Prompt too long]",
           flags false
             (emits (enter ++ tok_evs ++ [EvNCtx; EvStoreIsGenerating false])
                    st))
        else
          let b := prefill_batch tokens in
          let d := llama_decode E (llama_kv_cache_clear E ctx) b in
          let pre :=
            enter ++ tok_evs ++ [EvNCtx; EvKvCacheClear; EvDecode b (fst d)] in
          if negb (fst d =? 0) then
            (Returns "[Error: Decode failed]",
             set_g_ctx (Some (snd d))
               (flags false (emits (pre ++ [EvStoreIsGenerating false]) st)))
          else
            let max_gen := max_gen_of maxTokens (g_params st) in
            let v :=
              generation_loop E stops model max_gen
                (temp_of temperature' (g_params st))
                (top_p_val_of topP (g_params st))
                (top_k_val_of topK (g_params st))
                (Z.of_N (llama_n_vocab E model)) (Z.to_nat max_gen) 0
                {| generated := [];
                   n_cur := to_int32 (Z.of_nat (length tokens));
                   lv_ctx := snd d;
                   lv_st := flags true (emits (pre ++ [EvNVocab]) st) |} in
            (Returns (string_to_jstring (fst (detokenize E (generated v) st))),
             set_g_ctx (Some (lv_ctx v))
               (set_g_is_generating false
                  (emits (EvStoreIsGenerating false
                          :: (EvTokenToPiece <$> generated v)) (lv_st v))))
      end.
Proof.
  intros Hm Hc text enter flags.
  destruct (tokenize_frame text true st st eq_refl)
    as (tok_evs & Hevs & _ & Hsnd).
  exists tok_evs. split; [done|].
  by apply generate_cases_for.
Qed.

(** Unfold the loop reached by [generate] into its events. *)
Ltac loop_events evs sb n Hst Hf Hg Hl :=
  match goal with
  | |- context [generation_loop E ?a ?b ?c ?d ?e ?f ?g ?h ?i ?j] =>
    destruct (generation_loop_spec a b c d e f g h i j)
      as (evs & sb & n & Hst & Hf & Hg & Hl);
    set (v := generation_loop E a b c d e f g h i j) in *
  end.

Lemma no_sampling_in_tokenize text (evs : list Event) :
  Forall (fun e => exists n, e = EvTokenize text n true) evs ->
  List.filter is_sampling evs = [] /\
  Forall (fun e => touches_context e = false) evs /\
  Forall (fun e => is_decode e = false) evs.
Proof.
  induction 1 as [|e evs [n ->] _ (IH1 & IH2 & IH3)]; simpl; auto.
Qed.

Lemma no_sampling_in_pieces (tokens : list llama_token) :
  List.filter is_sampling (EvTokenToPiece <$> tokens : list Event) = [].
Proof. induction tokens; simpl; auto. Qed.


Lemma length_zero_iff_nil {A} (l : list A) :
  (length l =? 0)%nat = true <-> l = [].
Proof. destruct l; simpl; split; congruence. Qed.

Lemma length_nonzero {A} (l : list A) :
  l <> [] -> (length l =? 0)%nat = false.
Proof. destruct l; simpl; congruence. Qed.

(** What one iteration draws and submits, next to the pipeline of the
    specification. *)
Lemma generation_body_draws model temp top_p_val top_k_val n_vocab
    (v : LoopVars) :
  let d := spec_draw E temp top_p_val top_k_val n_vocab (lv_ctx v) in
  let dec := llama_decode E (snd d) (next_batch (fst d) (n_cur v)) in
  let b := generation_body E model temp top_p_val top_k_val n_vocab v in
  if fst d =? llama_token_eos E model then
    fst b = Break /\ generated (snd b) = generated v /\
    n_cur (snd b) = n_cur v /\ lv_ctx (snd b) = snd d
  else
    generated (snd b) = generated v ++ [fst d] /\
    lv_ctx (snd b) = snd dec /\
    if fst dec =? 0 then fst b = Continue /\ n_cur (snd b) = n_cur v + 1
    else fst b = Break.
Proof.
  unfold generation_body, spec_draw, spec_sampling_pipeline.
  destruct (llama_get_logits E (lv_ctx v)) as [lg c0].
  destruct (llama_sample_top_k E c0 _ top_k_val 1) as [a1 c1].
  destruct (llama_sample_top_p E c1 a1 top_p_val 1) as [a2 c2].
  destruct (llama_sample_temp E c2 a2 temp) as [a3 c3].
  destruct (llama_sample_token E c3 a3) as [new_token c4]. cbn [fst snd].
  destruct (new_token =? llama_token_eos E model); [done|].
  destruct (llama_decode E c4 _) as [status c5]. cbn [fst snd].
  by destruct (status =? 0).
Qed.

(** The loop produces its tokens as the specification says. *)
Lemma generation_loop_draws stops model max_gen temp top_p_val top_k_val
    n_vocab fuel : forall i (v : LoopVars),
  let v' := generation_loop E stops model max_gen temp top_p_val top_k_val
                            n_vocab fuel i v in
  exists toks,
    generated v' = generated v ++ toks /\
    spec_generation E model temp top_p_val top_k_val n_vocab
      (lv_ctx v) (n_cur v) toks (lv_ctx v').
Proof.
  assert (Hstay : forall v : LoopVars,
    exists toks,
      generated v = generated v ++ toks /\
      spec_generation E model temp top_p_val top_k_val n_vocab
        (lv_ctx v) (n_cur v) toks (lv_ctx v)).
  { intros v. exists []. rewrite app_nil_r. split; [done|]. constructor. }
  induction fuel as [|fuel IH]; intros i v; simpl; [apply Hstay|].
  destruct (i <? max_gen); [|apply Hstay].
  destruct (g_stop_requested _).
  { simpl. exists []. rewrite app_nil_r. split; [done|]. constructor. }
  match goal with
  | |- context [generation_body E _ _ _ _ _ ?w] => set (v0 := w) end.
  pose proof (generation_body_draws model temp top_p_val top_k_val n_vocab
                v0) as Hb.
  cbv zeta in Hb. change (lv_ctx v0) with (lv_ctx v) in Hb.
  change (n_cur v0) with (n_cur v) in Hb.
  change (generated v0) with (generated v) in Hb.
  destruct (spec_draw E temp top_p_val top_k_val n_vocab (lv_ctx v))
    as [tok c1] eqn:Hd. cbn [fst snd] in Hb.
  destruct (generation_body E model temp top_p_val top_k_val n_vocab v0)
    as [ex v1]. cbn [fst snd] in Hb.
  destruct (tok =? llama_token_eos E model) eqn:Heos.
  { destruct Hb as (-> & Hg & _ & Hc). exists [].
    rewrite app_nil_r. split; [done|]. rewrite Hc.
    apply Z.eqb_eq in Heos.
    replace c1 with (snd (spec_draw E temp top_p_val top_k_val n_vocab
                            (lv_ctx v))) by (by rewrite Hd).
    apply spec_generation_eos. by rewrite Hd. }
  apply Z.eqb_neq in Heos. destruct Hb as (Hg & Hc & Hb).
  destruct (llama_decode E c1 (next_batch tok (n_cur v)))
    as [status c2] eqn:Hdec. cbn [fst snd] in Hc, Hb.
  destruct (status =? 0) eqn:Hs.
  - apply Z.eqb_eq in Hs. subst status. destruct Hb as [-> Hn].
    destruct (IH (i + 1) v1) as (toks & Hg2 & Hrun).
    exists (tok :: toks). split.
    + rewrite Hg2, Hg, <- app_assoc. done.
    + rewrite Hc, Hn in Hrun.
      eapply spec_generation_step; eauto.
  - apply Z.eqb_neq in Hs. subst ex. exists [tok]. split; [done|].
    rewrite Hc. eapply spec_generation_fails; eauto.
Qed.

(** The sampling calls of an iteration and of a whole call, as events. *)
Lemma sampling_events stops prompt maxTokens temperature' topP
    topK repeatPenalty (st : State) :
  let r :=
    generate E stops prompt maxTokens temperature' topP topK repeatPenalty
             st in
  let temp := temp_of temperature' (g_params st) in
  let top_p_val := top_p_val_of topP (g_params st) in
  let top_k_val := top_k_val_of topK (g_params st) in
  (forall model n_vocab (v : LoopVars),
     exists evs,
       lv_st (snd (generation_body E model temp top_p_val top_k_val
                                   n_vocab v))
       = emits evs (lv_st v) /\
       List.filter is_sampling evs
       = [EvSampleTopK top_k_val 1; EvSampleTopP top_p_val 1;
          EvSampleTemp temp; EvSampleToken]) /\
  exists evs n,
    trace (snd r) = trace st ++ evs /\
    List.filter is_sampling evs
    = concat (replicate n
        [EvSampleTopK top_k_val 1; EvSampleTopP top_p_val 1;
         EvSampleTemp temp; EvSampleToken]).
Proof.
  intros r temp top_p_val top_k_val. split.
  { intros model n_vocab v.
    destruct (generation_body_spec model temp top_p_val top_k_val n_vocab v)
      as (evs & Hst & Hf & _). by exists evs. }
  subst temp top_p_val top_k_val.
  change [EvSampleTopK (top_k_val_of topK (g_params st)) 1;
          EvSampleTopP (top_p_val_of topP (g_params st)) 1;
          EvSampleTemp (temp_of temperature' (g_params st)); EvSampleToken]
    with (sampling_block (llama_model := llama_model)
            (llama_context := llama_context)
            (temp_of temperature' (g_params st))
            (top_p_val_of topP (g_params st))
            (top_k_val_of topK (g_params st))).
  subst r.
  assert (Hidle : forall (s : outcome string),
    exists (evs : list Event) (n : nat),
      trace (snd (s, st)) = trace st ++ evs /\
      List.filter is_sampling evs
      = concat (replicate n
          (sampling_block (temp_of temperature' (g_params st))
                          (top_p_val_of topP (g_params st))
                          (top_k_val_of topK (g_params st))))).
  { intros s. exists [], 0%nat. simpl. by rewrite app_nil_r. }
  destruct (g_model st) as [model|] eqn:Hm.
  2: { unfold generate. rewrite Hm. apply Hidle. }
  destruct (g_ctx st) as [ctx|] eqn:Hc.
  2: { unfold generate. rewrite Hm, Hc. apply Hidle. }
  destruct (generate_cases stops prompt maxTokens temperature' topP topK
              repeatPenalty st model ctx Hm Hc) as (tok_evs & Hevs & ->).
  destruct (no_sampling_in_tokenize _ _ Hevs) as (Hns & _ & _).
  assert (Hfilter : forall l : list Event,
    List.filter is_sampling (tok_evs ++ l) = List.filter is_sampling l).
  { intros l. by rewrite List.filter_app, Hns. }
  destruct (fst (tokenize E _ true st)) as [tokens|]; simpl.
  2: { eexists _, 0%nat. split; [reflexivity|]. simpl. by rewrite Hns. }
  destruct (length tokens =? 0)%nat; simpl.
  { eexists _, 0%nat. split; [reflexivity|]. simpl.
    by rewrite <- ?app_assoc, Hfilter. }
  destruct (_ <? _); simpl.
  { eexists _, 0%nat. split; [reflexivity|]. simpl.
    by rewrite <- ?app_assoc, Hfilter. }
  destruct (negb _); simpl.
  { eexists _, 0%nat. split; [reflexivity|]. simpl.
    by rewrite <- ?app_assoc, Hfilter. }
  loop_events evs sb n Hst Hf Hg Hl. rewrite Hst. simpl.
  rewrite <- !app_assoc.
  eexists _, n. split; [reflexivity|].
  simpl. rewrite <- ?app_assoc, Hfilter. simpl.
  rewrite !List.filter_app, Hf. simpl.
  by rewrite no_sampling_in_pieces, app_nil_r.
Qed.

(** C3. With the values in effect for a call of [generate], every
    iteration of the generation loop, from whatever loop state, draws
    the token that the pipeline of the specification draws from the
    scores of the context: top-k on all candidates, top-p on what top-k
    retained, temperature on what top-p left, and the draw from that.
    The token is the one tested against the end of sequence, appended to
    the output and submitted.  The iteration makes exactly these four
    sampling calls, in this order, and the sampling calls of the whole
    call are a repetition of this block.  In a call that reaches the
    loop, the tokens whose text is returned are those of a generation by
    the specification from the context the prefill left, and the context
    kept is the one that generation leaves. *)
Theorem sampling_pipeline_order stops prompt maxTokens temperature' topP
    topK repeatPenalty (st : State) :
  let r :=
    generate E stops prompt maxTokens temperature' topP topK repeatPenalty
             st in
  let temp := temp_of temperature' (g_params st) in
  let top_p_val := top_p_val_of topP (g_params st) in
  let top_k_val := top_k_val_of topK (g_params st) in
  (forall model n_vocab (v : LoopVars),
     let d := spec_draw E temp top_p_val top_k_val n_vocab (lv_ctx v) in
     let dec := llama_decode E (snd d) (next_batch (fst d) (n_cur v)) in
     let b := generation_body E model temp top_p_val top_k_val n_vocab v in
     if fst d =? llama_token_eos E model then
       fst b = Break /\ generated (snd b) = generated v /\
       n_cur (snd b) = n_cur v /\ lv_ctx (snd b) = snd d
     else
       generated (snd b) = generated v ++ [fst d] /\
       lv_ctx (snd b) = snd dec /\
       if fst dec =? 0 then fst b = Continue /\ n_cur (snd b) = n_cur v + 1
       else fst b = Break) /\
  (forall model n_vocab (v : LoopVars),
     exists evs,
       lv_st (snd (generation_body E model temp top_p_val top_k_val
                                   n_vocab v))
       = emits evs (lv_st v) /\
       List.filter is_sampling evs
       = [EvSampleTopK top_k_val 1; EvSampleTopP top_p_val 1;
          EvSampleTemp temp; EvSampleToken]) /\
  (exists evs n,
     trace (snd r) = trace st ++ evs /\
     List.filter is_sampling evs
     = concat (replicate n
         [EvSampleTopK top_k_val 1; EvSampleTopP top_p_val 1;
          EvSampleTemp temp; EvSampleToken])) /\
  (forall model ctx tokens,
     g_model st = Some model -> g_ctx st = Some ctx ->
     fst (tokenize E (jstring_to_string prompt) true st) = Returns tokens ->
     tokens <> [] ->
     Z.of_nat (length tokens) <= to_int32 (llama_n_ctx E ctx) - 4 ->
     let pre :=
       llama_decode E (llama_kv_cache_clear E ctx) (prefill_batch tokens) in
     fst pre = 0 ->
     exists toks c',
       spec_generation E model temp top_p_val top_k_val
         (Z.of_N (llama_n_vocab E model)) (snd pre)
         (Z.of_nat (length tokens)) toks c' /\
       fst r = Returns (string_to_jstring (fst (detokenize E toks st))) /\
       g_ctx (snd r) = Some c').
Proof.
  intros r temp top_p_val top_k_val.
  split; [intros; apply generation_body_draws|].
  destruct (sampling_events stops prompt maxTokens temperature' topP topK
              repeatPenalty st) as [Hbody Hcall].
  split; [exact Hbody|]. split; [exact Hcall|].
  intros model ctx tokens Hm Hc Htok Hne Hfit pre Hpre. subst r pre.
  destruct (generate_cases stops prompt maxTokens temperature' topP topK
              repeatPenalty st model ctx Hm Hc) as (tok_evs & Hevs & ->).
  pose proof (tokenize_length _ _ _ _ Htok) as Hlen.
  rewrite Htok, (length_nonzero _ Hne).
  rewrite (to_int32_small (Z.of_nat (length tokens))) by lia.
  destruct (_ <? _) eqn:Hcmp; [lia|]. cbv zeta. rewrite Hpre. simpl negb.
  cbv iota.
  match goal with
  | |- context [generation_loop E ?a ?b ?c ?d ?e ?f ?g ?h ?i ?j] =>
    destruct (generation_loop_draws a b c d e f g h i j)
      as (toks & Hg & Hrun);
    set (v := generation_loop E a b c d e f g h i j) in *
  end.
  cbn [generated lv_ctx n_cur app] in Hg, Hrun.
  exists toks, (lv_ctx v). split; [exact Hrun|].
  cbn [fst snd]. rewrite Hg. split; [done|]. done.
Qed.

(** ** The repeat penalty *)

(** The loop does not read the configured parameters: replacing them in
    the global state commutes with the loop. *)
Lemma generation_body_params gp model temp top_p_val top_k_val n_vocab
    (v : LoopVars) :
  generation_body E model temp top_p_val top_k_val n_vocab
                  (with_lv_st (set_g_params gp) v)
  = (fst (generation_body E model temp top_p_val top_k_val n_vocab v),
     with_lv_st (set_g_params gp)
       (snd (generation_body E model temp top_p_val top_k_val n_vocab v))).
Proof.
  unfold generation_body. cbn [with_lv_st lv_ctx lv_st generated n_cur].
  destruct (llama_get_logits E (lv_ctx v)) as [lg c0].
  destruct (llama_sample_top_k E c0 _ top_k_val 1) as [a1 c1].
  destruct (llama_sample_top_p E c1 a1 top_p_val 1) as [a2 c2].
  destruct (llama_sample_temp E c2 a2 temp) as [a3 c3].
  destruct (llama_sample_token E c3 a3) as [new_token c4].
  destruct (new_token =? llama_token_eos E model); [reflexivity|].
  destruct (llama_decode E c4 _) as [status c5].
  destruct (negb (status =? 0)); reflexivity.
Qed.

Lemma generation_loop_params gp stops model max_gen temp top_p_val
    top_k_val n_vocab fuel : forall i (v : LoopVars),
  generation_loop E stops model max_gen temp top_p_val top_k_val n_vocab
                  fuel i (with_lv_st (set_g_params gp) v)
  = with_lv_st (set_g_params gp)
      (generation_loop E stops model max_gen temp top_p_val top_k_val
                       n_vocab fuel i v).
Proof.
  induction fuel as [|fuel IH]; intros i v; [reflexivity|].
  cbn [generation_loop]. destruct (i <? max_gen); [|reflexivity].
  cbn [with_lv_st lv_ctx lv_st generated n_cur].
  assert (Hcs : concurrent_stop stops i (set_g_params gp (lv_st v))
                = set_g_params gp (concurrent_stop stops i (lv_st v))).
  { unfold concurrent_stop. by destruct (stops i). }
  rewrite Hcs.
  change (g_stop_requested
            (set_g_params gp (concurrent_stop stops i (lv_st v))))
    with (g_stop_requested (concurrent_stop stops i (lv_st v))).
  destruct (g_stop_requested (concurrent_stop stops i (lv_st v)));
    [reflexivity|].
  match goal with
  | |- context [generation_body E _ _ _ _ _ ?w] =>
    change w with
      (with_lv_st (set_g_params gp)
         {| generated := generated v; n_cur := n_cur v; lv_ctx := lv_ctx v;
            lv_st := concurrent_stop stops i (lv_st v) |})
  end.
  rewrite generation_body_params.
  destruct (generation_body E model temp top_p_val top_k_val n_vocab _)
    as [[] v1]; cbn [fst snd]; [apply IH|reflexivity].
Qed.

(** C4. The repeat penalty is resolved and then not used.  Two calls of
    [generate] that differ in the [repeatPenalty] argument only, from the
    same state and with the same engine and the same other threads,
    return the same text and leave the same state.  The same holds when
    the configured default of the repeat penalty differs as well: the
    text and every call to the engine are the same, and the final states
    differ in that default only. *)
Theorem repeat_penalty_not_applied stops prompt maxTokens temperature'
    topP topK (repeatPenalty1 repeatPenalty2 d : float) (st : State) :
  let r1 :=
    generate E stops prompt maxTokens temperature' topP topK repeatPenalty1
             st in
  let gp := with_repeat_penalty d (g_params st) in
  generate E stops prompt maxTokens temperature' topP topK repeatPenalty2 st
  = r1 /\
  generate E stops prompt maxTokens temperature' topP topK repeatPenalty2
           (set_g_params gp st)
  = (fst r1, set_g_params gp (snd r1)).
Proof.
  intros r1 gp. split; [reflexivity|]. subst r1.
  set (f := set_g_params gp).
  destruct (g_model st) as [model|] eqn:Hm.
  2: { unfold generate. cbn [f set_g_params g_model]. by rewrite Hm. }
  destruct (g_ctx st) as [ctx|] eqn:Hc.
  2: { unfold generate. cbn [f set_g_params g_model g_ctx].
       by rewrite Hm, Hc. }
  destruct (tokenize_frame (jstring_to_string prompt) true (f st) st
              eq_refl) as (evs & _ & Htok & Hsnd).
  rewrite (generate_cases_for stops prompt maxTokens temperature' topP topK
             repeatPenalty1 st model ctx evs Hm Hc Hsnd).
  rewrite (generate_cases_for stops prompt maxTokens temperature' topP topK
             repeatPenalty2 (f st) model ctx evs Hm Hc
             (f_equal snd Htok)).
  rewrite (f_equal fst Htok). cbn [fst].
  destruct (fst (tokenize E _ true st)) as [tokens|]; [|reflexivity].
  destruct (length tokens =? 0)%nat; [reflexivity|].
  destruct (_ <? _); [reflexivity|]. cbv zeta.
  destruct (negb _); [reflexivity|].
  change (g_params (f st)) with gp.
  change (max_gen_of maxTokens gp) with (max_gen_of maxTokens (g_params st)).
  change (temp_of temperature' gp) with (temp_of temperature' (g_params st)).
  change (top_p_val_of topP gp) with (top_p_val_of topP (g_params st)).
  change (top_k_val_of topK gp) with (top_k_val_of topK (g_params st)).
  match goal with
  | |- context [generation_loop E _ _ _ _ _ _ _ _ _ ?w] =>
    lazymatch w with
    | context [f st] =>
      change w with
        (with_lv_st f
           {| generated := [];
              n_cur := to_int32 (Z.of_nat (length tokens));
              lv_ctx :=
                snd (llama_decode E (llama_kv_cache_clear E ctx)
                                  (prefill_batch tokens));
              lv_st :=
                set_g_is_generating true
                  (set_g_stop_requested false
                     (emits
                        (([EvStoreIsGenerating true;
                           EvStoreStopRequested false] ++ evs ++
                          [EvNCtx; EvKvCacheClear;
                           EvDecode (prefill_batch tokens)
                             (fst (llama_decode E
                                     (llama_kv_cache_clear E ctx)
                                     (prefill_batch tokens)))])
                         ++ [EvNVocab]) st)) |})
    end
  end.
  unfold f. rewrite !generation_loop_params.
  match goal with
  | |- context [generation_loop E ?a ?b ?c ?d0 ?e ?f0 ?g ?h ?i ?j] =>
    set (v := generation_loop E a b c d0 e f0 g h i j)
  end.
  cbn [with_lv_st generated lv_ctx lv_st]. cbn [fst snd].
  rewrite (detokenize_frame (generated v) (set_g_params gp st) st eq_refl)
    by (rewrite Hm; eauto).
  reflexivity.
Qed.

(** ** The conversion to a Java string *)

Lemma string_to_jstring_no_nul (s : string) :
  ~ In Ascii.zero (String.list_ascii_of_string s) ->
  string_to_jstring s = s.
Proof.
  induction s as [|c s IH]; [reflexivity|]. intros Hno. simpl in Hno.
  cbn [string_to_jstring]. destruct (Ascii.eqb_spec c Ascii.zero) as [->|_].
  - exfalso. apply Hno. by left.
  - rewrite IH; [reflexivity|]. intros Hin. apply Hno. by right.
Qed.


(** C5, as amended.  When the model is loaded and the tokenizer returns
    more tokens than the context size minus 4, no call of the invocation
    is a [llama_decode].  [generate] then returns the prompt-too-long
    error, unless the tokenizer returned no token at all: the guard for
    that comes first, and the result is the tokenization error. *)
Theorem prompt_too_long_never_decodes stops prompt maxTokens temperature'
    topP topK repeatPenalty (st : State) model ctx tokens :
  g_model st = Some model -> g_ctx st = Some ctx ->
  fst (tokenize E (jstring_to_string prompt) true st) = Returns tokens ->
  to_int32 (llama_n_ctx E ctx) - 4 < Z.of_nat (length tokens) ->
  let r :=
    generate E stops prompt maxTokens temperature' topP topK repeatPenalty
             st in
  (exists evs,
     trace (snd r) = trace st ++ evs /\
     Forall (fun e => is_decode e = false) evs) /\
  (tokens <> [] -> fst r = Returns "[Error: Prompt too long]") /\
  (tokens = [] -> fst r = Returns "[Error: Failed to tokenize]").
Proof.
  intros Hm Hc Htok Hlong r. subst r.
  destruct (generate_cases stops prompt maxTokens temperature' topP topK
              repeatPenalty st model ctx Hm Hc) as (tok_evs & Hevs & ->).
  destruct (no_sampling_in_tokenize _ _ Hevs) as (_ & _ & Hnd).
  pose proof (tokenize_length _ _ _ _ Htok) as Hlen.
  rewrite Htok.
  destruct (length tokens =? 0)%nat eqn:Hz.
  { apply length_zero_iff_nil in Hz. subst tokens. simpl.
    split; [|split; [done|done]].
    eexists. split; [reflexivity|].
    repeat constructor. apply Forall_app. split; [done|].
    repeat constructor. }
  assert (Hne : tokens <> []).
  { intros ->. done. }
  rewrite (to_int32_small (Z.of_nat (length tokens))) by lia.
  destruct (_ <? _) eqn:Hcmp; [|lia]. simpl.
  split; [|split; [done|done]].
  eexists. split; [reflexivity|].
  repeat constructor. apply Forall_app. split; [done|].
  repeat constructor.
Qed.


(** C9. Take a call of [generate] that reaches the generation loop, and
    let another thread request a stop after [generate] cleared the flag
    and before the loop reads it for the first time.  Then the loop draws
    no token and decodes nothing: after the prefill the only calls are the
    stop request itself, when the loop gets to read the flag, and the
    store that clears [g_is_generating].  The generated sequence is empty
    and [generate] returns its detokenization, the empty text. *)
Theorem stop_before_first_token stops prompt maxTokens temperature' topP
    topK repeatPenalty (st : State) model ctx tokens :
  g_model st = Some model -> g_ctx st = Some ctx ->
  fst (tokenize E (jstring_to_string prompt) true st) = Returns tokens ->
  tokens <> [] ->
  Z.of_nat (length tokens) <= to_int32 (llama_n_ctx E ctx) - 4 ->
  fst (llama_decode E (llama_kv_cache_clear E ctx) (prefill_batch tokens))
  = 0 ->
  stops 0 = true ->
  let r :=
    generate E stops prompt maxTokens temperature' topP topK repeatPenalty
             st in
  exists tok_evs stop_evs,
    Forall (fun e => exists n,
              e = EvTokenize (jstring_to_string prompt) n true) tok_evs /\
    (stop_evs = [] \/ stop_evs = [EvStoreStopRequested true]) /\
    trace (snd r)
    = trace st ++
      [EvStoreIsGenerating true; EvStoreStopRequested false] ++ tok_evs ++
      [EvNCtx; EvKvCacheClear; EvDecode (prefill_batch tokens) 0; EvNVocab]
      ++ stop_evs ++ [EvStoreIsGenerating false] /\
    fst r = Returns (fst (detokenize E [] st)) /\
    fst r = Returns "".
Proof.
  intros Hm Hc Htok Hne Hfit Hpre Hstop r. subst r.
  destruct (generate_cases stops prompt maxTokens temperature' topP topK
              repeatPenalty st model ctx Hm Hc) as (tok_evs & Hevs & ->).
  pose proof (tokenize_length _ _ _ _ Htok) as Hlen.
  rewrite Htok, (length_nonzero _ Hne).
  rewrite (to_int32_small (Z.of_nat (length tokens))) by lia.
  destruct (_ <? _) eqn:Hcmp; [lia|]. cbv zeta. rewrite Hpre. simpl negb.
  cbv iota.
  match goal with
  | |- context [generation_loop E ?a ?b ?c ?d ?e ?f ?g ?h ?i ?j] =>
    destruct (generation_loop_stopped a b c d e f g h i j Hstop)
      as (Hg & _ & stop_evs & Hst & Hse);
    set (v := generation_loop E a b c d e f g h i j) in *
  end.
  simpl in Hg. exists tok_evs, stop_evs.
  split; [done|]. split; [done|]. simpl. rewrite Hst, Hg, detokenize_nil.
  simpl. split; [|done].
  rewrite <- !app_assoc. simpl. by rewrite <- !app_assoc.
Qed.

(** C10. When [generate] fails validation, because a handle is null,
    because the tokenizer returns no token or because the prompt is too
    long, it returns one of the three validation errors, the context is
    the one it was before the call, and no call of the invocation clears
    the KV cache or submits a batch. *)
Theorem validation_failure_leaves_context stops prompt maxTokens
    temperature' topP topK repeatPenalty (st : State) :
  (g_model st = None \/ g_ctx st = None \/
   exists ctx tokens,
     g_ctx st = Some ctx /\
     fst (tokenize E (jstring_to_string prompt) true st) = Returns tokens /\
     (tokens = [] \/
      to_int32 (llama_n_ctx E ctx) - 4 < Z.of_nat (length tokens))) ->
  let r :=
    generate E stops prompt maxTokens temperature' topP topK repeatPenalty
             st in
  (fst r = Returns "[Error: Model not loaded]" \/
   fst r = Returns "[Error: Failed to tokenize]" \/
   fst r = Returns "[Error: Prompt too long]") /\
  g_ctx (snd r) = g_ctx st /\
  exists evs,
    trace (snd r) = trace st ++ evs /\
    Forall (fun e => touches_context e = false) evs.
Proof.
  intros Hfail r. subst r.
  assert (Hidle :
    let r : outcome string * State :=
      (Returns "[Error: Model not loaded]", st) in
    (fst r = Returns "[Error: Model not loaded]" \/
     fst r = Returns "[Error: Failed to tokenize]" \/
     fst r = Returns "[Error: Prompt too long]") /\
    g_ctx (snd r) = g_ctx st /\
    exists evs : list Event,
      trace (snd r) = trace st ++ evs /\
      Forall (fun e => touches_context e = false) evs).
  { simpl. split; [auto|]. split; [done|]. exists [].
    by rewrite app_nil_r. }
  destruct (g_model st) as [model|] eqn:Hm.
  2: { unfold generate. rewrite Hm. apply Hidle. }
  destruct (g_ctx st) as [ctx|] eqn:Hc.
  2: { unfold generate. rewrite Hm, Hc. apply Hidle. }
  destruct Hfail as [?|[?|(ctx' & tokens & [= <-] & Htok & Hbad)]];
    [done..|].
  destruct (generate_cases stops prompt maxTokens temperature' topP topK
              repeatPenalty st model ctx Hm Hc) as (tok_evs & Hevs & ->).
  destruct (no_sampling_in_tokenize _ _ Hevs) as (_ & Hnt & _).
  pose proof (tokenize_length _ _ _ _ Htok) as Hlen.
  rewrite Htok.
  destruct (length tokens =? 0)%nat eqn:Hz.
  - simpl. split; [auto|]. split; [done|].
    eexists. split; [reflexivity|].
    repeat constructor. apply Forall_app. split; [done|].
    repeat constructor.
  - destruct Hbad as [->|Hlong]; [done|].
    rewrite (to_int32_small (Z.of_nat (length tokens))) by lia.
    destruct (_ <? _) eqn:Hcmp; [|lia]. simpl.
    split; [auto|]. split; [done|].
    eexists. split; [reflexivity|].
    repeat constructor. apply Forall_app. split; [done|].
    repeat constructor.
Qed.

(** ** The prompt batch *)





(** ** Generation parameters *)

Lemma float_gt0_sign (x : float) :
  float_gt0 x = true <-> float_sign_of x = FPositive.
Proof.
  destruct x as [[]|[]| |[] m e]; split; intros H; cbv in H |- *;
    congruence.
Qed.

Lemma float_ge0_sign (x : float) :
  float_ge0 x = true <->
  float_sign_of x = FPositive \/ float_sign_of x = FZero.
Proof.
  destruct x as [[]|[]| |[] m e]; split; intros H; cbv in H |- *;
    try congruence; auto; destruct H; congruence.
Qed.

(** C8, as amended.  A positive supplied value is used as given, for each
    of the five fields.  For [max_tokens], [top_p], [top_k] and
    [repeat_penalty] any other value (zero, negative, or a NaN) resolves
    to the configured default.  For [temperature] zero is used as given
    too, and only a negative value or a NaN resolves to the configured
    default.  [setDefaultParams] replaces a configured default under the
    same tests. *)
Theorem generation_params_resolution (maxTokens topK : Z)
    (temperature' topP repeatPenalty : float) (gp : GenerationParams) :
  (0 < maxTokens -> max_gen_of maxTokens gp = maxTokens) /\
  (maxTokens <= 0 -> max_gen_of maxTokens gp = max_tokens gp) /\
  (0 < topK -> top_k_val_of topK gp = topK) /\
  (topK <= 0 -> top_k_val_of topK gp = top_k gp) /\
  (float_sign_of topP = FPositive -> top_p_val_of topP gp = topP) /\
  (float_sign_of topP <> FPositive -> top_p_val_of topP gp = top_p gp) /\
  (float_sign_of repeatPenalty = FPositive ->
   rep_pen_of repeatPenalty gp = repeatPenalty) /\
  (float_sign_of repeatPenalty <> FPositive ->
   rep_pen_of repeatPenalty gp = repeat_penalty gp) /\
  (float_sign_of temperature' = FPositive \/
   float_sign_of temperature' = FZero ->
   temp_of temperature' gp = temperature') /\
  (float_sign_of temperature' = FNegative \/
   float_sign_of temperature' = FNaN ->
   temp_of temperature' gp = temperature gp) /\
  (forall st : State,
     g_params st = gp ->
     g_params (setDefaultParams maxTokens temperature' topP topK
                                repeatPenalty st)
     = {| max_tokens := max_gen_of maxTokens gp;
          temperature := temp_of temperature' gp;
          top_p := top_p_val_of topP gp;
          top_k := top_k_val_of topK gp;
          repeat_penalty := rep_pen_of repeatPenalty gp;
          n_threads := n_threads gp;
          n_ctx := n_ctx gp |}).
Proof.
  unfold max_gen_of, top_k_val_of, top_p_val_of, rep_pen_of, temp_of.
  repeat split.
  - intros H. by rewrite (proj2 (Z.ltb_lt _ _) H).
  - intros H. by rewrite (proj2 (Z.ltb_ge _ _) H).
  - intros H. by rewrite (proj2 (Z.ltb_lt _ _) H).
  - intros H. by rewrite (proj2 (Z.ltb_ge _ _) H).
  - intros H. by rewrite (proj2 (float_gt0_sign _) H).
  - intros H. destruct (float_gt0 topP) eqn:Hs; [|done].
    by apply float_gt0_sign in Hs.
  - intros H. by rewrite (proj2 (float_gt0_sign _) H).
  - intros H. destruct (float_gt0 repeatPenalty) eqn:Hs; [|done].
    by apply float_gt0_sign in Hs.
  - intros H. by rewrite (proj2 (float_ge0_sign _) H).
  - intros H. destruct (float_ge0 temperature') eqn:Hs; [|done].
    apply float_ge0_sign in Hs. destruct H, Hs; congruence.
  - intros st <-. reflexivity.
Qed.

End BridgeFacts.

(** * The properties on the small engine *)

Section OnToy.

Import Toy.

(** The prompt a is tokenized to two tokens and continued with b, c and d,
    after which the end-of-sequence token is drawn. *)
Example generate_runs :
  fst (run engine never "a" 8 (loaded 16 8)) = Returns "bcd".
Proof. reflexivity. Qed.

(** A context too large for the free memory: the load fails after the
    weights were loaded, and the model is freed again. *)
Example loadModel_context_failure :
  let r := loadModel engine (Some "model.gguf") 5000 4 (start 4096) in
  fst r = false /\ g_model (snd r) = None /\ g_ctx (snd r) = None /\
  last (trace (snd r)) = Some (EvFreeModel 128).
Proof. repeat split; reflexivity. Qed.

(** Four tokens are drawn (b, c, d and the end of sequence), each by the
    four sampling calls in their order, with the configured defaults. *)
Example generate_sampling_calls :
  List.filter is_sampling
    (trace (snd (run engine never "a" 8 (loaded 16 8))))
  = concat (replicate 4 (sampling_block f_0_7 f_0_9 40)).
Proof. reflexivity. Qed.

(** When the context can decode three times, the decode step that
    submits d fails, and d is part of the result all the same. *)
Example generate_partial :
  fst (run engine never "a" 8 (loaded 16 4)) = Returns "bcd" /\
  g_ctx (snd (run engine never "a" 8 (loaded 16 4)))
  = Some {| toy_kv := [1; 97; 98; 99]; toy_budget := 0; toy_n_ctx := 16 |}.
Proof. split; reflexivity. Qed.

Example generate_prefill_fails :
  fst (run engine never "a" 8 (loaded 16 1))
  = Returns "[Error: Decode failed]".
Proof. reflexivity. Qed.

Lemma sampling_pipeline_order_witness :
  let st := loaded 16 8 in
  let r := run engine never "a" 8 st in
  exists toks c',
    spec_generation engine 128 f_0_7 f_0_9 40 128
      (snd (llama_decode engine (llama_kv_cache_clear engine (fresh 16 8))
                         (prefill_batch [1; 97])))
      2 toks c' /\
    fst r = Returns (string_to_jstring (fst (detokenize engine toks st))) /\
    g_ctx (snd r) = Some c'.
Proof.
  destruct (sampling_pipeline_order engine never (Some "a") 8 minus_one
              minus_one 0 minus_one (loaded 16 8)) as (_ & _ & _ & H).
  apply (H 128 (fresh 16 8) [1; 97]);
    [reflexivity | reflexivity | reflexivity | discriminate
    | vm_compute; discriminate | reflexivity].
Defined.


(** C5, as stated, fails when the vocabulary has no begin-of-sequence
    token, the prompt is empty and the context has fewer than 4
    positions: the token count 0 exceeds the context size 2 minus 4, and
    [generate] returns the tokenization error, not the prompt-too-long
    error. *)
Lemma prompt_too_long_counterexample :
  let E0 := engine_with false in
  let st := loaded 2 4 in
  g_model st = Some 128 /\ g_ctx st = Some (fresh 2 4) /\
  fst (tokenize E0 "" true st) = Returns [] /\
  to_int32 (llama_n_ctx E0 (fresh 2 4)) - 4 < Z.of_nat (length (@nil Z)) /\
  fst (run E0 never "" 8 st) = Returns "[Error: Failed to tokenize]" /\
  fst (run E0 never "" 8 st) <> Returns "[Error: Prompt too long]".
Proof.
  split; [reflexivity|]. split; [reflexivity|]. split; [reflexivity|].
  split; [reflexivity|]. split; [reflexivity|]. discriminate.
Qed.

Lemma prompt_too_long_never_decodes_witness :
  (let st := loaded 4 4 in
   let r := run engine never "a" 8 st in
   (exists evs,
      trace (snd r) = trace st ++ evs /\
      Forall (fun e => is_decode e = false) evs) /\
   fst r = Returns "[Error: Prompt too long]") /\
  fst (run (engine_with false) never "" 8 (loaded 2 4))
  = Returns "[Error: Failed to tokenize]".
Proof.
  destruct (prompt_too_long_never_decodes engine never (Some "a") 8
              minus_one minus_one 0 minus_one (loaded 4 4) 128 (fresh 4 4)
              [1; 97] eq_refl eq_refl eq_refl eq_refl) as (H1 & H2 & _).
  destruct (prompt_too_long_never_decodes (engine_with false) never
              (Some "") 8 minus_one minus_one 0 minus_one (loaded 2 4) 128
              (fresh 2 4) [] eq_refl eq_refl eq_refl eq_refl)
    as (_ & _ & H3).
  split; [split; [exact H1|apply H2; discriminate]|exact (H3 eq_refl)].
Defined.



(** C8, as stated, fails for the temperature: zero is not positive, and
    it is used as given instead of the configured default 0.7.  The call
    below samples with temperature zero. *)
Lemma temperature_zero_counterexample :
  float_sign_of float_zero <> FPositive /\
  temp_of float_zero GenerationParams_init = float_zero /\
  temp_of float_zero GenerationParams_init
  <> temperature GenerationParams_init /\
  In (EvSampleTemp float_zero)
     (trace (snd (generate engine never (Some "a") 8 float_zero minus_one 0
                           minus_one (loaded 16 8)))) /\
  ~ In (EvSampleTemp (temperature GenerationParams_init))
       (trace (snd (generate engine never (Some "a") 8 float_zero minus_one
                             0 minus_one (loaded 16 8)))).
Proof.
  split; [discriminate|]. split; [reflexivity|]. split; [discriminate|].
  split.
  - vm_compute. do 13 right. left. reflexivity.
  - vm_compute. intuition discriminate.
Qed.

Lemma generation_params_resolution_witness :
  max_gen_of 7 GenerationParams_init = 7 /\
  max_gen_of 0 GenerationParams_init = 512 /\
  top_k_val_of 5 GenerationParams_init = 5 /\
  top_k_val_of (-1) GenerationParams_init = 40 /\
  top_p_val_of f_0_7 GenerationParams_init = f_0_7 /\
  top_p_val_of float_zero GenerationParams_init = f_0_9 /\
  rep_pen_of f_0_7 GenerationParams_init = f_0_7 /\
  rep_pen_of S754_nan GenerationParams_init = f_1_1 /\
  temp_of float_zero GenerationParams_init = float_zero /\
  temp_of minus_one GenerationParams_init = f_0_7.
Proof.
  destruct (generation_params_resolution (llama_model := Z)
              (llama_context := ctx) (world := Z)
              7 5 float_zero f_0_7 f_0_7 GenerationParams_init)
    as (H1 & _ & H3 & _ & H5 & _ & H7 & _ & H9 & _).
  destruct (generation_params_resolution (llama_model := Z)
              (llama_context := ctx) (world := Z)
              0 (-1) minus_one float_zero S754_nan GenerationParams_init)
    as (_ & H2 & _ & H4 & _ & H6 & _ & H8 & _ & H10 & _).
  split; [exact (H1 eq_refl)|]. split; [apply H2; discriminate|].
  split; [exact (H3 eq_refl)|]. split; [apply H4; discriminate|].
  split; [exact (H5 eq_refl)|]. split; [apply H6; discriminate|].
  split; [exact (H7 eq_refl)|]. split; [apply H8; discriminate|].
  split; [exact (H9 (or_intror eq_refl))|].
  exact (H10 (or_introl eq_refl)).
Defined.

Lemma stop_before_first_token_witness :
  let st := loaded 16 8 in
  let r := run engine at_once "a" 8 st in
  exists tok_evs stop_evs,
    Forall (fun e => exists n, e = EvTokenize "a" n true) tok_evs /\
    (stop_evs = [] \/ stop_evs = [EvStoreStopRequested true]) /\
    trace (snd r)
    = trace st ++
      [EvStoreIsGenerating true; EvStoreStopRequested false] ++ tok_evs ++
      [EvNCtx; EvKvCacheClear; EvDecode (prefill_batch [1; 97]) 0; EvNVocab]
      ++ stop_evs ++ [EvStoreIsGenerating false] /\
    fst r = Returns (fst (detokenize engine [] st)) /\
    fst r = Returns "".
Proof.
  apply (stop_before_first_token engine at_once (Some "a") 8 minus_one
           minus_one 0 minus_one (loaded 16 8) 128 (fresh 16 8) [1; 97]);
    [reflexivity | reflexivity | reflexivity | discriminate
    | vm_compute; discriminate | reflexivity | reflexivity].
Defined.

Lemma validation_failure_leaves_context_witness :
  let st := loaded 4 4 in
  let r := run engine never "abc" 8 st in
  (fst r = Returns "[Error: Model not loaded]" \/
   fst r = Returns "[Error: Failed to tokenize]" \/
   fst r = Returns "[Error: Prompt too long]") /\
  g_ctx (snd r) = g_ctx st /\
  exists evs,
    trace (snd r) = trace st ++ evs /\
    Forall (fun e => touches_context e = false) evs.
Proof.
  apply (validation_failure_leaves_context engine never (Some "abc") 8
           minus_one minus_one 0 minus_one (loaded 4 4)).
  right. right. exists (fresh 4 4), [1; 97; 98; 99].
  split; [reflexivity|]. split; [reflexivity|]. right. reflexivity.
Defined.

End OnToy.

(** * Further properties of the bridge *)

Section Lifecycle.

Context {llama_model llama_context world : Type}.
Variable E : Engine llama_model llama_context world.

Abbreviation State := (State llama_model llama_context world).
Abbreviation Event := (Event llama_model llama_context).


(** X2. [loadModel] answers yes exactly when a session is live after the
    call: its result is the answer [isModelLoaded] gives afterwards. *)
Theorem loadModel_reports_session
    (modelPath : jstring) (nCtx nThreads : Z) (st : State) :
  let r := loadModel E modelPath nCtx nThreads st in
  fst r = isModelLoaded (snd r).
Proof.
  intros r. subst r. unfold loadModel, isModelLoaded.
  destruct (backend_initialized (release_handles E st)); simpl;
    (destruct (llama_load_model_from_file E _ _ _) as [[m|] w]; simpl;
     [ destruct (llama_new_context_with_model E m _ _) as [[c|] w'];
       simpl | ]); reflexivity.
Qed.



(** X4. After a successful [loadModel] the configured context size and
    thread count are the ones the context was created with: the supplied
    value when it is positive, else the value configured before.  The
    batch thread count given to the engine equals the thread count, the
    other configured parameters are unchanged, and the context held is
    the one the engine returned. *)
Theorem loadModel_records_sizes
    (modelPath : jstring) (nCtx nThreads : Z) (st : State) :
  let r := loadModel E modelPath nCtx nThreads st in
  let size := if 0 <? nCtx then nCtx else n_ctx (g_params st) in
  let threads := if 0 <? nThreads then nThreads else n_threads (g_params st) in
  fst r = true ->
  0 <= size < 2 ^ 31 -> 0 <= threads < 2 ^ 31 ->
  n_ctx (g_params (snd r)) = size /\
  n_threads (g_params (snd r)) = threads /\
  max_tokens (g_params (snd r)) = max_tokens (g_params st) /\
  temperature (g_params (snd r)) = temperature (g_params st) /\
  top_p (g_params (snd r)) = top_p (g_params st) /\
  top_k (g_params (snd r)) = top_k (g_params st) /\
  repeat_penalty (g_params (snd r)) = repeat_penalty (g_params st) /\
  exists m c seed,
    g_model (snd r) = Some m /\ g_ctx (snd r) = Some c /\
    last (trace (snd r))
    = Some (EvNewContext m
              {| cp_n_ctx := size; cp_n_threads := threads;
                 cp_n_threads_batch := threads; cp_seed := seed |}
              (Some c)).
Proof.
  intros r size threads. subst r. unfold loadModel.
  destruct (release_handles_spec E st) as (Hm & Hc & Ht & Hp & Hb).
  set (st0 := release_handles E st) in *.
  assert (Hu : forall z, 0 <= z < 2 ^ 31 -> to_uint32 z = z).
  { intros z Hz. unfold to_uint32. apply Z.mod_small. lia. }
  destruct (backend_initialized st0) eqn:Hbi; simpl;
    (destruct (llama_load_model_from_file E _ _ _) as [[m|] w]; simpl;
     [ destruct (llama_new_context_with_model E m _ _) as [[c|] w'] eqn:Hnew;
       simpl | ]);
    try discriminate; intros _ Hsize Hthreads;
    rewrite ?Hp; fold size; fold threads;
    rewrite !(Hu size Hsize), !(Hu threads Hthreads),
            !to_int32_small by lia;
    (repeat split; auto);
    eexists m, c, _; (repeat split; auto);
    rewrite last_snoc; reflexivity.
Qed.



(** X23. The available memory that [loadModel] reads is for the log
    only: on a host whose /proc/meminfo reads anything else, or cannot
    be read, the call has the same result, makes the same engine calls
    and leaves the same state. *)
Theorem loadModel_ignores_available_memory (f : world -> option Z)
    (modelPath : jstring) (nCtx nThreads : Z) (st : State) :
  loadModel (with_meminfo E f) modelPath nCtx nThreads st
  = loadModel E modelPath nCtx nThreads st.
Proof. reflexivity. Qed.

End Lifecycle.

Section Codec.

Context {llama_model llama_context world : Type}.
Variable E : Engine llama_model llama_context world.

Abbreviation State := (State llama_model llama_context world).
Abbreviation Event := (Event llama_model llama_context).

Lemma string_app_assoc (s1 s2 s3 : string) :
  (s1 +:+ s2) +:+ s3 = s1 +:+ (s2 +:+ s3).
Proof.
  induction s1 as [|c s1 IH]; [reflexivity|].
  exact (f_equal (String c) IH).
Qed.

Lemma string_app_nil_r (s : string) : s +:+ "" = s.
Proof.
  induction s as [|c s IH]; [reflexivity|].
  exact (f_equal (String c) IH).
Qed.

Lemma string_app_nil_l (s : string) : "" +:+ s = s.
Proof. reflexivity. Qed.

(** X6. [tokenize] against an engine that keeps the contract of
    [llama_tokenize] for a text whose tokens are [toks]: with room for
    them it writes them and returns their number, without room it returns
    the negated number.  Then [tokenize] returns exactly [toks].  It calls
    the engine once, with room for one token per byte of the text plus
    the begin-of-sequence token, and when that is too small once more
    with room for exactly the number reported. *)
Theorem tokenize_retries_once (text : string) (add_bos : bool) (st : State)
    (m : llama_model) (toks : list Z) :
  g_model st = Some m ->
  Z.of_nat (String.length text) + 1 < 2 ^ 31 ->
  Z.of_nat (length toks) < 2 ^ 31 ->
  (forall n_max, (length toks <= n_max)%nat ->
     llama_tokenize E m text n_max add_bos = (Z.of_nat (length toks), toks)) ->
  (forall n_max, (n_max < length toks)%nat ->
     fst (llama_tokenize E m text n_max add_bos) = - Z.of_nat (length toks)) ->
  let room := (String.length text + (if add_bos then 1 else 0))%nat in
  tokenize E text add_bos st
  = (Returns toks,
     emits (EvTokenize text room add_bos
            :: if (length toks <=? room)%nat then []
               else [EvTokenize text (length toks) add_bos]) st).
Proof.
  intros Hm Htext Hlen Hfit Hsmall room. unfold tokenize. rewrite Hm.
  assert (Hroom : to_int32 (Z.of_nat (String.length text)
                            + (if add_bos then 1 else 0))
                  = Z.of_nat room).
  { rewrite to_int32_small; subst room; destruct add_bos; lia. }
  rewrite Hroom. unfold vector_resize at 1.
  destruct (Z.of_nat room <? 0) eqn:Hneg; [lia|].
  rewrite Nat2Z.id, resize_nil. unfold call_llama_tokenize.
  rewrite length_replicate.
  destruct (length toks <=? room)%nat eqn:Hcmp.
  - apply Nat.leb_le in Hcmp. rewrite (Hfit room Hcmp).
    rewrite to_int32_small by lia.
    destruct (Z.of_nat (length toks) <? 0) eqn:Hn; [lia|].
    unfold vector_resize. rewrite Hn, Nat2Z.id. f_equal.
    f_equal. unfold write_buffer.
    rewrite length_replicate, take_ge by lia.
    by apply resize_app.
  - apply Nat.leb_gt in Hcmp.
    pose proof (Hsmall room Hcmp) as H1.
    destruct (llama_tokenize E m text room add_bos) as [n1 out1].
    simpl in H1. subst n1. rewrite to_int32_small by lia.
    destruct (- Z.of_nat (length toks) <? 0) eqn:Hn; [|lia].
    rewrite Z.opp_involutive, Nat2Z.id, length_resize.
    rewrite (Hfit (length toks)) by lia.
    rewrite to_int32_small by lia.
    unfold vector_resize.
    destruct (Z.of_nat (length toks) <? 0) eqn:Hn'; [lia|].
    rewrite Nat2Z.id, !emit_emits, emits_emits. f_equal. f_equal.
    unfold write_buffer. rewrite length_resize, take_ge by lia.
    by apply resize_app.
Qed.

(** The text of a sequence is the concatenation of its pieces. *)
Lemma detokenize_fold_text m (tokens : list Z) : forall s (st : State),
  fst (foldl (detokenize_step E m) (s, st) tokens)
  = s +:+ foldr (fun t acc => piece_of E m t +:+ acc) "" tokens.
Proof.
  induction tokens as [|t tokens IH]; intros s st; simpl.
  - by rewrite string_app_nil_r.
  - unfold piece_of. destruct (llama_token_to_piece E m t 256) as [n buf].
    destruct (0 <? n); rewrite IH.
    + by rewrite string_app_assoc.
    + by rewrite string_app_nil_l.
Qed.

Lemma pieces_app m (a b : list Z) :
  foldr (fun t acc => piece_of E m t +:+ acc) "" (a ++ b)
  = foldr (fun t acc => piece_of E m t +:+ acc) "" a
    +:+ foldr (fun t acc => piece_of E m t +:+ acc) "" b.
Proof.
  induction a as [|t a IH]; [reflexivity|].
  cbn [app foldr]. by rewrite IH, string_app_assoc.
Qed.

(** X7. [detokenize] is a homomorphism: the text of a concatenation is
    the concatenation of the texts, the text of no token is empty, and
    the text of one token is the first [n] bytes the engine wrote for
    it.  A token for which the engine reports no positive length, as it
    does when the piece does not fit the 256 bytes, leaves no trace in
    the text.  [detokenize] asks the engine once for every token. *)
Theorem detokenize_concatenates (a b : list Z) (st : State) :
  fst (detokenize E (a ++ b) st)
  = fst (detokenize E a st) +:+ fst (detokenize E b st) /\
  fst (detokenize E [] st) = "" /\
  (forall m t, g_model st = Some m ->
     fst (detokenize E [t] st) = piece_of E m t /\
     trace (snd (detokenize E a st))
     = trace st ++ (EvTokenToPiece <$> a) /\
     (fst (llama_token_to_piece E m t 256) <= 0 ->
      fst (detokenize E (a ++ t :: b) st)
      = fst (detokenize E (a ++ b) st))).
Proof.
  unfold detokenize. destruct (g_model st) as [m|] eqn:Hm.
  2: { repeat split; auto; discriminate. }
  rewrite !detokenize_fold_text, !string_app_nil_l.
  split; [apply pieces_app|]. split; [done|].
  intros m' t [= <-]. split.
  { rewrite detokenize_fold_text, string_app_nil_l. simpl.
    apply string_app_nil_r. }
  split.
  { by rewrite (detokenize_fold E m a "" st st). }
  intros Hn. rewrite !detokenize_fold_text, !string_app_nil_l, !pieces_app.
  f_equal. simpl. unfold piece_of at 1.
  destruct (llama_token_to_piece E m t 256) as [n buf]. simpl in Hn.
  destruct (0 <? n) eqn:Hpos; [lia|]. done.
Qed.

(** X8. The JNI function [tokenize] with a model loaded returns the
    number of tokens of the text, also when the output array is shorter.
    The array keeps its length; it receives the tokens, as many as fit,
    from its start, and keeps its elements beyond them.  The function
    makes the engine calls of the tokenizer and no other. *)
Theorem LlamaBridge_tokenize_copies_prefix (text : jstring)
    (outputTokens : list Z) (addBos : bool) (st : State)
    (m : llama_model) (toks : list Z) :
  g_model st = Some m ->
  fst (tokenize E (jstring_to_string text) addBos st) = Returns toks ->
  let out' :=
    take (length outputTokens) toks ++ drop (length toks) outputTokens in
  LlamaBridge_tokenize E text outputTokens addBos st
  = (Returns (Z.of_nat (length toks), out'),
     snd (tokenize E (jstring_to_string text) addBos st)) /\
  length out' = length outputTokens /\
  ((length toks <= length outputTokens)%nat ->
   take (length toks) out' = toks).
Proof.
  intros Hm Htok out'.
  pose proof (tokenize_length E _ _ _ _ Htok) as Hlen.
  split; [|split].
  - unfold LlamaBridge_tokenize. rewrite Hm.
    destruct (tokenize E (jstring_to_string text) addBos st) as [r st1].
    simpl in Htok. subst r. rewrite to_int32_small by lia. simpl snd.
    f_equal. f_equal. f_equal. unfold SetIntArrayRegion. subst out'.
    destruct (decide (length toks <= length outputTokens)%nat) as [Hle|Hgt].
    + rewrite Z.min_r, Nat2Z.id by lia.
      by rewrite !take_ge by lia.
    + rewrite Z.min_l, Nat2Z.id by lia.
      by rewrite !drop_ge by lia.
  - subst out'. rewrite length_app, length_take, length_drop. lia.
  - intros Hle. subst out'. rewrite (take_ge toks) by lia.
    apply take_app_length.
Qed.

Lemma write_buffer_full {A} (x : A) (l : list A) :
  write_buffer (replicate (length l) x) l = l.
Proof.
  unfold write_buffer.
  rewrite length_replicate, take_ge, drop_ge, app_nil_r by
    (rewrite ?length_replicate; lia).
  done.
Qed.

Lemma string_to_jstring_prefix (s : string) :
  exists rest, s = string_to_jstring s +:+ rest.
Proof.
  induction s as [|c s [rest IH]]; [by exists ""|]. cbn [string_to_jstring].
  destruct (Ascii.eqb c Ascii.zero).
  - by exists (String c s).
  - exists rest. exact (f_equal (String c) IH).
Qed.

Lemma string_to_jstring_nul_free (s : string) :
  ~ In Ascii.zero (String.list_ascii_of_string (string_to_jstring s)).
Proof.
  induction s as [|c s IH]; [intros []|]. cbn [string_to_jstring].
  destruct (Ascii.eqb_spec c Ascii.zero) as [->|Hc]; [intros []|].
  intros [H|H]; [done|]. by apply IH.
Qed.

Lemma string_to_jstring_cut (a b : string) :
  ~ In Ascii.zero (String.list_ascii_of_string a) ->
  string_to_jstring (a +:+ String Ascii.zero b) = a.
Proof.
  induction a as [|c a IH]; intros Hno; [reflexivity|].
  change (String c a +:+ String Ascii.zero b)
    with (String c (a +:+ String Ascii.zero b)).
  cbn [string_to_jstring]. simpl in Hno.
  destruct (Ascii.eqb_spec c Ascii.zero) as [->|_].
  - exfalso. apply Hno. by left.
  - rewrite IH; [reflexivity|]. intros H. apply Hno. by right.
Qed.

(** X24. The JNI function [detokenize] with a model loaded detokenizes
    the tokens of the array, all of them and in order, and returns the
    text as a Java string: the bytes before the first NUL byte of the
    text.  So the result holds no NUL byte and is a prefix of the text;
    a text without a NUL byte is returned in full, and a piece with a
    NUL byte hides everything after it. *)
Theorem LlamaBridge_detokenize_cuts_at_nul (tokens : list Z) (st : State)
    (m : llama_model) :
  g_model st = Some m ->
  let text := fst (detokenize E tokens st) in
  let r := LlamaBridge_detokenize E tokens st in
  r = (string_to_jstring text, snd (detokenize E tokens st)) /\
  ~ In Ascii.zero (String.list_ascii_of_string (fst r)) /\
  (exists rest, text = fst r +:+ rest) /\
  (~ In Ascii.zero (String.list_ascii_of_string text) -> fst r = text) /\
  (forall a b,
     text = a +:+ String Ascii.zero b ->
     ~ In Ascii.zero (String.list_ascii_of_string a) -> fst r = a).
Proof.
  intros Hm text r.
  assert (Hr : r = (string_to_jstring text, snd (detokenize E tokens st))).
  { subst r text. unfold LlamaBridge_detokenize.
    rewrite Hm, write_buffer_full. by destruct (detokenize E tokens st). }
  rewrite Hr. cbn [fst]. split; [done|].
  split; [apply string_to_jstring_nul_free|].
  split; [apply string_to_jstring_prefix|].
  split; [apply string_to_jstring_no_nul|].
  intros a b -> Hno. by apply string_to_jstring_cut.
Qed.

End Codec.

Section Generation.

Context {llama_model llama_context world : Type}.
Variable E : Engine llama_model llama_context world.

Abbreviation State := (State llama_model llama_context world).
Abbreviation Event := (Event llama_model llama_context).
Abbreviation LoopVars := (LoopVars llama_model llama_context world).

Lemma removelast_cons_ok {A} (P : A -> Prop) (x : A) (l : list A) :
  P x -> Forall P (removelast l) -> Forall P (removelast (x :: l)).
Proof.
  intros Hx Hl. destruct l as [|y l]; [constructor|].
  change (x :: y :: l) with ([x] ++ y :: l).
  rewrite removelast_app by done. by constructor.
Qed.

(** One iteration of the loop. *)
Lemma generation_body_facts model temp top_p_val top_k_val n_vocab
    (v : LoopVars) :
  let r := generation_body E model temp top_p_val top_k_val n_vocab v in
  exists evs,
    lv_st (snd r) = emits evs (lv_st v) /\
    List.filter is_sampling evs = sampling_block temp top_p_val top_k_val /\
    List.filter is_draw evs = [EvSampleToken] /\
    Forall (fun e => is_generating_store e = false /\ is_piece e = false /\
                     is_lifecycle e = false)
           evs /\
    ((fst r = Break /\ generated (snd r) = generated v /\
      List.filter is_decode evs = []) \/
     exists tok status,
       tok <> llama_token_eos E model /\
       generated (snd r) = generated v ++ [tok] /\
       List.filter is_decode evs
       = [EvDecode (next_batch tok (n_cur v)) status] /\
       ((fst r = Continue /\ status = 0 /\ n_cur (snd r) = n_cur v + 1) \/
        (fst r = Break /\ status <> 0))).
Proof.
  unfold generation_body.
  destruct (llama_get_logits E (lv_ctx v)) as [lg c0].
  destruct (llama_sample_top_k E c0 _ top_k_val 1) as [a1 c1].
  destruct (llama_sample_top_p E c1 a1 top_p_val 1) as [a2 c2].
  destruct (llama_sample_temp E c2 a2 temp) as [a3 c3].
  destruct (llama_sample_token E c3 a3) as [new_token c4].
  destruct (new_token =? llama_token_eos E model) eqn:Heos.
  - simpl. rewrite !emit_emits, !emits_emits. simpl.
    eexists. split; [reflexivity|]. simpl.
    repeat split; auto; repeat constructor; auto.
  - apply Z.eqb_neq in Heos.
    destruct (llama_decode E c4 _) as [status c5].
    destruct (status =? 0) eqn:Hs; simpl;
      rewrite !emit_emits, !emits_emits; simpl;
      (eexists; split; [reflexivity|]); simpl;
      (split; [reflexivity|]); (split; [reflexivity|]);
      (split; [repeat constructor; auto|]);
      right; exists new_token, status; repeat split; auto.
    + left. apply Z.eqb_eq in Hs. auto.
    + right. apply Z.eqb_neq in Hs. auto.
Qed.

(** The whole loop. *)
Lemma generation_loop_facts stops model max_gen temp top_p_val top_k_val
    n_vocab fuel : forall i (v : LoopVars),
  let v' := generation_loop E stops model max_gen temp top_p_val top_k_val
                            n_vocab fuel i v in
  exists evs b steps,
    lv_st v' = set_g_stop_requested b (emits evs (lv_st v)) /\
    generated v' = generated v ++ (fst <$> steps) /\
    loop_facts E model temp top_p_val top_k_val fuel (n_cur v) evs steps.
Proof.
  assert (Hstay : forall (v : LoopVars) k,
    exists (evs : list Event) b steps,
      lv_st v = set_g_stop_requested b (emits evs (lv_st v)) /\
      generated v = generated v ++ (fst <$> steps) /\
      loop_facts E model temp top_p_val top_k_val k (n_cur v) evs steps).
  { intros v k. exists [], (g_stop_requested (lv_st v)), [].
    rewrite emits_nil. simpl. rewrite ?app_nil_r.
    split; [by destruct (lv_st v)|]. split; [done|].
    exists 0%nat. simpl. repeat split; auto; try lia; constructor. }
  induction fuel as [|fuel IH]; intros i v; simpl; [apply Hstay|].
  destruct (i <? max_gen); [|apply Hstay].
  unfold concurrent_stop. destruct (stops i).
  { simpl. exists [EvStoreStopRequested true], true, [].
    simpl. rewrite ?app_nil_r. split; [done|]. split; [done|].
    exists 0%nat. simpl.
    repeat split; auto; try lia; repeat constructor. }
  destruct (g_stop_requested (lv_st v)) eqn:Hstop.
  { simpl. apply Hstay. }
  match goal with
  | |- context [generation_body E _ _ _ _ _ ?w] => set (v0 := w) end.
  destruct (generation_body_facts model temp top_p_val top_k_val n_vocab v0)
    as (evs1 & Hst1 & Hf1 & Hd1 & Hn1 & Hcase).
  destruct (generation_body E model temp top_p_val top_k_val n_vocab v0)
    as [ex v1]; simpl in *.
  destruct Hcase as [(-> & Hg1 & Hdec1)
                    |(tok & status & Heos & Hg1 & Hdec1 &
                      [(-> & -> & Hcur)|(-> & Hs)])].
  - (* the end-of-sequence token was drawn *)
    exists evs1, (g_stop_requested (lv_st v)), [].
    simpl. rewrite ?app_nil_r, Hst1, Hg1.
    split; [by destruct (lv_st v)|]. split; [done|].
    exists 1%nat. rewrite Hf1, Hd1, Hdec1. simpl. rewrite ?app_nil_r.
    repeat split; auto; try lia; constructor.
  - (* a step that succeeded *)
    destruct (IH (i + 1) v1)
      as (evs2 & b2 & steps2 & Hst2 & Hg2 &
          n2 & Hf2 & Hd2 & Hn2 & Hl2 & He2 & Hdec2 & Hok2 & Hno2).
    exists (evs1 ++ evs2), b2, ((tok, 0) :: steps2).
    rewrite Hst2, Hst1, emits_emits, Hg2, Hg1, <- app_assoc.
    split; [done|]. split; [done|].
    exists (S n2).
    rewrite !List.filter_app, Hf1, Hf2, Hd1, Hdec1, Hdec2, Hcur.
    rewrite length_app, Hd2. simpl.
    repeat split; auto; try lia.
    + f_equal; [by rewrite Z.add_0_r|]. apply imap_ext.
      intros k ts _. simpl. do 2 f_equal. lia.
    + by apply (removelast_cons_ok (fun ts : Z * Z => snd ts = 0)).
    + apply Forall_app. auto.
  - (* a step that failed *)
    exists evs1, (g_stop_requested (lv_st v)), [(tok, status)].
    simpl. rewrite Hst1, Hg1.
    split; [by destruct (lv_st v)|]. split; [done|].
    exists 1%nat. rewrite Hf1, Hd1, Hdec1. simpl. rewrite ?app_nil_r.
    repeat split; auto; try lia; try constructor; auto.
    by rewrite Z.add_0_r.
Qed.

(** ** The events of a call of [generate] *)

Lemma filter_tokenize_events (f : Event -> bool) text (evs : list Event) :
  (forall n, f (EvTokenize text n true) = false) ->
  Forall (fun e => exists n, e = EvTokenize text n true) evs ->
  List.filter f evs = [].
Proof.
  intros Hf. induction 1 as [|e evs [n ->] _ IH]; simpl; [done|].
  by rewrite Hf.
Qed.

Lemma filter_none (f : Event -> bool) (evs : list Event) :
  Forall (fun e => f e = false) evs -> List.filter f evs = [].
Proof.
  induction 1 as [|e evs He _ IH]; simpl; [done|]. by rewrite He.
Qed.

Lemma filter_pieces (tokens : list Z) :
  List.filter is_piece (EvTokenToPiece <$> tokens : list Event)
  = EvTokenToPiece <$> tokens.
Proof.
  induction tokens as [|t tokens IH]; [done|].
  cbn [fmap list_fmap List.filter is_piece]. by rewrite IH.
Qed.

Lemma filter_no_pieces (f : Event -> bool) (tokens : list Z) :
  (forall t, f (EvTokenToPiece t) = false) ->
  List.filter f (EvTokenToPiece <$> tokens : list Event) = [].
Proof.
  intros Hf. induction tokens as [|t tokens IH]; [done|].
  cbn [fmap list_fmap List.filter]. by rewrite Hf.
Qed.

(** A call with both handles live either ends early, or runs the loop
    and detokenizes the tokens of its decode steps. *)
Lemma generate_shape stops prompt maxTokens temperature' topP topK
    repeatPenalty (st : State) model ctx :
  g_model st = Some model -> g_ctx st = Some ctx ->
  let r :=
    generate E stops prompt maxTokens temperature' topP topK repeatPenalty
             st in
  let enter : list Event :=
    [EvStoreIsGenerating true; EvStoreStopRequested false] in
  exists tok_evs,
    Forall (fun e => exists n,
              e = EvTokenize (jstring_to_string prompt) n true) tok_evs /\
    g_model (snd r) = g_model st /\ g_params (snd r) = g_params st /\
    backend_initialized (snd r) = backend_initialized st /\
    the_world (snd r) = the_world st /\ is_Some (g_ctx (snd r)) /\
    ((exists tail,
        early_exit tail /\
        trace (snd r) = trace st ++ enter ++ tok_evs ++ tail /\
        (tail = [] <-> fst r = Throws) /\
        (forall tokens,
           fst (tokenize E (jstring_to_string prompt) true st)
           = Returns tokens ->
           tokens = [] \/
           to_int32 (llama_n_ctx E ctx) - 4 < Z.of_nat (length tokens) \/
           fst (llama_decode E (llama_kv_cache_clear E ctx)
                             (prefill_batch tokens)) <> 0))
     \/
     (exists tokens loop_evs steps,
        fst (tokenize E (jstring_to_string prompt) true st)
        = Returns tokens /\
        trace (snd r)
        = trace st ++ enter ++ tok_evs ++
          [EvNCtx; EvKvCacheClear; EvDecode (prefill_batch tokens) 0;
           EvNVocab] ++ loop_evs ++
          EvStoreIsGenerating false
          :: (EvTokenToPiece <$> (fst <$> steps)) /\
        loop_facts E model
          (temp_of temperature' (g_params st))
          (top_p_val_of topP (g_params st))
          (top_k_val_of topK (g_params st))
          (Z.to_nat (max_gen_of maxTokens (g_params st)))
          (Z.of_nat (length tokens)) loop_evs steps /\
        fst r
        = Returns (string_to_jstring
                     (fst (detokenize E (fst <$> steps) st))))).
Proof.
  intros Hm Hc r enter. subst r.
  destruct (generate_cases E stops prompt maxTokens temperature' topP topK
              repeatPenalty st model ctx Hm Hc) as (tok_evs & Hevs & ->).
  exists tok_evs. split; [done|].
  destruct (fst (tokenize E _ true st)) as [tokens|] eqn:Htok; simpl.
  2: { rewrite Hc. repeat split; auto. left. exists [].
       rewrite app_nil_r. split; [by left|]. by repeat split. }
  pose proof (tokenize_length E _ _ _ _ Htok) as Hlen.
  destruct (length tokens =? 0)%nat eqn:Hz; simpl.
  { rewrite Hc. repeat split; auto. left. eexists. split; [right; by left|].
    split; [reflexivity|]. split; [split; discriminate|].
    intros ? [= <-]. left. by apply length_zero_iff_nil. }
  rewrite (to_int32_small (Z.of_nat (length tokens))) by lia.
  destruct (_ <? _) eqn:Hcmp; simpl.
  { rewrite Hc. repeat split; auto. left. eexists.
    split; [right; right; by left|].
    split; [reflexivity|]. split; [split; discriminate|].
    intros ? [= <-]. right. left. lia. }
  destruct (llama_decode E (llama_kv_cache_clear E ctx) (prefill_batch tokens))
    as [status c1] eqn:Hd. simpl.
  destruct (status =? 0) eqn:Hs; simpl.
  2: { repeat split; auto. left. eexists. split.
       { right; right; right. exists (prefill_batch tokens), status.
         apply Z.eqb_neq in Hs. split; [done|reflexivity]. }
       rewrite <- ?app_assoc. simpl. rewrite <- ?app_assoc. simpl.
       split; [reflexivity|]. split; [split; discriminate|].
       intros ? [= <-]. right. right. rewrite Hd. simpl.
       by apply Z.eqb_neq. }
  apply Z.eqb_eq in Hs. subst status.
  match goal with
  | |- context [generation_loop E ?a ?b ?c ?d ?e ?f ?g ?h ?i ?j] =>
    destruct (generation_loop_facts a b c d e f g h i j)
      as (evs & sb & steps & Hst & Hg & Hfacts);
    set (v := generation_loop E a b c d e f g h i j) in *
  end.
  simpl in Hg, Hfacts. rewrite Hst, Hg. simpl.
  repeat split; auto. right. exists tokens, evs, steps.
  split; [done|]. split; [|split; [done|done]].
  rewrite <- ?app_assoc. simpl. rewrite <- ?app_assoc. simpl.
  by rewrite <- ?app_assoc.
Qed.

(** What a call of [generate] draws and detokenizes, in numbers. *)
Lemma generate_counts stops prompt maxTokens temperature' topP topK
    repeatPenalty (st : State) :
  let r :=
    generate E stops prompt maxTokens temperature' topP topK repeatPenalty
             st in
  exists evs n toks,
    trace (snd r) = trace st ++ evs /\
    List.filter is_sampling evs
    = concat (replicate n
        (sampling_block (temp_of temperature' (g_params st))
                        (top_p_val_of topP (g_params st))
                        (top_k_val_of topK (g_params st)))) /\
    length (List.filter is_draw evs) = n /\
    (n <= Z.to_nat (max_gen_of maxTokens (g_params st)))%nat /\
    List.filter is_piece evs = EvTokenToPiece <$> toks /\
    (length toks <= n)%nat /\
    (toks = [] \/
     fst r = Returns (string_to_jstring (fst (detokenize E toks st)))) /\
    (forall model, g_model st = Some model ->
       Forall (fun t => t <> llama_token_eos E model) toks).
Proof.
  intros r.
  assert (Hidle : trace (snd r) = trace st ->
    exists (evs : list Event) n (toks : list Z),
      trace (snd r) = trace st ++ evs /\
      List.filter is_sampling evs
      = concat (replicate n
          (sampling_block (temp_of temperature' (g_params st))
                          (top_p_val_of topP (g_params st))
                          (top_k_val_of topK (g_params st)))) /\
      length (List.filter is_draw evs) = n /\
      (n <= Z.to_nat (max_gen_of maxTokens (g_params st)))%nat /\
      List.filter is_piece evs = EvTokenToPiece <$> toks /\
      (length toks <= n)%nat /\
      (toks = [] \/
     fst r = Returns (string_to_jstring (fst (detokenize E toks st)))) /\
      (forall model, g_model st = Some model ->
         Forall (fun t => t <> llama_token_eos E model) toks)).
  { intros Heq. exists [], 0%nat, []. rewrite app_nil_r.
    repeat split; auto; simpl; try lia. }
  destruct (g_model st) as [model|] eqn:Hm.
  2: { apply Hidle. subst r. unfold generate. by rewrite Hm. }
  destruct (g_ctx st) as [ctx|] eqn:Hc.
  2: { apply Hidle. subst r. unfold generate. by rewrite Hm, Hc. }
  clear Hidle.
  destruct (generate_shape stops prompt maxTokens temperature' topP topK
              repeatPenalty st model ctx Hm Hc)
    as (tok_evs & Hevs & _ & _ & _ & _ & _ & Hshape).
  fold r in Hshape.
  pose proof (filter_tokenize_events is_sampling _ _ (fun _ => eq_refl) Hevs)
    as Hts.
  pose proof (filter_tokenize_events is_draw _ _ (fun _ => eq_refl) Hevs)
    as Htd.
  pose proof (filter_tokenize_events is_piece _ _ (fun _ => eq_refl) Hevs)
    as Htp.
  destruct Hshape as [(tail & Hearly & Ht & _)
                     |(tokens & loop_evs & steps & _ & Ht & Hfacts & Hr)].
  - eexists _, 0%nat, []. split; [exact Ht|].
    simpl. rewrite !List.filter_app, Hts, Htd, Htp. simpl.
    destruct Hearly as [->|[->|[->|(b & s & _ & ->)]]]; simpl;
      repeat split; auto; lia.
  - destruct Hfacts as (n & Hf & Hd & Hn & Hl & He & _ & _ & Hno).
    eexists _, n, (fst <$> steps). split; [exact Ht|].
    assert (Hnp : List.filter is_piece loop_evs = []).
    { apply filter_none. eapply Forall_impl; [exact Hno|].
      by intros e (_ & ? & _). }
    simpl. rewrite !List.filter_app, Hts, Htd, Htp. simpl.
    rewrite !List.filter_app, Hf, Hnp. simpl.
    rewrite (filter_no_pieces is_sampling), (filter_no_pieces is_draw),
            filter_pieces, !app_nil_r, length_fmap, Hd by done.
    repeat split; auto.
    intros model' [= <-]. apply Forall_fmap.
    eapply Forall_impl; [exact He|]. done.
Qed.

(** [generate] keeps the session whatever happens. *)
Lemma generate_frame stops prompt maxTokens temperature' topP topK
    repeatPenalty (st : State) :
  let r :=
    generate E stops prompt maxTokens temperature' topP topK repeatPenalty
             st in
  g_model (snd r) = g_model st /\ g_params (snd r) = g_params st /\
  backend_initialized (snd r) = backend_initialized st /\
  the_world (snd r) = the_world st /\
  isModelLoaded (snd r) = isModelLoaded st.
Proof.
  intros r.
  destruct (g_model st) as [model|] eqn:Hm.
  2: { subst r. unfold generate. rewrite Hm. simpl.
       unfold isModelLoaded. by rewrite Hm. }
  destruct (g_ctx st) as [ctx|] eqn:Hc.
  2: { subst r. unfold generate. rewrite Hm, Hc. simpl.
       unfold isModelLoaded. by rewrite Hm, Hc. }
  destruct (generate_shape stops prompt maxTokens temperature' topP topK
              repeatPenalty st model ctx Hm Hc)
    as (tok_evs & _ & Hm' & Hp' & Hb' & Hw' & [c' Hc'] & _).
  fold r in Hm', Hp', Hb', Hw', Hc'.
  unfold isModelLoaded. rewrite Hm', Hc', Hm, Hc. auto.
Qed.

(** X13. [generate] clears the stop flag before it reads it: with both
    handles live, a call behaves the same whatever the flag was when it
    began, so a stop request made before the call is discarded. *)
Theorem stop_before_generate_is_discarded stops prompt maxTokens
    temperature' topP topK repeatPenalty (b : bool) (st : State)
    model ctx :
  g_model st = Some model -> g_ctx st = Some ctx ->
  generate E stops prompt maxTokens temperature' topP topK repeatPenalty
           (set_g_stop_requested b st)
  = generate E stops prompt maxTokens temperature' topP topK repeatPenalty
             st.
Proof.
  intros Hm Hc. unfold generate.
  cbn [set_g_stop_requested g_model g_ctx]. rewrite Hm, Hc.
  change (store_stop_requested false
            (store_is_generating true (set_g_stop_requested b st)))
    with (store_stop_requested false (store_is_generating true st)).
  reflexivity.
Qed.

(** X14. A call of [generate] draws at most as many tokens as the token
    budget in effect, and it detokenizes no more tokens than it drew. *)
Theorem generate_token_budget stops prompt maxTokens temperature' topP
    topK repeatPenalty (st : State) :
  let r :=
    generate E stops prompt maxTokens temperature' topP topK repeatPenalty
             st in
  exists evs,
    trace (snd r) = trace st ++ evs /\
    (length (List.filter is_draw evs)
     <= Z.to_nat (max_gen_of maxTokens (g_params st)))%nat /\
    (length (List.filter is_piece evs)
     <= length (List.filter is_draw evs))%nat.
Proof.
  intros r.
  destruct (generate_counts stops prompt maxTokens temperature' topP topK
              repeatPenalty st)
    as (evs & n & toks & Ht & _ & Hd & Hn & Hp & Hl & _).
  exists evs. rewrite Hd, Hp, length_fmap. auto.
Qed.

(** X15. The end-of-sequence token is never part of the output.  With
    both handles live, the tokens that a call of [generate] passes to
    [llama_token_to_piece] all differ from it.  Either the call reaches
    the loop, and it returns the Java string of the detokenization of
    exactly those tokens; or it detokenizes nothing, and it throws or
    returns one of its three error texts. *)
Theorem generate_never_returns_eos stops prompt maxTokens temperature'
    topP topK repeatPenalty (st : State) model ctx :
  g_model st = Some model -> g_ctx st = Some ctx ->
  let r :=
    generate E stops prompt maxTokens temperature' topP topK repeatPenalty
             st in
  exists evs toks,
    trace (snd r) = trace st ++ evs /\
    List.filter is_piece evs = EvTokenToPiece <$> toks /\
    Forall (fun t => t <> llama_token_eos E model) toks /\
    ((exists tokens,
        fst (tokenize E (jstring_to_string prompt) true st)
        = Returns tokens /\
        tokens <> [] /\
        Z.of_nat (length tokens) <= to_int32 (llama_n_ctx E ctx) - 4 /\
        fst (llama_decode E (llama_kv_cache_clear E ctx)
                          (prefill_batch tokens)) = 0 /\
        fst r = Returns (string_to_jstring (fst (detokenize E toks st))))
     \/
     (toks = [] /\
      (fst r = Throws \/
       fst r = Returns "[Error: Failed to tokenize]" \/
       fst r = Returns "[Error: Prompt too long]" \/
       fst r = Returns "[Error: Decode failed]"))).
Proof.
  intros Hm Hc r. subst r.
  destruct (generate_cases E stops prompt maxTokens temperature' topP topK
              repeatPenalty st model ctx Hm Hc) as (tok_evs & Hevs & ->).
  pose proof (filter_tokenize_events is_piece _ _ (fun _ => eq_refl) Hevs)
    as Hnp.
  destruct (fst (tokenize E _ true st)) as [tokens|] eqn:Htok.
  2: { eexists _, []. cbn [fst snd]. split; [reflexivity|].
       split; [simpl; by rewrite Hnp|]. split; [constructor|].
       right. split; [done|]. by left. }
  pose proof (tokenize_length E _ _ _ _ Htok) as Hlen.
  destruct (length tokens =? 0)%nat eqn:Hz.
  { eexists _, []. cbn [fst snd]. split; [reflexivity|].
    split; [simpl; by rewrite List.filter_app, Hnp|]. split; [constructor|].
    right. split; [done|]. right. by left. }
  assert (Hne : tokens <> []).
  { intros ->. done. }
  rewrite (to_int32_small (Z.of_nat (length tokens))) by lia.
  destruct (_ <? _) eqn:Hcmp.
  { eexists _, []. cbn [fst snd]. split; [reflexivity|].
    split; [simpl; by rewrite List.filter_app, Hnp|]. split; [constructor|].
    right. split; [done|]. right. right. by left. }
  apply Z.ltb_ge in Hcmp. cbv zeta.
  destruct (llama_decode E (llama_kv_cache_clear E ctx) (prefill_batch tokens))
    as [status c1] eqn:Hd. cbn [fst snd].
  destruct (status =? 0) eqn:Hs; simpl negb; cbv iota.
  2: { eexists _, []. cbn [fst snd]. split; [simpl; reflexivity|].
       split; [simpl; by rewrite !List.filter_app, Hnp|].
       split; [constructor|].
       right. split; [done|]. right. right. by right. }
  apply Z.eqb_eq in Hs. subst status.
  match goal with
  | |- context [generation_loop E ?a ?b ?c ?d ?e ?f ?g ?h ?i ?j] =>
    destruct (generation_loop_facts a b c d e f g h i j)
      as (evs & sb & steps & Hst & Hg & Hfacts);
    set (v := generation_loop E a b c d e f g h i j) in *
  end.
  cbn [generated lv_st app] in Hg, Hst.
  destruct Hfacts as (n & _ & _ & _ & _ & Heos & _ & _ & Hno).
  cbn [fst snd]. rewrite Hst, Hg.
  exists ([EvStoreIsGenerating true; EvStoreStopRequested false] ++
          tok_evs ++
          [EvNCtx; EvKvCacheClear; EvDecode (prefill_batch tokens) 0;
           EvNVocab] ++ evs ++
          EvStoreIsGenerating false
          :: (EvTokenToPiece <$> (fst <$> steps))), (fst <$> steps).
  split; [|split; [|split]].
  - simpl. rewrite <- ?app_assoc. simpl. by rewrite <- ?app_assoc.
  - simpl. rewrite !List.filter_app, Hnp. simpl.
    rewrite List.filter_app. cbn [List.filter is_piece].
    rewrite (filter_none is_piece evs), filter_pieces; [done|].
    eapply Forall_impl; [exact Hno|]. by intros e (_ & ? & _).
  - apply Forall_fmap. exact Heos.
  - left. exists tokens. by rewrite Hd.
Qed.

(** X16. In a call of [generate] that reaches the loop, the decode calls
    are the prefill of the prompt followed by the steps: each step
    submits one token and asks for its scores, step [k] at position
    [n + k] for a prompt of [n] tokens, so the positions continue the
    prompt without a gap.  Every step but the last succeeded, and the
    text returned is the Java string made of the detokenization of the
    step tokens. *)
Theorem generate_positions_contiguous stops prompt maxTokens temperature'
    topP topK repeatPenalty (st : State) model ctx tokens :
  g_model st = Some model -> g_ctx st = Some ctx ->
  fst (tokenize E (jstring_to_string prompt) true st) = Returns tokens ->
  tokens <> [] ->
  Z.of_nat (length tokens) <= to_int32 (llama_n_ctx E ctx) - 4 ->
  fst (llama_decode E (llama_kv_cache_clear E ctx) (prefill_batch tokens))
  = 0 ->
  let r :=
    generate E stops prompt maxTokens temperature' topP topK repeatPenalty
             st in
  exists evs steps,
    trace (snd r) = trace st ++ evs /\
    List.filter is_decode evs
    = EvDecode (prefill_batch tokens) 0
      :: imap (fun k ts =>
                 EvDecode
                   {| n_tokens := 1; token := [fst ts];
                      pos := [Z.of_nat (length tokens) + Z.of_nat k];
                      n_seq_id := [1]; seq_id := [0]; logits := [true] |}
                   (snd ts)) steps /\
    Forall (fun ts => snd ts = 0) (removelast steps) /\
    fst r
    = Returns (string_to_jstring (fst (detokenize E (fst <$> steps) st))).
Proof.
  intros Hm Hc Htok Hne Hfit Hpre r.
  destruct (generate_shape stops prompt maxTokens temperature' topP topK
              repeatPenalty st model ctx Hm Hc)
    as (tok_evs & Hevs & _ & _ & _ & _ & _ & Hshape).
  fold r in Hshape.
  destruct Hshape as [(tail & _ & _ & _ & Hpath)
                     |(tokens' & loop_evs & steps & Htok' & Ht & Hfacts & Hr)].
  { destruct (Hpath tokens Htok) as [?|[?|?]]; [done|lia|done]. }
  rewrite Htok in Htok'. injection Htok' as <-.
  destruct Hfacts as (n & _ & _ & _ & _ & _ & Hdec & Hok & Hno).
  eexists _, steps. split; [exact Ht|].
  pose proof (filter_tokenize_events is_decode _ _ (fun _ => eq_refl) Hevs)
    as Htd.
  split; [|done].
  simpl. rewrite !List.filter_app, Htd. simpl.
  rewrite !List.filter_app, Hdec. simpl.
  by rewrite (filter_no_pieces is_decode), app_nil_r.
Qed.

(** X17. In a call of [generate] that returns with both handles live,
    [g_is_generating] is stored twice: [true] as the first event, and
    [false] once every decode and sampling call is over.  Nothing but
    the detokenization of the output follows the second store. *)
Theorem generate_in_progress_brackets stops prompt maxTokens temperature'
    topP topK repeatPenalty (st : State) model ctx s :
  g_model st = Some model -> g_ctx st = Some ctx ->
  let r :=
    generate E stops prompt maxTokens temperature' topP topK repeatPenalty
             st in
  fst r = Returns s ->
  exists mid tail,
    trace (snd r)
    = trace st ++
      EvStoreIsGenerating true :: mid ++ EvStoreIsGenerating false :: tail /\
    Forall (fun e => is_generating_store e = false) mid /\
    Forall (fun e => is_piece e = true) tail.
Proof.
  intros Hm Hc r Hret.
  destruct (generate_shape stops prompt maxTokens temperature' topP topK
              repeatPenalty st model ctx Hm Hc)
    as (tok_evs & Hevs & _ & _ & _ & _ & _ & Hshape).
  fold r in Hshape.
  assert (Htg : Forall (fun e : Event => is_generating_store e = false)
                       tok_evs).
  { eapply Forall_impl; [exact Hevs|]. by intros e [n ->]. }
  destruct Hshape as [(tail & Hearly & Ht & Hthrow & _)
                     |(tokens & loop_evs & steps & _ & Ht & Hfacts & _)].
  - destruct Hearly as [->|[->|[->|(b & status & _ & ->)]]].
    + destruct Hthrow as [Hthrow _]. rewrite Hthrow in Hret by done.
      discriminate.
    + exists (EvStoreStopRequested false :: tok_evs), [].
      rewrite Ht. simpl. rewrite <- ?app_assoc.
      split; [done|]. split; [by constructor|by constructor].
    + exists (EvStoreStopRequested false :: tok_evs ++ [EvNCtx]), [].
      rewrite Ht. simpl. rewrite <- ?app_assoc. simpl.
      split; [done|]. split; [|by constructor]. constructor; [done|].
      apply Forall_app. split; [done|]. by repeat constructor.
    + exists (EvStoreStopRequested false
              :: tok_evs ++ [EvNCtx; EvKvCacheClear; EvDecode b status]), [].
      rewrite Ht. simpl. rewrite <- ?app_assoc. simpl.
      split; [done|]. split; [|by constructor]. constructor; [done|].
      apply Forall_app. split; [done|]. by repeat constructor.
  - destruct Hfacts as (n & _ & _ & _ & _ & _ & _ & _ & Hno).
    exists (EvStoreStopRequested false
            :: tok_evs ++
               [EvNCtx; EvKvCacheClear; EvDecode (prefill_batch tokens) 0;
                EvNVocab] ++ loop_evs),
           (EvTokenToPiece <$> (fst <$> steps)).
    rewrite Ht. simpl. rewrite <- ?app_assoc. simpl.
    split; [done|]. split.
    + constructor; [done|]. apply Forall_app. split; [done|].
      repeat (constructor; [done|]).
      eapply Forall_impl; [exact Hno|]. by intros e [].
    + apply Forall_fmap. by apply Forall_true.
Qed.

(** X18. [generate] keeps the session: the model handle, the configured
    parameters, the backend flag and the world outside are as before the
    call, and a session is live after the call exactly when one was live
    before. *)
Theorem generate_keeps_session stops prompt maxTokens temperature' topP
    topK repeatPenalty (st : State) :
  let r :=
    generate E stops prompt maxTokens temperature' topP topK repeatPenalty
             st in
  g_model (snd r) = g_model st /\ g_params (snd r) = g_params st /\
  backend_initialized (snd r) = backend_initialized st /\
  the_world (snd r) = the_world st /\
  isModelLoaded (snd r) = isModelLoaded st.
Proof. intros r. apply generate_frame. Qed.

(** X21. [setDefaultParams] calls no engine function and touches neither
    handle.  The values it configures are the ones a later call of
    [generate] samples with when that call supplies sentinels: every
    iteration calls top-k, top-p and temperature with the configured
    values, and there are at most as many iterations as the configured
    token budget. *)
Theorem setDefaultParams_then_generate stops prompt
    (maxTokens topK max_tokens0 top_k0 : Z)
    (temperature' topP repeatPenalty temperature0 top_p0 repeat_penalty0
       : float) (st : State) :
  0 < max_tokens0 -> float_ge0 temperature0 = true ->
  float_gt0 top_p0 = true -> 0 < top_k0 ->
  maxTokens <= 0 -> float_ge0 temperature' = false ->
  float_gt0 topP = false -> topK <= 0 ->
  let st1 :=
    setDefaultParams max_tokens0 temperature0 top_p0 top_k0 repeat_penalty0
                     st in
  let r :=
    generate E stops prompt maxTokens temperature' topP topK repeatPenalty
             st1 in
  trace st1 = trace st /\ g_model st1 = g_model st /\
  g_ctx st1 = g_ctx st /\
  exists evs n,
    trace (snd r) = trace st ++ evs /\
    List.filter is_sampling evs
    = concat (replicate n
        [EvSampleTopK top_k0 1; EvSampleTopP top_p0 1;
         EvSampleTemp temperature0; EvSampleToken]) /\
    (n <= Z.to_nat max_tokens0)%nat.
Proof.
  intros H1 H2 H3 H4 S1 S2 S3 S4 st1 r.
  split; [done|]. split; [done|]. split; [done|].
  destruct (generate_counts stops prompt maxTokens temperature' topP topK
              repeatPenalty st1)
    as (evs & n & toks & Ht & Hf & _ & Hn & _).
  fold r in Ht. exists evs, n.
  assert (Hmg : max_gen_of maxTokens (g_params st1) = max_tokens0).
  { unfold max_gen_of. rewrite (proj2 (Z.ltb_ge 0 maxTokens) S1).
    subst st1. simpl. by rewrite (proj2 (Z.ltb_lt 0 max_tokens0) H1). }
  assert (Htk : top_k_val_of topK (g_params st1) = top_k0).
  { unfold top_k_val_of. rewrite (proj2 (Z.ltb_ge 0 topK) S4).
    subst st1. simpl. by rewrite (proj2 (Z.ltb_lt 0 top_k0) H4). }
  assert (Htp : top_p_val_of topP (g_params st1) = top_p0).
  { unfold top_p_val_of. rewrite S3. subst st1. simpl. by rewrite H3. }
  assert (Htt : temp_of temperature' (g_params st1) = temperature0).
  { unfold temp_of. rewrite S2. subst st1. simpl. by rewrite H2. }
  rewrite Hmg in Hn. rewrite Htk, Htp, Htt in Hf.
  split; [exact Ht|]. split; [exact Hf|exact Hn].
Qed.

End Generation.

Section Embedding.

Context {llama_model llama_context world : Type}.
Variable E : Engine llama_model llama_context world.

Abbreviation State := (State llama_model llama_context world).
Abbreviation Event := (Event llama_model llama_context).

Ltac state_eq :=
  apply state_ext; simpl;
  repeat (rewrite <- app_assoc; simpl);
  rewrite ?app_nil_r; reflexivity.

(** [getEmbedding] with both handles live, path by path, with the final
    state in terms of the initial one and the events [tok_evs] of the
    tokenizer. *)
Lemma getEmbedding_cases text array_ok (st : State) model ctx :
  g_model st = Some model -> g_ctx st = Some ctx ->
  let text_str := jstring_to_string text in
  exists tok_evs,
    Forall (fun e => exists n, e = EvTokenize text_str n true) tok_evs /\
    getEmbedding E text array_ok st
    = match fst (tokenize E text_str true st) with
      | Throws => (Throws, emits tok_evs st)
      | Returns tokens =>
        if (length tokens =? 0)%nat then (Returns None, emits tok_evs st)
        else
          let b := prefill_batch tokens in
          let d := llama_decode E (llama_kv_cache_clear E ctx) b in
          let pre := tok_evs ++ [EvKvCacheClear; EvDecode b (fst d)] in
          if negb (fst d =? 0) then
            (Returns None, set_g_ctx (Some (snd d)) (emits pre st))
          else
            let n_embd := llama_n_embd E model in
            if n_embd <=? 0 then
              (Returns None,
               set_g_ctx (Some (snd d)) (emits (pre ++ [EvNEmbd]) st))
            else
              let g := llama_get_embeddings E (snd d) in
              let st' :=
                set_g_ctx (Some (snd g))
                  (emits (pre ++ [EvNEmbd; EvGetEmbeddings]) st) in
              match fst g with
              | None => (Returns None, st')
              | Some embd =>
                let at_ (i : nat) := default float_zero (embd !! i) in
                let norm :=
                  sqrtf
                    (foldl (fun norm i =>
                              f32_add norm (f32_mul (at_ i) (at_ i)))
                           float_zero (seq 0 (Z.to_nat n_embd))) in
                if array_ok then
                  (Returns
                     (Some ((fun i => f32_div (at_ i) norm)
                              <$> seq 0 (Z.to_nat n_embd))), st')
                else (Returns None, st')
              end
      end.
Proof.
  intros Hm Hc text_str.
  destruct (tokenize_frame E text_str true st st eq_refl)
    as (tok_evs & Hevs & Htok & _).
  exists tok_evs. split; [done|].
  unfold getEmbedding. rewrite Hm, Hc. fold text_str. rewrite Htok.
  destruct (fst (tokenize E text_str true st)) as [tokens|];
    cbn [fst]; [|done].
  destruct (length tokens =? 0)%nat; [done|].
  destruct (llama_decode E (llama_kv_cache_clear E ctx) (prefill_batch tokens))
    as [status c1] eqn:Hd. simpl fst. simpl snd.
  destruct (status =? 0); simpl negb; cbv iota; [|f_equal; state_eq].
  destruct (llama_n_embd E model <=? 0); [f_equal; state_eq|].
  destruct (llama_get_embeddings E c1) as [[embd|] c2]; simpl fst; simpl snd.
  - destruct array_ok; f_equal; state_eq.
  - f_equal; state_eq.
Qed.

Lemma zero_norm (s : bool) : f32_mul (S754_zero s) (S754_zero s) = float_zero.
Proof. by destruct s. Qed.

Lemma sum_of_zero_squares (embd : list float) (l : list nat) :
  Forall (fun x => exists s, x = S754_zero s) embd ->
  foldl (fun norm i =>
           f32_add norm
             (f32_mul (default float_zero (embd !! i))
                      (default float_zero (embd !! i))))
        float_zero l
  = float_zero.
Proof.
  intros Hz. induction l as [|i l IH]; [done|]. cbn [foldl].
  assert (Hi : exists s, default float_zero (embd !! i) = S754_zero s).
  { destruct (embd !! i) as [x|] eqn:Hx; simpl.
    - eapply Forall_lookup_1 in Hz; [|exact Hx]. done.
    - by exists false. }
  destruct Hi as [s ->]. rewrite zero_norm.
  change (f32_add float_zero float_zero) with float_zero. exact IH.
Qed.

(** X10. When [getEmbedding] returns a vector, the model reports a
    positive embedding size and the vector has exactly that many
    components; the Java array was allocated, the prompt has tokens, and
    its prefill was decoded with success. *)
Theorem getEmbedding_result_dimension text array_ok (st : State) model ctx
    v :
  g_model st = Some model -> g_ctx st = Some ctx ->
  fst (getEmbedding E text array_ok st) = Returns (Some v) ->
  0 < llama_n_embd E model /\
  length v = Z.to_nat (llama_n_embd E model) /\
  array_ok = true /\
  exists tokens,
    fst (tokenize E (jstring_to_string text) true st) = Returns tokens /\
    tokens <> [] /\
    fst (llama_decode E (llama_kv_cache_clear E ctx) (prefill_batch tokens))
    = 0.
Proof.
  intros Hm Hc.
  destruct (getEmbedding_cases text array_ok st model ctx Hm Hc)
    as (tok_evs & _ & ->).
  destruct (fst (tokenize E _ true st)) as [tokens|]; [|done].
  destruct (length tokens =? 0)%nat eqn:Hlen; [done|]. cbv zeta.
  destruct (fst (llama_decode E _ _) =? 0) eqn:Hd; simpl negb; cbv iota;
    [|done].
  destruct (llama_n_embd E model <=? 0) eqn:Hn; [done|].
  destruct (fst (llama_get_embeddings E _)) as [embd|]; [|done].
  destruct array_ok; [|done].
  intros [= <-]. rewrite length_fmap, length_seq.
  split; [lia|]. split; [done|]. split; [done|].
  exists tokens. split; [done|]. split; [|lia].
  intros ->. done.
Qed.

(** X11. The norm is not tested before the division.  When the engine's
    embedding is zero in every component, [getEmbedding] does not answer
    absent: it returns a vector of the embedding size whose components
    are all NaN. *)
Theorem getEmbedding_zero_embedding_is_nan text (st : State) model ctx
    tokens embd :
  g_model st = Some model -> g_ctx st = Some ctx ->
  fst (tokenize E (jstring_to_string text) true st) = Returns tokens ->
  tokens <> [] ->
  let d := llama_decode E (llama_kv_cache_clear E ctx) (prefill_batch tokens)
  in
  fst d = 0 ->
  0 < llama_n_embd E model ->
  fst (llama_get_embeddings E (snd d)) = Some embd ->
  length embd = Z.to_nat (llama_n_embd E model) ->
  Forall (fun x => exists s, x = S754_zero s) embd ->
  fst (getEmbedding E text true st)
  = Returns (Some (replicate (Z.to_nat (llama_n_embd E model)) S754_nan)).
Proof.
  intros Hm Hc Htok Hne d Hd Hn Hg Hlen Hz.
  destruct (getEmbedding_cases text true st model ctx Hm Hc)
    as (tok_evs & _ & ->).
  rewrite Htok.
  destruct (length tokens =? 0)%nat eqn:Hl.
  { apply length_zero_iff_nil in Hl. done. }
  cbv zeta. fold d. rewrite Hd. simpl negb. cbv iota.
  rewrite (proj2 (Z.leb_gt _ _) Hn), Hg. cbn [fst].
  do 2 f_equal. rewrite sum_of_zero_squares by done.
  change (sqrtf float_zero) with float_zero.
  rewrite <- Hlen. clear -Hz.
  assert (Hgen : forall k,
    (fun i => f32_div (default float_zero (embd !! i)) float_zero)
      <$> seq k (length (drop k embd))
    = replicate (length (drop k embd)) S754_nan).
  2: { specialize (Hgen 0%nat). by rewrite drop_0 in Hgen. }
  intros k. remember (length (drop k embd)) as n eqn:Hn.
  revert k Hn. induction n as [|n IH]; intros k Hn; [done|].
  cbn [seq fmap list_fmap replicate]. f_equal.
  - destruct (embd !! k) as [x|] eqn:Hx.
    + eapply Forall_lookup_1 in Hz; [|exact Hx]. destruct Hz as [s ->].
      by destruct s.
    + done.
  - apply IH. rewrite length_drop in Hn |- *. lia.
Qed.

(** The fields that a call leaves as they were. *)
Ltac frame :=
  repeat split; unfold isModelLoaded; simpl;
  repeat match goal with H : _ = Some _ |- _ => rewrite H end; done.

(** The events and the frame of [getEmbedding]. *)
Lemma getEmbedding_events text array_ok (st : State) :
  let r := getEmbedding E text array_ok st in
  (exists evs,
     trace (snd r) = trace st ++ evs /\
     Forall (fun e => is_flag_store e = false /\ is_lifecycle e = false)
            evs /\
     (List.filter is_inference evs = [] \/
      exists tokens status,
        fst (tokenize E (jstring_to_string text) true st) = Returns tokens /\
        tokens <> [] /\
        List.filter is_inference evs
        = [EvKvCacheClear; EvDecode (prefill_batch tokens) status])) /\
  g_model (snd r) = g_model st /\
  g_is_generating (snd r) = g_is_generating st /\
  g_stop_requested (snd r) = g_stop_requested st /\
  g_params (snd r) = g_params st /\
  backend_initialized (snd r) = backend_initialized st /\
  the_world (snd r) = the_world st /\
  isModelLoaded (snd r) = isModelLoaded st /\
  is_live (g_ctx (snd r)) = is_live (g_ctx st).
Proof.
  intros r.
  assert (Hnone : forall (b : bool), g_model st = None \/ g_ctx st = None ->
                  getEmbedding E text array_ok st = (Returns None, st)).
  { intros _ [H|H]; unfold getEmbedding; rewrite H; [done|].
    by destruct (g_model st). }
  destruct (g_model st) as [model|] eqn:Hm.
  2: { subst r. rewrite Hnone by (by left; auto). simpl.
       split; [|done]. exists []. rewrite app_nil_r.
       split; [done|]. split; [constructor|by left]. }
  destruct (g_ctx st) as [ctx|] eqn:Hc.
  2: { subst r. rewrite Hnone by (by right; auto). simpl.
       split; [|by rewrite Hc]. exists []. rewrite app_nil_r.
       split; [done|]. split; [constructor|by left]. }
  destruct (getEmbedding_cases text array_ok st model ctx Hm Hc)
    as (tok_evs & Hevs & Hr).
  subst r. rewrite Hr. clear Hr.
  assert (Hfs : Forall (fun e : Event => is_flag_store e = false /\
                                         is_lifecycle e = false) tok_evs).
  { eapply Forall_impl; [exact Hevs|]. by intros e [n ->]. }
  pose proof (filter_tokenize_events is_inference _ _ (fun _ => eq_refl) Hevs)
    as Hinf.
  assert (Hl : isModelLoaded (emits tok_evs st) = isModelLoaded st) by done.
  destruct (fst (tokenize E _ true st)) as [tokens|] eqn:Htok.
  2: { cbn [snd]. split; [|frame]. exists tok_evs.
       split; [done|]. split; [done|by left]. }
  destruct (length tokens =? 0)%nat eqn:Hlen.
  { cbn [snd]. split; [|frame]. exists tok_evs.
    split; [done|]. split; [done|by left]. }
  assert (Hne : tokens <> []).
  { intros ->. done. }
  assert (Hloaded : forall c evs,
            isModelLoaded (set_g_ctx (Some c) (emits evs st))
            = isModelLoaded st).
  { intros c evs. unfold isModelLoaded. simpl. by rewrite Hm, Hc. }
  cbv zeta.
  destruct (llama_decode E (llama_kv_cache_clear E ctx) (prefill_batch tokens))
    as [status c1]. cbn [fst snd].
  assert (Hpre : forall tail,
            Forall (fun e : Event => is_flag_store e = false /\
                                     is_lifecycle e = false) tail ->
            List.filter is_inference tail = [] ->
            exists evs,
              trace st ++
              ((tok_evs ++
                [EvKvCacheClear; EvDecode (prefill_batch tokens) status]) ++
               tail) = trace st ++ evs /\
              Forall (fun e : Event => is_flag_store e = false /\
                                       is_lifecycle e = false) evs /\
              (List.filter is_inference evs = [] \/
               exists tokens' status',
                 Returns tokens = Returns tokens' /\ tokens' <> [] /\
                 List.filter is_inference evs
                 = [EvKvCacheClear; EvDecode (prefill_batch tokens') status'])).
  { intros tail Ht Hf. eexists. split; [reflexivity|]. split.
    - apply Forall_app. split; [|done]. apply Forall_app. split; [done|].
      by repeat constructor.
    - right. exists tokens, status. split; [done|]. split; [done|].
      rewrite !List.filter_app, Hinf, Hf. done. }
  destruct (status =? 0); simpl negb; cbv iota.
  2: { cbn [snd]. split; [|frame].
       destruct (Hpre [] (Forall_nil_2 _) eq_refl) as (evs & He & ?).
       exists evs. split; [|done]. simpl. rewrite <- He.
       by rewrite app_nil_r. }
  destruct (llama_n_embd E model <=? 0).
  { cbn [snd]. split; [|frame].
    destruct (Hpre [EvNEmbd]) as (evs & He & ?);
      [by repeat constructor|done|].
    exists evs. split; [|done]. simpl. by rewrite <- He. }
  destruct (Hpre [EvNEmbd; EvGetEmbeddings]) as (evs & He & Hrest);
    [by repeat constructor|done|].
  destruct (llama_get_embeddings E c1) as [[embd|] c2]; cbn [fst snd].
  - destruct array_ok; cbn [snd];
      (split; [|frame]);
      exists evs; (split; [|done]); simpl; by rewrite <- He.
  - split; [|frame].
    exists evs. split; [|done]. simpl. by rewrite <- He.
Qed.

(** X12. [getEmbedding] is prefill only.  It stores to neither flag and
    makes no sampling call; its inference calls are none at all, or the
    clearing of the KV cache followed by one decode of the prefill batch
    of the text.  The model handle, both flags, the configured
    parameters, the backend flag and the world outside are as before the
    call, and a session is live after it exactly when one was before. *)
Theorem getEmbedding_is_prefill_only text array_ok (st : State) :
  let r := getEmbedding E text array_ok st in
  (exists evs,
     trace (snd r) = trace st ++ evs /\
     Forall (fun e => is_flag_store e = false) evs /\
     (List.filter is_inference evs = [] \/
      exists tokens status,
        fst (tokenize E (jstring_to_string text) true st) = Returns tokens /\
        tokens <> [] /\
        List.filter is_inference evs
        = [EvKvCacheClear; EvDecode (prefill_batch tokens) status])) /\
  g_model (snd r) = g_model st /\
  g_is_generating (snd r) = g_is_generating st /\
  g_stop_requested (snd r) = g_stop_requested st /\
  g_params (snd r) = g_params st /\
  backend_initialized (snd r) = backend_initialized st /\
  the_world (snd r) = the_world st /\
  isModelLoaded (snd r) = isModelLoaded st.
Proof.
  intros r.
  destruct (getEmbedding_events text array_ok st)
    as ((evs & Ht & Hf & Hi) & Hm & Hg & Hs & Hp & Hb & Hw & Hl & _).
  split; [|done]. exists evs. split; [done|]. split; [|done].
  eapply Forall_impl; [exact Hf|]. by intros e [? _].
Qed.

End Embedding.

Section Host.

Context {llama_model llama_context world : Type}.
Variable E : Engine llama_model llama_context world.

Abbreviation State := (State llama_model llama_context world).
Abbreviation Event := (Event llama_model llama_context).

(** ** The handle protocol *)

Lemma protocol_app (h : bool * bool) (a b : list Event) :
  protocol h (a ++ b)
  = match protocol h a with
    | Some h' => protocol h' b
    | None => None
    end.
Proof.
  revert h. induction a as [|e a IH]; intros h; simpl; [done|].
  destruct (protocol_step h e); [apply IH|done].
Qed.

Lemma protocol_stay (h : bool * bool) (evs : list Event) :
  Forall (fun e => protocol_step h e = Some h) evs ->
  protocol h evs = Some h.
Proof. induction 1 as [|e evs He _ IH]; simpl; [done|]. by rewrite He. Qed.

Lemma not_lifecycle_step (e : Event) :
  is_lifecycle e = false ->
  protocol_step (true, true) e = Some (true, true).
Proof. by destruct e. Qed.

Lemma flag_store_step (h : bool * bool) (e : Event) :
  is_flag_store e = true -> protocol_step h e = Some h.
Proof. destruct h as [m c]. by destruct e. Qed.

Lemma release_handles_flags (st : State) :
  g_is_generating (release_handles E st) = g_is_generating st.
Proof.
  unfold release_handles.
  destruct (g_ctx st) as [c|] eqn:Hc, (g_model st) as [m|] eqn:Hm;
    simpl; rewrite ?Hm; simpl; auto.
Qed.

Lemma release_protocol (st : State) :
  protocol (handles st) (release_events st) = Some (false, false).
Proof.
  unfold handles, release_events.
  by destruct (g_model st) as [m|], (g_ctx st) as [c|].
Qed.

(** What is needed of a call that keeps the handles. *)
Lemma between_calls_keep (st st' : State) (evs : list Event) :
  between_calls st ->
  trace st' = trace st ++ evs ->
  Forall (fun e => protocol_step (handles st) e = Some (handles st)) evs ->
  handles st' = handles st ->
  g_is_generating st' = false ->
  between_calls st'.
Proof.
  intros (Hp & Ha & _) Ht Hevs Hh Hg. split; [|split; [|done]].
  - rewrite Ht, protocol_app, Hp, Hh. by apply protocol_stay.
  - revert Hh Ha. unfold handles.
    destruct (g_model st'), (g_ctx st'), (g_model st), (g_ctx st);
      simpl; intros Hh [H1 H2]; split; intros H; try done;
      first [by specialize (H1 eq_refl)|by specialize (H2 eq_refl)].
Qed.

(** What is needed of a call that replaces the handles. *)
Lemma between_calls_change (st st' : State) (evs : list Event) :
  between_calls st ->
  trace st' = trace st ++ evs ->
  protocol (handles st) evs = Some (handles st') ->
  (g_model st' = None <-> g_ctx st' = None) ->
  g_is_generating st' = false ->
  between_calls st'.
Proof.
  intros (Hp & Ha & _) Ht Hevs Hh Hg. split; [|split; [done|done]].
  by rewrite Ht, protocol_app, Hp.
Qed.

(** ** The calls, one by one *)

Lemma loadModel_handles (modelPath : jstring) (nCtx nThreads : Z)
    (st : State) :
  let st' := snd (loadModel E modelPath nCtx nThreads st) in
  exists evs,
    trace st' = trace st ++ evs /\
    protocol (handles st) evs = Some (handles st') /\
    (g_model st' = None <-> g_ctx st' = None) /\
    g_is_generating st' = g_is_generating st.
Proof.
  intros st'. subst st'. unfold loadModel.
  destruct (release_handles_spec E st) as (Hm & Hc & Ht & Hp & Hb).
  pose proof (release_handles_flags st) as Hg.
  pose proof (release_protocol st) as Hr.
  set (st0 := release_handles E st) in *.
  destruct (backend_initialized st0) eqn:Hbi; simpl;
    (destruct (llama_load_model_from_file E _ _ _) as [[m|] w]; simpl;
     [ destruct (llama_new_context_with_model E m _ _) as [[c|] w'];
       simpl | ]);
    rewrite ?Ht, ?Hg, ?Hm, ?Hc; unfold handles at 2; simpl;
    rewrite ?Hm, ?Hc;
    (eexists; split; [rewrite <- ?app_assoc; reflexivity|]);
    rewrite protocol_app, Hr; by simpl.
Qed.

Lemma generate_idle stops prompt maxTokens temperature' topP topK
    repeatPenalty (st : State) model ctx :
  g_model st = Some model -> g_ctx st = Some ctx ->
  let r :=
    generate E stops prompt maxTokens temperature' topP topK repeatPenalty
             st in
  fst r <> Throws -> g_is_generating (snd r) = false.
Proof.
  intros Hm Hc r. subst r.
  destruct (generate_cases E stops prompt maxTokens temperature' topP topK
              repeatPenalty st model ctx Hm Hc) as (tok_evs & _ & ->).
  destruct (fst (tokenize E _ true st)) as [tokens|]; [|done].
  destruct (length tokens =? 0)%nat; [done|].
  destruct (_ <? _); [done|]. cbv zeta.
  destruct (negb _); done.
Qed.

Lemma generate_keeps stops prompt maxTokens temperature' topP topK
    repeatPenalty (st : State) :
  let r :=
    generate E stops prompt maxTokens temperature' topP topK repeatPenalty
             st in
  fst r <> Throws ->
  exists evs,
    trace (snd r) = trace st ++ evs /\
    Forall (fun e => protocol_step (handles st) e = Some (handles st)) evs /\
    handles (snd r) = handles st /\
    (g_is_generating st = false -> g_is_generating (snd r) = false).
Proof.
  intros r Hret.
  destruct (g_model st) as [model|] eqn:Hm.
  2: { subst r. unfold generate. rewrite Hm. simpl. exists [].
       rewrite app_nil_r. by repeat split. }
  destruct (g_ctx st) as [ctx|] eqn:Hc.
  2: { subst r. unfold generate. rewrite Hm, Hc. simpl. exists [].
       rewrite app_nil_r. by repeat split. }
  pose proof (generate_idle stops prompt maxTokens temperature' topP topK
                repeatPenalty st model ctx Hm Hc Hret) as Hidle.
  destruct (generate_shape E stops prompt maxTokens temperature' topP topK
              repeatPenalty st model ctx Hm Hc)
    as (tok_evs & Hevs & Hm' & _ & _ & _ & [c' Hc'] & Hshape).
  fold r in Hm', Hc', Hshape, Hidle.
  assert (Hh : handles (snd r) = handles st).
  { unfold handles. by rewrite Hm', Hc', Hm, Hc. }
  assert (Hst : handles st = (true, true)).
  { unfold handles. by rewrite Hm, Hc. }
  assert (Htok : Forall (fun e : Event => is_lifecycle e = false) tok_evs).
  { eapply Forall_impl; [exact Hevs|]. by intros e [n ->]. }
  assert (Hall : exists evs,
            trace (snd r) = trace st ++ evs /\
            Forall (fun e : Event => is_lifecycle e = false) evs).
  { destruct Hshape as [(tail & Hearly & Ht & _)
                       |(tokens & loop_evs & steps & _ & Ht & Hfacts & _)].
    - eexists. split; [exact Ht|].
      apply Forall_app. split; [by repeat constructor|].
      apply Forall_app. split; [done|].
      destruct Hearly as [->|[->|[->|(b & status & _ & ->)]]];
        by repeat constructor.
    - destruct Hfacts as (n & _ & _ & _ & _ & _ & _ & _ & Hno).
      eexists. split; [exact Ht|].
      apply Forall_app. split; [by repeat constructor|].
      apply Forall_app. split; [done|].
      apply Forall_app. split; [by repeat constructor|].
      apply Forall_app. split.
      + eapply Forall_impl; [exact Hno|]. by intros e (_ & _ & ?).
      + constructor; [done|]. apply Forall_fmap. by apply Forall_true. }
  destruct Hall as (evs & Ht & Hno). exists evs.
  split; [done|]. split; [|by split].
  rewrite Hst. eapply Forall_impl; [exact Hno|].
  intros e. apply not_lifecycle_step.
Qed.

Lemma getEmbedding_keeps text array_ok (st : State) :
  let r := getEmbedding E text array_ok st in
  exists evs,
    trace (snd r) = trace st ++ evs /\
    Forall (fun e => protocol_step (handles st) e = Some (handles st)) evs /\
    handles (snd r) = handles st /\
    g_is_generating (snd r) = g_is_generating st /\
    g_params (snd r) = g_params st.
Proof.
  intros r.
  destruct (getEmbedding_events E text array_ok st)
    as ((evs & Ht & Hf & _) & Hm & Hg & _ & Hp & _ & _ & _ & Hl).
  fold r in Ht, Hm, Hg, Hp, Hl.
  exists evs. split; [done|]. split; [|split; [|done]].
  2: { unfold handles. by rewrite Hm, Hl. }
  destruct (g_model st) as [model|] eqn:Hm0, (g_ctx st) as [ctx|] eqn:Hc0.
  - assert (Hst : handles st = (true, true)).
    { unfold handles. by rewrite Hm0, Hc0. }
    rewrite Hst. eapply Forall_impl; [exact Hf|].
    intros e [_ ?]. by apply not_lifecycle_step.
  - assert (evs = []) as ->; [|constructor].
    subst r. revert Ht. unfold getEmbedding. rewrite Hm0, Hc0. simpl.
    intros Ht. apply (app_inv_head (trace st)). by rewrite app_nil_r.
  - assert (evs = []) as ->; [|constructor].
    subst r. revert Ht. unfold getEmbedding. rewrite Hm0. simpl.
    intros Ht. apply (app_inv_head (trace st)). by rewrite app_nil_r.
  - assert (evs = []) as ->; [|constructor].
    subst r. revert Ht. unfold getEmbedding. rewrite Hm0. simpl.
    intros Ht. apply (app_inv_head (trace st)). by rewrite app_nil_r.
Qed.

Lemma setThreads_keeps (nThreads : Z) (st : State) :
  let st' := setThreads E nThreads st in
  exists evs,
    trace st' = trace st ++ evs /\
    Forall (fun e => protocol_step (handles st) e = Some (handles st)) evs /\
    handles st' = handles st /\
    g_is_generating st' = g_is_generating st.
Proof.
  intros st'. subst st'. unfold setThreads, handles.
  destruct (0 <? nThreads).
  2: { exists []. rewrite app_nil_r. by repeat split. }
  simpl. destruct (g_ctx st) as [c|] eqn:Hc; simpl.
  - eexists [_]. split; [done|].
    split; [|done]. repeat constructor.
  - exists []. rewrite app_nil_r. rewrite Hc. by repeat split.
Qed.

Lemma LlamaBridge_tokenize_keeps text outputTokens addBos (st : State) :
  let r := LlamaBridge_tokenize E text outputTokens addBos st in
  exists evs,
    snd r = emits evs st /\
    Forall (fun e => protocol_step (handles st) e = Some (handles st)) evs.
Proof.
  intros r. subst r. unfold LlamaBridge_tokenize.
  destruct (g_model st) as [m|] eqn:Hm.
  2: { exists []. by rewrite emits_nil. }
  destruct (tokenize_frame E (jstring_to_string text) addBos st st eq_refl)
    as (evs & Hevs & -> & _).
  exists evs. split; [by destruct (fst _)|].
  eapply Forall_impl; [exact Hevs|]. intros e [n ->].
  unfold handles. by rewrite Hm.
Qed.

Lemma LlamaBridge_detokenize_keeps tokens (st : State) :
  let r := LlamaBridge_detokenize E tokens st in
  exists evs,
    snd r = emits evs st /\
    Forall (fun e => protocol_step (handles st) e = Some (handles st)) evs.
Proof.
  intros r. subst r. unfold LlamaBridge_detokenize.
  destruct (g_model st) as [m|] eqn:Hm.
  2: { exists []. by rewrite emits_nil. }
  rewrite (detokenize_frame E _ st st eq_refl) by (by rewrite Hm).
  eexists. split; [reflexivity|].
  apply Forall_fmap, Forall_true. intros t. simpl.
  unfold handles. by rewrite Hm.
Qed.

(** A call that returns keeps what holds between calls. *)
Lemma call_between (c : Call) (st st' : State) :
  call E c st = Returns st' -> between_calls st -> between_calls st'.
Proof.
  intros Hcall Hinv. pose proof Hinv as (Hp & Ha & Hg).
  destruct c; simpl in Hcall.
  - (* loadModel *)
    injection Hcall as <-.
    destruct (loadModel_handles modelPath nCtx nThreads st)
      as (evs & Ht & Hpr & Hag & Hgen).
    eapply between_calls_change; eauto; congruence.
  - (* unloadModel *)
    injection Hcall as <-. unfold unloadModel.
    destruct (release_handles_spec E st) as (Hm & Hc & Ht & _).
    eapply between_calls_change; [done|exact Ht| | |].
    + unfold handles at 2. rewrite Hm, Hc. apply release_protocol.
    + by rewrite Hm, Hc.
    + by rewrite release_handles_flags.
  - by injection Hcall as <-.
  - (* generate *)
    destruct (fst (generate E _ _ _ _ _ _ _ st)) eqn:Hret; [|done].
    injection Hcall as <-.
    destruct (generate_keeps stops prompt maxTokens temperature' topP topK
                repeatPenalty st) as (evs & Ht & Hf & Hh & Hgen).
    { by rewrite Hret. }
    eapply between_calls_keep; eauto.
  - (* stopGeneration *)
    injection Hcall as <-.
    eapply (between_calls_keep st _ [EvStoreStopRequested true]); eauto.
  - by injection Hcall as <-.
  - (* getEmbedding *)
    destruct (fst (getEmbedding E _ _ st)) eqn:Hret; [|done].
    injection Hcall as <-.
    destruct (getEmbedding_keeps text array_ok st)
      as (evs & Ht & Hf & Hh & Hgen & _).
    eapply between_calls_keep; eauto; congruence.
  - (* setThreads *)
    injection Hcall as <-.
    destruct (setThreads_keeps nThreads st) as (evs & Ht & Hf & Hh & Hgen).
    eapply between_calls_keep; eauto; congruence.
  - (* setDefaultParams *)
    injection Hcall as <-.
    eapply (between_calls_keep st _ []); eauto; simpl; by rewrite app_nil_r.
  - (* getContextSize *)
    injection Hcall as <-. unfold getContextSize.
    destruct (g_ctx st) as [c|] eqn:Hc; simpl; [|done].
    eapply (between_calls_keep st _ [EvNCtx]); eauto;
      repeat constructor; unfold handles; by rewrite Hc.
  - (* getVocabSize *)
    injection Hcall as <-. unfold getVocabSize.
    destruct (g_model st) as [m|] eqn:Hm; simpl; [|done].
    eapply (between_calls_keep st _ [EvNVocab]); eauto;
      repeat constructor; unfold handles; by rewrite Hm.
  - (* getEmbeddingSize *)
    injection Hcall as <-. unfold getEmbeddingSize.
    destruct (g_model st) as [m|] eqn:Hm; simpl; [|done].
    eapply (between_calls_keep st _ [EvNEmbd]); eauto;
      repeat constructor; unfold handles; by rewrite Hm.
  - (* freeBackend *)
    injection Hcall as <-. unfold freeBackend.
    destruct (release_handles_spec E st) as (Hm & Hc & Ht & _).
    pose proof (release_handles_flags st) as Hgen.
    eapply (between_calls_change st _ (release_events st ++ [EvBackendFree])).
    + done.
    + simpl. by rewrite Ht, <- app_assoc.
    + rewrite protocol_app, release_protocol. unfold handles. simpl.
      by rewrite Hm, Hc.
    + simpl. by rewrite Hm, Hc.
    + simpl. congruence.
  - (* tokenize *)
    destruct (fst (LlamaBridge_tokenize E _ _ _ st)) eqn:Hret; [|done].
    injection Hcall as <-.
    destruct (LlamaBridge_tokenize_keeps text outputTokens addBos st)
      as (evs & -> & Hf).
    eapply between_calls_keep; eauto.
  - (* detokenize *)
    injection Hcall as <-.
    destruct (LlamaBridge_detokenize_keeps tokens st) as (evs & -> & Hf).
    eapply between_calls_keep; eauto.
Qed.

Lemma calls_between (cs : list Call) : forall (st st' : State),
  calls E cs st = Returns st' -> between_calls st -> between_calls st'.
Proof.
  induction cs as [|c cs IH]; intros st st'; simpl.
  - by intros [= <-].
  - destruct (call E c st) as [st1|] eqn:Hc; [|done].
    intros Hcs Hinv. eapply IH; [exact Hcs|]. by eapply call_between.
Qed.

Lemma initial_between (w : world) : between_calls (initial w : State).
Proof. by repeat split. Qed.


(** ** The configured parameters *)

Lemma loadModel_params (modelPath : jstring) (nCtx nThreads : Z)
    (st : State) :
  let st' := snd (loadModel E modelPath nCtx nThreads st) in
  let gp := g_params st in
  g_params st' = gp \/
  g_params st'
  = {| max_tokens := max_tokens gp; temperature := temperature gp;
       top_p := top_p gp; top_k := top_k gp;
       repeat_penalty := repeat_penalty gp;
       n_threads :=
         to_int32 (to_uint32 (if 0 <? nThreads then nThreads
                              else n_threads gp));
       n_ctx :=
         to_int32 (to_uint32 (if 0 <? nCtx then nCtx else n_ctx gp)) |}.
Proof.
  intros st' gp. subst st' gp. unfold loadModel.
  destruct (release_handles_spec E st) as (_ & _ & _ & Hp & _).
  set (st0 := release_handles E st) in *.
  destruct (backend_initialized st0); simpl;
    (destruct (llama_load_model_from_file E _ _ _) as [[m|] w]; simpl;
     [ destruct (llama_new_context_with_model E m _ _) as [[c|] w'];
       simpl | ]);
    rewrite ?Hp; auto.
Qed.

Lemma jint_roundtrip (z : Z) : 0 < z < 2 ^ 31 -> to_int32 (to_uint32 z) = z.
Proof.
  intros Hz. unfold to_uint32. rewrite Z.mod_small by lia.
  apply to_int32_small. lia.
Qed.

(** A call with [jint] arguments keeps the configured parameters
    valid. *)
Lemma call_valid (c : Call) (st st' : State) :
  call E c st = Returns st' -> jint_args c ->
  valid_params (g_params st) -> valid_params (g_params st').
Proof.
  intros Hcall Hargs Hv.
  pose proof Hv as (Hmax & Htemp & Htop_p & Htop_k & Hrep & Hthr & Hctx).
  destruct c; simpl in Hcall, Hargs.
  - (* loadModel *)
    injection Hcall as <-. destruct Hargs as [Hn Ht]. unfold is_jint in *.
    destruct (loadModel_params modelPath nCtx nThreads st) as [->| ->];
      [done|].
    unfold valid_params. simpl.
    destruct (0 <? nCtx) eqn:H1, (0 <? nThreads) eqn:H2;
      rewrite !jint_roundtrip by lia; repeat split; auto; lia.
  - injection Hcall as <-. unfold unloadModel.
    destruct (release_handles_spec E st) as (_ & _ & _ & -> & _). done.
  - by injection Hcall as <-.
  - destruct (fst (generate E _ _ _ _ _ _ _ st)) eqn:Hret; [|done].
    injection Hcall as <-.
    destruct (generate_frame E stops prompt maxTokens temperature' topP topK
                repeatPenalty st) as (_ & -> & _). done.
  - by injection Hcall as <-.
  - by injection Hcall as <-.
  - destruct (fst (getEmbedding E _ _ st)) eqn:Hret; [|done].
    injection Hcall as <-.
    destruct (getEmbedding_keeps text array_ok st)
      as (evs & _ & _ & _ & _ & ->). done.
  - (* setThreads *)
    injection Hcall as <-. unfold is_jint in Hargs. unfold setThreads.
    destruct (0 <? nThreads) eqn:H1; [|done].
    assert (Hp : g_params
              (match g_ctx st with
               | Some c =>
                 emit (EvSetNThreads nThreads)
                   (set_g_ctx
                      (Some (llama_set_n_threads E c nThreads nThreads))
                      (set_g_params
                         {| max_tokens := max_tokens (g_params st);
                            temperature := temperature (g_params st);
                            top_p := top_p (g_params st);
                            top_k := top_k (g_params st);
                            repeat_penalty := repeat_penalty (g_params st);
                            n_threads := nThreads;
                            n_ctx := n_ctx (g_params st) |} st))
               | None =>
                 set_g_params
                   {| max_tokens := max_tokens (g_params st);
                      temperature := temperature (g_params st);
                      top_p := top_p (g_params st);
                      top_k := top_k (g_params st);
                      repeat_penalty := repeat_penalty (g_params st);
                      n_threads := nThreads;
                      n_ctx := n_ctx (g_params st) |} st
               end)
            = {| max_tokens := max_tokens (g_params st);
                 temperature := temperature (g_params st);
                 top_p := top_p (g_params st);
                 top_k := top_k (g_params st);
                 repeat_penalty := repeat_penalty (g_params st);
                 n_threads := nThreads;
                 n_ctx := n_ctx (g_params st) |}).
    { by destruct (g_ctx st). }
    simpl. rewrite Hp. unfold valid_params. simpl.
    repeat split; auto; lia.
  - (* setDefaultParams *)
    injection Hcall as <-. destruct Hargs as [Hn Hk]. unfold is_jint in *.
    unfold setDefaultParams, valid_params. simpl.
    destruct (0 <? maxTokens) eqn:H1, (0 <? topK) eqn:H2,
      (float_ge0 temperature') eqn:H3, (float_gt0 topP) eqn:H4,
      (float_gt0 repeatPenalty) eqn:H5;
      repeat split; auto; lia.
  - injection Hcall as <-. unfold getContextSize. by destruct (g_ctx st).
  - injection Hcall as <-. unfold getVocabSize. by destruct (g_model st).
  - injection Hcall as <-. unfold getEmbeddingSize. by destruct (g_model st).
  - injection Hcall as <-. unfold freeBackend. simpl.
    destruct (release_handles_spec E st) as (_ & _ & _ & -> & _). done.
  - destruct (fst (LlamaBridge_tokenize E _ _ _ st)) eqn:Hret; [|done].
    injection Hcall as <-.
    destruct (LlamaBridge_tokenize_keeps text outputTokens addBos st)
      as (evs & -> & _). done.
  - injection Hcall as <-.
    destruct (LlamaBridge_detokenize_keeps tokens st) as (evs & -> & _). done.
Qed.

Lemma calls_valid (cs : list Call) : forall (st st' : State),
  calls E cs st = Returns st' -> Forall jint_args cs ->
  valid_params (g_params st) -> valid_params (g_params st').
Proof.
  induction cs as [|c cs IH]; intros st st'; simpl.
  - by intros [= <-].
  - destruct (call E c st) as [st1|] eqn:Hc; [|done].
    intros Hcs Hargs Hv. apply Forall_cons in Hargs as [Hc1 Hargs].
    eapply IH; [exact Hcs|done|]. by eapply call_valid.
Qed.

(** X5. The configured parameters are valid whenever the host can
    observe them: after any sequence of calls with [jint] arguments
    that returned, from the start of the process, the configured counts
    are positive [int] values, the temperature is not negative and the
    other two floats are positive.  So whatever a call of [generate]
    supplies, the values in effect for it are positive, the temperature
    not negative. *)
Theorem params_stay_valid (w : world) (cs : list Call) (st : State) :
  Forall jint_args cs ->
  calls E cs (initial w) = Returns st ->
  valid_params (g_params st) /\
  forall (maxTokens topK : Z) (temperature' topP repeatPenalty : float),
    0 < max_gen_of maxTokens (g_params st) /\
    float_ge0 (temp_of temperature' (g_params st)) = true /\
    float_gt0 (top_p_val_of topP (g_params st)) = true /\
    0 < top_k_val_of topK (g_params st) /\
    float_gt0 (rep_pen_of repeatPenalty (g_params st)) = true.
Proof.
  intros Hargs Hcs.
  assert (Hv : valid_params (g_params st)).
  { eapply calls_valid; [exact Hcs|done|].
    unfold valid_params. simpl. repeat split; lia. }
  split; [done|].
  destruct Hv as (Hmax & Htemp & Htop_p & Htop_k & Hrep & _).
  intros maxTokens topK temperature' topP repeatPenalty.
  unfold max_gen_of, temp_of, top_p_val_of, top_k_val_of, rep_pen_of.
  destruct (0 <? maxTokens) eqn:H1, (0 <? topK) eqn:H2,
    (float_ge0 temperature') eqn:H3, (float_gt0 topP) eqn:H4,
    (float_gt0 repeatPenalty) eqn:H5;
    repeat split; auto; lia.
Qed.

(** X22. The bridge keeps the handle protocol of the engine.  In the
    trace of any sequence of calls that returned, from the start of the
    process, a model is loaded only when none is live, a context is
    created only for a live model without one and released before its
    model, nothing is released twice, and every call on the vocabulary
    or on a context has its handle live.  The trace ends with the
    handles as the globals have them: both live or both null, so that
    [isModelLoaded] tells whether anything is live.  No generation is
    in progress between calls. *)
Theorem calls_keep_handle_protocol (w : world) (cs : list Call)
    (st : State) :
  calls E cs (initial w) = Returns st ->
  protocol (false, false) (trace st)
  = Some (isModelLoaded st, isModelLoaded st) /\
  (g_model st = None <-> g_ctx st = None) /\
  isGenerating st = false.
Proof.
  intros Hcs.
  destruct (calls_between cs _ _ Hcs (initial_between w)) as (Hp & Ha & Hg).
  split; [|by split]. rewrite Hp. unfold handles, isModelLoaded.
  destruct Ha as [H1 H2].
  destruct (g_model st), (g_ctx st); try done;
    [by specialize (H2 eq_refl)|by specialize (H1 eq_refl)].
Qed.

(** X9. With no session every call but [loadModel] answers at once:
    after [unloadModel], [generate] returns its error text,
    [getEmbedding] nothing, the JNI [tokenize] -1 with the array as it
    was, the JNI [detokenize] the empty text and the three size queries
    0; none of them calls the engine or changes the state, and
    [setThreads] only records the count. *)
Theorem calls_without_session stops (prompt text : jstring)
    (maxTokens topK nThreads : Z) (temperature' topP repeatPenalty : float)
    (array_ok addBos : bool) (outputTokens tokens : list Z) (st : State) :
  let st0 := unloadModel E st in
  generate E stops prompt maxTokens temperature' topP topK repeatPenalty st0
  = (Returns "[Error: Model not loaded]", st0) /\
  getEmbedding E text array_ok st0 = (Returns None, st0) /\
  LlamaBridge_tokenize E text outputTokens addBos st0
  = (Returns (-1, outputTokens), st0) /\
  LlamaBridge_detokenize E tokens st0 = ("", st0) /\
  getContextSize E st0 = (0, st0) /\
  getVocabSize E st0 = (0, st0) /\
  getEmbeddingSize E st0 = (0, st0) /\
  trace (setThreads E nThreads st0) = trace st0 /\
  g_ctx (setThreads E nThreads st0) = None.
Proof.
  intros st0. subst st0. unfold unloadModel.
  destruct (release_handles_spec E st) as (Hm & Hc & _).
  set (st0 := release_handles E st) in *.
  unfold generate, getEmbedding, LlamaBridge_tokenize,
    LlamaBridge_detokenize, getContextSize, getVocabSize, getEmbeddingSize,
    setThreads.
  rewrite Hm, Hc. repeat split.
  - destruct (0 <? nThreads); [|done]. simpl. by rewrite Hc.
  - destruct (0 <? nThreads); [|done]. simpl. by rewrite Hc.
Qed.

End Host.

(** * The further properties on the small engine *)

Section FurtherOnToy.

Import Toy.

Lemma loadModel_records_sizes_witness :
  n_ctx (g_params (loaded 16 8)) = 16 /\
  n_threads (g_params (loaded 16 8)) = 8.
Proof.
  destruct (loadModel_records_sizes engine (Some "model.gguf") 16 8
              (start 4096) eq_refl ltac:(simpl; lia) ltac:(simpl; lia))
    as (H1 & H2 & _).
  split; [exact H1|exact H2].
Defined.

Lemma params_stay_valid_witness :
  valid_params (g_params (after session)) /\
  0 < max_gen_of 0 (g_params (after session)).
Proof.
  destruct (params_stay_valid engine 4096 session (after session))
    as [H1 H2].
  - unfold session, jint_args, is_jint. repeat constructor; lia.
  - vm_compute. reflexivity.
  - split; [exact H1|].
    exact (proj1 (H2 0 0 float_zero float_zero float_zero)).
Defined.

Lemma tokenize_retries_once_witness :
  tokenize engine_halves "ab" true (loaded 16 8)
  = (Returns [1; 6; 1; 6; 2],
     emits [EvTokenize "ab" 3 true; EvTokenize "ab" 5 true] (loaded 16 8)).
Proof.
  apply (tokenize_retries_once engine_halves "ab" true (loaded 16 8) 128
           [1; 6; 1; 6; 2]).
  - reflexivity.
  - reflexivity.
  - reflexivity.
  - intros n_max H.
    change (llama_tokenize engine_halves 128 "ab" n_max true)
      with (tokenize_halves "ab" n_max true).
    unfold tokenize_halves.
    change (halves "ab" true) with [1; 6; 1; 6; 2].
    by rewrite (proj2 (Nat.leb_le _ _) H).
  - intros n_max H.
    change (llama_tokenize engine_halves 128 "ab" n_max true)
      with (tokenize_halves "ab" n_max true).
    unfold tokenize_halves.
    change (halves "ab" true) with [1; 6; 1; 6; 2].
    by rewrite (proj2 (Nat.leb_gt _ _) H).
Defined.

Lemma LlamaBridge_tokenize_copies_prefix_witness :
  fst (LlamaBridge_tokenize engine (Some "ab") [0; 0] true (loaded 16 8))
  = Returns (3, [1; 97]).
Proof.
  destruct (LlamaBridge_tokenize_copies_prefix engine (Some "ab") [0; 0] true
              (loaded 16 8) 128 [1; 97; 98] eq_refl eq_refl) as (H & _).
  exact (f_equal fst H).
Defined.

Lemma getEmbedding_result_dimension_witness :
  let E0 := with_embedding [f_0_7; f_0_9] engine in
  0 < llama_n_embd E0 128 /\
  exists v,
    fst (getEmbedding E0 (Some "a") true (loaded 16 8)) = Returns (Some v) /\
    length v = 2%nat.
Proof.
  intros E0.
  destruct (fst (getEmbedding E0 (Some "a") true (loaded 16 8)))
    as [[v|]|] eqn:Hv; try (vm_compute in Hv; discriminate Hv).
  destruct (getEmbedding_result_dimension E0 (Some "a") true (loaded 16 8)
              128 (fresh 16 8) v eq_refl eq_refl Hv) as (H1 & H2 & _).
  split; [exact H1|]. exists v. split; [reflexivity|exact H2].
Defined.

Lemma getEmbedding_zero_embedding_is_nan_witness :
  fst (getEmbedding (with_embedding [float_zero; S754_zero true] engine)
         (Some "a") true (loaded 16 8))
  = Returns (Some [S754_nan; S754_nan]).
Proof.
  apply (getEmbedding_zero_embedding_is_nan
           (with_embedding [float_zero; S754_zero true] engine)
           (Some "a") (loaded 16 8) 128 (fresh 16 8) [1; 97]
           [float_zero; S754_zero true]);
    [reflexivity | reflexivity | reflexivity | discriminate | reflexivity
    | reflexivity | reflexivity | reflexivity
    | repeat constructor; eexists; reflexivity].
Defined.

Lemma stop_before_generate_is_discarded_witness :
  fst (run engine never "a" 8 (set_g_stop_requested true (loaded 16 8)))
  = fst (run engine never "a" 8 (loaded 16 8)).
Proof.
  exact (f_equal fst
           (stop_before_generate_is_discarded engine never (Some "a") 8
              minus_one minus_one 0 minus_one true (loaded 16 8) 128
              (fresh 16 8) eq_refl eq_refl)).
Defined.

Lemma generate_never_returns_eos_witness :
  let st := loaded 16 8 in
  let r := run engine never "a" 8 st in
  exists evs toks,
    trace (snd r) = trace st ++ evs /\
    List.filter is_piece evs = EvTokenToPiece <$> toks /\
    Forall (fun t => t <> 101) toks.
Proof.
  destruct (generate_never_returns_eos engine never (Some "a") 8 minus_one
              minus_one 0 minus_one (loaded 16 8) 128 (fresh 16 8) eq_refl
              eq_refl) as (evs & toks & H1 & H2 & H3 & _).
  exists evs, toks. split; [exact H1|]. split; [exact H2|exact H3].
Defined.

Lemma generate_positions_contiguous_witness :
  let st := loaded 16 4 in
  let r := run engine never "a" 8 st in
  exists evs steps,
    trace (snd r) = trace st ++ evs /\
    List.filter is_decode evs
    = EvDecode (prefill_batch [1; 97]) 0
      :: imap (fun k ts =>
                 EvDecode
                   {| n_tokens := 1; token := [fst ts];
                      pos := [2 + Z.of_nat k];
                      n_seq_id := [1]; seq_id := [0]; logits := [true] |}
                   (snd ts)) steps /\
    Forall (fun ts => snd ts = 0) (removelast steps) /\
    fst r
    = Returns (string_to_jstring
                 (fst (detokenize engine (fst <$> steps) st))).
Proof.
  apply (generate_positions_contiguous engine never (Some "a") 8 minus_one
           minus_one 0 minus_one (loaded 16 4) 128 (fresh 16 4) [1; 97]);
    [reflexivity | reflexivity | reflexivity | discriminate
    | vm_compute; discriminate | reflexivity].
Defined.

Lemma generate_in_progress_brackets_witness :
  let st := loaded 16 8 in
  let r := run engine never "a" 8 st in
  exists mid tail,
    trace (snd r)
    = trace st ++
      EvStoreIsGenerating true :: mid ++ EvStoreIsGenerating false :: tail /\
    Forall (fun e => is_generating_store e = false) mid /\
    Forall (fun e => is_piece e = true) tail.
Proof.
  exact (generate_in_progress_brackets engine never (Some "a") 8 minus_one
           minus_one 0 minus_one (loaded 16 8) 128 (fresh 16 8) "bcd"
           eq_refl eq_refl eq_refl).
Defined.



Lemma setDefaultParams_then_generate_witness :
  let st := loaded 16 8 in
  let st1 := setDefaultParams 2 float_zero f_0_9 5 minus_one st in
  let r := run engine never "a" 0 st1 in
  exists evs n,
    trace (snd r) = trace st ++ evs /\
    List.filter is_sampling evs
    = concat (replicate n
        [EvSampleTopK 5 1; EvSampleTopP f_0_9 1; EvSampleTemp float_zero;
         EvSampleToken]) /\
    (n <= 2)%nat.
Proof.
  destruct (setDefaultParams_then_generate engine never (Some "a") 0 0 2 5
              minus_one minus_one minus_one float_zero f_0_9 minus_one
              (loaded 16 8))
    as (_ & _ & _ & H); [lia | reflexivity | reflexivity | lia | lia
                        | reflexivity | reflexivity | lia | exact H].
Defined.

Lemma calls_keep_handle_protocol_witness :
  protocol (false, false) (trace (after session)) = Some (false, false) /\
  isGenerating (after session) = false.
Proof.
  destruct (calls_keep_handle_protocol engine 4096 session (after session))
    as (H1 & _ & H2).
  - vm_compute. reflexivity.
  - split; [exact H1|exact H2].
Defined.

Lemma LlamaBridge_detokenize_cuts_at_nul_witness :
  fst (detokenize engine [97; 0; 98] (loaded 16 8))
  = "a" +:+ String Ascii.zero "b" /\
  fst (LlamaBridge_detokenize engine [97; 0; 98] (loaded 16 8)) = "a".
Proof.
  destruct (LlamaBridge_detokenize_cuts_at_nul engine [97; 0; 98]
              (loaded 16 8) 128 eq_refl) as (_ & _ & _ & _ & H).
  split; [reflexivity|]. apply (H "a" "b"); [reflexivity|].
  intros [H1|[]]. discriminate H1.
Defined.

End FurtherOnToy.
